(** * histogram.py: sessions, column selection and plot life cycles

    A shallow embedding of [histogram.py].  Python objects that are shared and
    mutated in place (data frames) live in a store addressed by references;
    calls into matplotlib are recorded as a trace; exceptions and warnings are
    threaded through a small state-and-exception monad.

    Numbers are exact rationals ([Q]) extended with the non-finite values of
    IEEE arithmetic; rounding of binary floating point is not modelled.
    A string is a sequence of characters with a code point below 256 (the
    Latin-1 range of Unicode), one [ascii] per character; lower-casing and
    white space are those of Python's [str] on these characters. *)

From Stdlib Require Import Ascii String QArith Qround Qreduction.
From stdpp Require Import base strings list gmap pretty.

Local Open Scope Z_scope.
Local Open Scope string_scope.
Local Open Scope list_scope.

(* ------------------------------------------------------------------------ *)
(** ** Strings *)

(** [str.lower()], character by character.  Below code point 256 the
    upper-case letters are A to Z (65 to 90) and the accented capitals 192 to
    222 except the multiplication sign 215; each has its lower-case letter 32
    places further, and no other character changes. *)
Definition lower_ascii (c : ascii) : ascii :=
  let n := nat_of_ascii c in
  if ((65 <=? n)%nat && (n <=? 90)%nat)
     || ((192 <=? n)%nat && (n <=? 222)%nat && negb (n =? 215)%nat)
  then ascii_of_nat (n + 32) else c.

Fixpoint lower (s : string) : string :=
  match s with
  | EmptyString => EmptyString
  | String c s' => String (lower_ascii c) (lower s')
  end.

(** [needle in hay] on strings: [needle] occurs as a contiguous substring. *)
Fixpoint contains (needle hay : string) : bool :=
  String.prefix needle hay ||
  match hay with
  | EmptyString => false
  | String _ hay' => contains needle hay'
  end.

(** [x in l] for a list of strings. *)
Definition str_in (x : string) (l : list string) : bool :=
  bool_decide (x ∈ l).

(* ------------------------------------------------------------------------ *)
(** ** Cell values and their arithmetic *)

Inductive value :=
| VNum (q : Q)          (* a finite number, int or float *)
| VInf (neg : bool)     (* +inf / -inf *)
| VNaN                  (* missing value *)
| VStr (s : string).    (* text, in a column of dtype object *)

Definition Qzero (q : Q) : bool := Qeq_bool q 0.
Definition Qneg (q : Q) : bool := negb (Qle_bool 0 q).
Definition qnum (q : Q) : value := VNum (Qred q).

(** Elementwise arithmetic; [None] is Python's [TypeError] (text operand). *)
Definition vdiv (a b : value) : option value :=
  match a, b with
  | VStr _, _ | _, VStr _ => None
  | VNaN, _ | _, VNaN => Some VNaN
  | VNum x, VNum y =>
      if Qzero y then
        if Qzero x then Some VNaN else Some (VInf (Qneg x))
      else Some (qnum (x / y))
  | VNum _, VInf _ => Some (qnum 0)
  | VInf s, VNum y => Some (VInf (xorb s (Qneg y)))
  | VInf _, VInf _ => Some VNaN
  end.

Definition vmul (a b : value) : option value :=
  match a, b with
  | VStr _, _ | _, VStr _ => None
  | VNaN, _ | _, VNaN => Some VNaN
  | VNum x, VNum y => Some (qnum (x * y))
  | VNum x, VInf s | VInf s, VNum x =>
      if Qzero x then Some VNaN else Some (VInf (xorb s (Qneg x)))
  | VInf s, VInf s' => Some (VInf (xorb s s'))
  end.

Definition vadd (a b : value) : option value :=
  match a, b with
  | VStr _, _ | _, VStr _ => None
  | VNaN, _ | _, VNaN => Some VNaN
  | VNum x, VNum y => Some (qnum (x + y))
  | VNum _, VInf s | VInf s, VNum _ => Some (VInf s)
  | VInf s, VInf s' => if Bool.eqb s s' then Some (VInf s) else Some VNaN
  end.

(** [a // b] as pandas evaluates it on an index: division by zero gives a
    non-finite value instead of raising. *)
Definition vfloordiv (a b : value) : option value :=
  match a, b with
  | VStr _, _ | _, VStr _ => None
  | VNaN, _ | _, VNaN => Some VNaN
  | VNum x, VNum y =>
      if Qzero y then
        if Qzero x then Some VNaN else Some (VInf (Qneg x))
      else Some (qnum (inject_Z (Qfloor (x / y))))
  | VNum x, VInf s =>
      if Qzero x || Bool.eqb (Qneg x) s then Some (qnum 0) else Some (qnum (-1))
  | VInf _, _ => Some VNaN
  end.

(* ------------------------------------------------------------------------ *)
(** ** Data frames, sessions, the store *)

Abbreviation Series := (list value).

Record DataFrame := mkDataFrame {
  index_name : option string;
  index : list value;
  columns : list (string * Series)
}.

(** [data.columns] as the loop sees it: the labels, in order. *)
Definition labels (df : DataFrame) : list string := map fst (columns df).

(** The values of the configuration keys this module reads: the experiment
    runner writes scalars there.  In arithmetic and comparisons a boolean is
    the number 0 or 1, as in Python. *)
Inductive json_value :=
| JNull
| JBool (b : bool)
| JNum (q : Q)
| JStr (s : string).

Abbreviation ref := nat.
Abbreviation Path := (list string).     (* the parts of a [pathlib.Path] *)

Record Session := mkSession {
  name : string;
  path : Path;
  config : option string;
  json : option (gmap string json_value);
  data : option ref
}.

(** [self.data], under a name that no argument called [data] hides. *)
Definition session_data (s : Session) : option ref := data s.

(** Python values handed to [select] and to the plots. *)
Inductive pyval :=
| PyNone
| PyFrame (r : ref)
| PySession (s : Session)
| PyOther (type_name : string).

Definition of_frame (o : option ref) : pyval :=
  match o with
  | Some r => PyFrame r
  | None => PyNone
  end.

(** What reading a file can fail with. *)
Inductive io_error :=
| NoSuchFile (file : string)       (* [Errno 2] No such file or directory *)
| NotADirectory (file : string)    (* [Errno 20] Not a directory *)
| IsADirectory (file : string)     (* [Errno 21] Is a directory *)
| EmptyData                        (* pandas: No columns to parse from file *)
| ParserError.                     (* pandas: the rows do not fit the header *)

(** A message [format % args], kept unformatted. *)
Inductive fmt_arg :=
| ArgStr (s : string)
| ArgJson (v : json_value)
| ArgErr (e : io_error).

Record message := Msg { format : string; args : list fmt_arg }.

Inductive exn :=
| UserException (msg : message)
| RuntimeError (msg : message)
| AttributeError (msg : message)
| KeyError (msg : message)
| TypeError (msg : message)
| ValueError (msg : message).

(** Calls into matplotlib, in the order they are made. *)
Inductive mpl_call :=
| Subplots (fig : nat)
| Twinx (fig : nat)
| FillBetween (fig : nat) (twin : bool) (x lo hi : list value) (facecolor : string) (alpha : Q)
| Plot (fig : nat) (twin : bool) (x y : list value) (label linestyle color : string) (alpha : Q)
| Axvline (fig : nat) (x : Q) (color : string) (label ls : option string) (lw : Q)
| Hist (fig : nat) (samples : list value) (bins : Z)
| Legend (fig : nat) (twin : bool) (handles : option (list nat)) (texts : option (list string))
| Grid (fig : nat)
| SetXlabel (fig : nat) (s : string)
| SetYlabel (fig : nat) (twin : bool) (s : string)
| SetTitle (fig : nat) (s : string)
| SetXlim (fig : nat) (lo hi : option Q)
| SetYlim (fig : nat) (twin : bool) (lo hi : option Q)
| Show (fig : nat)
| SetSizeInches (fig : nat) (w h : Q)
| SetDpi (fig : nat) (dpi : Q)
| Savefig (fig : nat) (file : string)
| Close (fig : nat).

Record world := mkWorld {
  frames : list DataFrame;       (* the data frames alive, by reference *)
  warnings : list message;       (* what [tools.warning] printed *)
  mpl : list mpl_call            (* what matplotlib was asked to do *)
}.

Inductive outcome (A : Type) :=
| Ok (a : A)
| Raise (e : exn).
Arguments Ok {A} a.
Arguments Raise {A} e.

(** Computations over a state [S] that return or raise; what was done to
    the state before an exception stays done. *)
Definition St (S A : Type) : Type := S -> outcome A * S.

Definition ret {S A} (a : A) : St S A := fun s => (Ok a, s).
Definition raise {S A} (e : exn) : St S A := fun s => (Raise e, s).
Definition bind {S A B} (m : St S A) (k : A -> St S B) : St S B :=
  fun s => match m s with
           | (Ok a, s') => k a s'
           | (Raise e, s') => (Raise e, s')
           end.

Notation "'let*' x ':=' m 'in' k" := (bind m (fun x => k))
  (at level 10, x name, m at level 100, k at level 200).
Notation "'let*' ' p ':=' m 'in' k" := (bind m (fun x => match x with p => k end))
  (at level 10, p strict pattern, m at level 100, k at level 200).
Notation "m ;; k" := (bind m (fun _ => k))
  (at level 100, k at level 200, right associativity).

(** [for x in l: body x]. *)
Fixpoint for_each {S A} (l : list A) (body : A -> St S unit) : St S unit :=
  match l with
  | [] => ret tt
  | x :: l' => body x ;; for_each l' body
  end.

(** Code that touches no plot object runs on the world alone. *)
Definition M (A : Type) : Type := St world A.

Definition warning (msg : message) : M unit :=
  fun w => (Ok tt, mkWorld (frames w) (warnings w ++ [msg]) (mpl w)).

Definition call (c : mpl_call) : M unit :=
  fun w => (Ok tt, mkWorld (frames w) (warnings w) (mpl w ++ [c])).

(** What Python raises on [obj.attr] when [type(obj)] has no such attribute. *)
Definition no_attribute (type_name attr : string) : exn :=
  AttributeError (Msg "%r object has no attribute %r" [ArgStr type_name; ArgStr attr]).

(** Dereference a frame.  References come from [alloc] and frames are never
    freed, so that the error below is there for totality only. *)
Definition deref (r : ref) : M DataFrame :=
  fun w => match frames w !! r with
           | Some df => (Ok df, w)
           | None => (Raise (RuntimeError (Msg "dangling reference" [])), w)
           end.

(** Allocate a new frame object. *)
Definition alloc (df : DataFrame) : M ref :=
  fun w => (Ok (length (frames w)), mkWorld (frames w ++ [df]) (warnings w) (mpl w)).

(** Update a frame in place. *)
Definition store (r : ref) (df : DataFrame) : M unit :=
  fun w => (Ok tt, mkWorld (<[r := df]> (frames w)) (warnings w) (mpl w)).

(* ------------------------------------------------------------------------ *)
(** ** Data frame columns selection helper *)

(** [data[columns]] for a list of labels: for each label in turn, every
    column carrying it. *)
Definition getitem_list (df : DataFrame) (cols : list string) : DataFrame :=
  mkDataFrame (index_name df) (index df)
    (flat_map (fun c => filter (fun col => fst col = c) (columns df)) cols).

(** The inner loop of [select]: scan the labels for one (lower-cased) fragment. *)
Fixpoint select_scan (only_column : string) (cols : list string)
    (columns : list string) : list string :=
  match cols with
  | [] => columns
  | column :: cols' =>
      if negb (str_in column columns) && contains only_column (lower column)
      then select_scan only_column cols' (columns ++ [column])
      else select_scan only_column cols' columns
  end.

(** The outer loop of [select]. *)
Fixpoint select_loop (only_columns : list string) (cols : list string)
    (columns : list string) : list string :=
  match only_columns with
  | [] => columns
  | only_column :: rest =>
      select_loop rest cols (select_scan (lower only_column) cols columns)
  end.

Definition select_columns (df : DataFrame) (only_columns : list string) : list string :=
  select_loop only_columns (labels df) [].

Definition select (data : pyval) (only_columns : list string) : M pyval :=
  (* Unwrap data frame from session *)
  let data := match data with
              | PySession s => of_frame (session_data s)
              | _ => data
              end in
  (* Fast path *)
  if (length only_columns =? 0)%nat then ret data else
  (* Intelligent selection *)
  match data with
  | PyFrame r =>
      let* df := deref r in
      let* r' := alloc (getitem_list df (select_columns df only_columns)) in
      ret (PyFrame r')
  | PyNone => raise (no_attribute "NoneType" "columns")
  | PySession _ => raise (no_attribute "Session" "columns")
  | PyOther ty => raise (no_attribute ty "columns")
  end.

(* ------------------------------------------------------------------------ *)
(** ** The file system and [pathlib] *)

Inductive node :=
| Dir
| File (content : string).

(** What is on disk, seen from the working directory. *)
Abbreviation filesystem := (gmap Path node).

Inductive pathlike :=
| PathStr (s : string)
| PathObj (p : Path).

(** [s.split(sep)] for a one-character separator. *)
Fixpoint split (sep : ascii) (s : string) : list string :=
  match s with
  | EmptyString => [EmptyString]
  | String c s' =>
      if Ascii.eqb c sep then EmptyString :: split sep s'
      else match split sep s' with
           | [] => [String c EmptyString]
           | w :: ws => String c w :: ws
           end
  end.

Definition is_empty (s : string) : bool :=
  match s with EmptyString => true | _ => false end.

(** [pathlib.Path(s)]: the parts of [s]; empty and [.] components vanish,
    a leading slash is the root part. *)
Definition parse_path (s : string) : Path :=
  (if String.prefix "/" s then ["/"] else []) ++
  filter (fun part => part ≠ EmptyString ∧ part ≠ ".") (split "/" s).

(** [str(path)]. *)
Definition path_str (p : Path) : string :=
  match p with
  | [] => "."
  | "/" :: rest => "/" +:+ String.concat "/" rest
  | _ => String.concat "/" p
  end.

(** [path.name]: the final component, empty for the root. *)
Definition path_name (p : Path) : string :=
  match last p with
  | Some "/" | None => EmptyString
  | Some part => part
  end.

(** [path.exists()]: anything at all is there, directory or not. *)
Definition path_exists (fs : filesystem) (p : Path) : bool :=
  bool_decide (is_Some (fs !! p)).

(** Opening a file for reading: its content, or the [OSError]. *)
Definition open_file (fs : filesystem) (p : Path) : string + io_error :=
  match fs !! p with
  | Some (File content) => inl content
  | Some Dir => inr (IsADirectory (path_str p))
  | None =>
      if existsb (fun k => match fs !! take k p with Some (File _) => true | _ => false end)
           (seq 0 (length p))
      then inr (NotADirectory (path_str p))
      else inr (NoSuchFile (path_str p))
  end.

(** [str.strip()]. *)
Definition is_py_space (c : ascii) : bool :=
  let n := nat_of_ascii c in
  ((9 <=? n)%nat && (n <=? 13)%nat) || ((28 <=? n)%nat && (n <=? 32)%nat)
  || (n =? 133)%nat || (n =? 160)%nat.

Fixpoint lstrip (s : string) : string :=
  match s with
  | String c s' => if is_py_space c then lstrip s' else s
  | EmptyString => EmptyString
  end.

Definition strip (s : string) : string :=
  String.rev (lstrip (String.rev (lstrip s))).

(* ------------------------------------------------------------------------ *)
(** ** [pandas.read_csv] and [DataFrame.join]

    The library is not part of this repository.  It is modelled for files
    whose lines end with a line feed and whose fields have no quotes.
    Columns are numeric when every field is a number or a missing marker,
    text otherwise. *)

(** The markers pandas takes as missing without being told. *)
Definition default_na_values : list string :=
  [EmptyString; "#N/A"; "#N/A N/A"; "#NA"; "-1.#IND"; "-1.#QNAN"; "-NaN"; "-nan";
   "1.#IND"; "1.#QNAN"; "<NA>"; "N/A"; "NA"; "NULL"; "NaN"; "None"; "n/a";
   "nan"; "null"].

Definition is_c_space (c : ascii) : bool :=
  let n := nat_of_ascii c in
  ((9 <=? n)%nat && (n <=? 13)%nat) || (n =? 32)%nat.

Fixpoint skip_spaces (s : string) : string :=
  match s with
  | String c s' => if is_c_space c then skip_spaces s' else s
  | EmptyString => EmptyString
  end.

Definition digit (c : ascii) : option Z :=
  let n := nat_of_ascii c in
  if ((48 <=? n)%nat && (n <=? 57)%nat)%bool then Some (Z.of_nat n - 48) else None.

(** Read a run of digits onto [acc]; gives the number, how many digits were
    read, and what follows. *)
Fixpoint take_digits (s : string) (acc : Z) (count : Z) : Z * Z * string :=
  match s with
  | String c s' =>
      match digit c with
      | Some d => take_digits s' (10 * acc + d) (count + 1)
      | None => (acc, count, s)
      end
  | EmptyString => (acc, count, s)
  end.

Definition take_sign (s : string) : bool * string :=
  match s with
  | String "-" s' => (true, s')
  | String "+" s' => (false, s')
  | _ => (false, s)
  end.

(** A decimal number with optional sign, fraction and exponent, blanks
    allowed around it. *)
Definition parse_number (tok : string) : option Q :=
  let '(neg, s) := take_sign (skip_spaces tok) in
  let '(m, n1, s) := take_digits s 0 0 in
  let '(m, n2, s) := match s with
                     | String "." s' => take_digits s' m 0
                     | _ => (m, 0, s)
                     end in
  if (n1 + n2 =? 0)%Z then None else
  let exponent := match s with
                  | String c s' =>
                      if Ascii.eqb c "e" || Ascii.eqb c "E" then
                        let '(eneg, s') := take_sign s' in
                        let '(e, n3, s') := take_digits s' 0 0 in
                        if (n3 =? 0)%Z then None else Some (if eneg then - e else e, s')
                      else Some (0, s)
                  | EmptyString => Some (0, s)
                  end in
  match exponent with
  | Some (e, s) =>
      if is_empty (skip_spaces s)
      then Some (Qred ((if neg then -1 else 1) * inject_Z m * Qpower 10 (e - n2)))
      else None
  | None => None
  end.

(** One field of a numeric column. *)
Definition parse_numeric (na_values : list string) (tok : string) : option value :=
  if str_in tok na_values then Some VNaN
  else if str_in (lower tok) ["inf"; "+inf"; "infinity"; "+infinity"] then Some (VInf false)
  else if str_in (lower tok) ["-inf"; "-infinity"] then Some (VInf true)
  else VNum <$> parse_number tok.

(** A whole column: numbers if every field allows it, text otherwise. *)
Definition parse_column (na_values : list string) (toks : list string) : Series :=
  match mapM (parse_numeric na_values) toks with
  | Some vs => vs
  | None => map (fun tok => if str_in tok na_values then VNaN else VStr tok) toks
  end.

Definition is_blank_line (s : string) : bool :=
  forallb (fun c => Ascii.eqb c " ") (list_ascii_of_string s).

(** Field [i] of every row, empty where a row is short. *)
Definition field (i : nat) (rows : list (list string)) : list string :=
  map (fun row => nth i row EmptyString) rows.

(** The name of a column whose field in the header is empty. *)
Definition unnamed (i : nat) : string := "Unnamed: " +:+ pretty i.

(** One step of the renaming of repeated names, at position [i] of the
    header: a name that was counted before gets a dot and a number, the
    first one from its count on that gives no name of the header. *)
Definition mangle_dupe (st : list string * gmap string nat) (i : nat)
    : list string * gmap string nat :=
  let '(names, counts) := st in
  match names !! i with
  | None => st
  | Some old =>
      match default 0%nat (counts !! old) with
      | O => (names, <[old := 1%nat]> counts)
      | S _ as seen =>
          let numbered c := old +:+ "." +:+ pretty c in
          let free := filter (fun c => negb (str_in (numbered c) names))
                        (seq seen (S (length names))) in
          let c := default seen (head free) in
          (<[i := numbered c]> names, <[numbered c := 1%nat]> (<[old := S c]> counts))
      end
  end.

(** The names of the columns, from the fields of the header: the fields that
    are not empty are gone through first, then the empty ones under their
    names by position. *)
Definition header_names (fields : list string) : list string :=
  let named i := negb (is_empty (nth i fields EmptyString)) in
  let positions := seq 0 (length fields) in
  let order := filter (fun i => named i) positions ++
               filter (fun i => negb (named i)) positions in
  (foldl mangle_dupe
     (imap (fun i h => if is_empty h then unnamed i else h) fields, ∅) order).1.

(** [pandas.read_csv(path, sep=..., index_col=0, na_values=...)]: the frame, or
    the exception.  The first row of data may have more fields than the
    header, and no later row more than both; a short row is filled up with
    empty fields.  With as many fields as names the first column is the
    index, under its name; with one field more the first field is the index,
    without a name, and every name of the header is a column. *)
Definition read_csv (fs : filesystem) (p : Path) (sep : ascii)
    (na_values : list string) : DataFrame + io_error :=
  match open_file fs p with
  | inr err => inr err
  | inl content =>
      let na := default_na_values ++ na_values in
      match filter (fun l => negb (is_blank_line l)) (split "010" content) with
      | [] => inr EmptyData
      | header :: lines =>
          let header := split sep header in
          let names := header_names header in
          let rows := map (split sep) lines in
          let width := Nat.max (length header) (length (default [] (head rows))) in
          if existsb (fun row => (width <? length row)%nat) rows
          then inr ParserError
          else
            match (width - length header)%nat with
            | O =>
                inl (mkDataFrame
                       (match header with
                        | h :: _ => if is_empty h then None else Some h
                        | [] => None
                        end)
                       (parse_column na (field 0 rows))
                       (imap (fun i h => (h, parse_column na (field (S i) rows)))
                          (tail names)))
            | S O =>
                inl (mkDataFrame None
                       (parse_column na (field 0 rows))
                       (imap (fun i h => (h, parse_column na (field (S i) rows))) names))
            | _ => inr ParserError
            end
      end
  end.

(** [data.index.name = ...]. *)
Definition set_index_name (n : string) (df : DataFrame) : DataFrame :=
  mkDataFrame (Some n) (index df) (columns df).

(** Equality of index keys; missing keys match each other. *)
Definition value_eqb (a b : value) : bool :=
  match a, b with
  | VNum x, VNum y => Qeq_bool x y
  | VInf s, VInf s' => Bool.eqb s s'
  | VNaN, VNaN => true
  | VStr s, VStr s' => String.eqb s s'
  | _, _ => false
  end.

(** The keys of a list, each once, where it comes first. *)
Fixpoint unique_keys (l : list value) : list value :=
  match l with
  | [] => []
  | k :: l' => k :: filter (fun x => negb (value_eqb k x)) (unique_keys l')
  end.

(** The rows of [idx] carrying key [k]; a single absent row if there is none. *)
Definition rows_of (k : value) (idx : list value) : list (option nat) :=
  match filter (fun i => value_eqb k (nth i idx VNaN)) (seq 0 (length idx)) with
  | [] => [None]
  | found => map Some found
  end.

(** Reindex a column; an absent row gives a missing value. *)
Definition take_rows (rows : list (option nat)) (col : Series) : Series :=
  map (fun o => match o with Some i => nth i col VNaN | None => VNaN end) rows.

Section Joining.

(** The order in which a join lays the keys of the two indexes.  pandas
    sorts them in some cases and leaves them as they come in others; which
    it does is not modelled.  The order is a parameter, and a property
    that depends on it says what it takes of it. *)
Variable key_order : list value -> list value -> list value.

(** For every key, in order, the matching rows on both sides. *)
Definition outer_indexer (lidx ridx : list value) : list (value * option nat * option nat) :=
  flat_map (fun k =>
      flat_map (fun l => map (fun r => (k, l, r)) (rows_of k ridx)) (rows_of k lidx))
    (key_order lidx ridx).

(** [left.join(right, how="outer")]: the frame, or the [ValueError] when both
    sides have a column of the same name. *)
Definition join_outer (left right : DataFrame) : DataFrame + exn :=
  match filter (fun c => str_in c (labels right)) (labels left) with
  | c :: _ => inr (ValueError (Msg "columns overlap but no suffix specified: %s" [ArgStr c]))
  | [] =>
      let ix := outer_indexer (index left) (index right) in
      inl (mkDataFrame
             (if bool_decide (index_name left = index_name right)
              then index_name left else None)
             (map (fun t => t.1.1) ix)
             (map (fun c => (c.1, take_rows (map (fun t => t.1.2) ix) c.2)) (columns left) ++
              map (fun c => (c.1, take_rows (map (fun t => t.2) ix) c.2)) (columns right)))
  end.

End Joining.

(* ------------------------------------------------------------------------ *)
(** ** Training/evaluation data collection class *)

(** [df[c]] for one label. *)
Definition getitem (df : DataFrame) (c : string) : M Series :=
  match list_find (fun col => fst col = c) (columns df) with
  | Some (_, (_, col)) => ret col
  | None => raise (KeyError (Msg "%r" [ArgStr c]))
  end.

(** [df[c] = col], in place: an existing column is overwritten where it
    stands, a new one is appended. *)
Definition setitem (r : ref) (c : string) (col : Series) : M unit :=
  let* df := deref r in
  store r (mkDataFrame (index_name df) (index df)
             (match list_find (fun old => fst old = c) (columns df) with
              | Some (i, _) => <[i := (c, col)]> (columns df)
              | None => columns df ++ [(c, col)]
              end)).

Section Loading.

(** [json.load] on the text of a file whose top level is an object: the
    parsed object, or nothing when the text is not valid JSON. *)
Variable json_load : string -> option (gmap string json_value).

(** The order in which pandas lays the keys of a join. *)
Variable key_order : list value -> list value -> list value.

Definition unreadable (what : string) (path_results : Path) (err : io_error) : message :=
  Msg ("Result directory %r: unable to read " +:+ what +:+ " (%s)")
    [ArgStr (path_str path_results); ArgErr err].

(** The merge of the logs that could be read, in the order given. *)
Fixpoint merge (dfs : list (option ref)) (data : option ref) : M (option ref) :=
  match dfs with
  | [] => ret data
  | None :: dfs' => merge dfs' data
  | Some df :: dfs' =>
      match data with
      | None => merge dfs' (Some df)
      | Some r =>
          let* left := deref r in
          let* right := deref df in
          match join_outer key_order left right with
          | inl joined => let* r' := alloc joined in merge dfs' (Some r')
          | inr e => raise e
          end
      end
  end.

Definition Session_init (fs : filesystem) (path_results : pathlike) : M Session :=
  (* Conversion to path *)
  let path_results := match path_results with
                      | PathObj p => p
                      | PathStr s => parse_path s
                      end in
  (* Ensure directory exist *)
  if negb (path_exists fs path_results) then
    raise (UserException (Msg "Result directory %r cannot be accessed or does not exist"
                            [ArgStr (path_str path_results)]))
  else
  (* Load configuration string *)
  let path_config := path_results ++ ["config"] in
  let* data_config :=
    match open_file fs path_config with
    | inl text => ret (Some (strip text))
    | inr err => warning (unreadable "configuration" path_results err) ;; ret None
    end in
  (* Load configuration json *)
  let path_json := path_results ++ ["config.json"] in
  let* data_json :=
    match open_file fs path_json with
    | inl text =>
        match json_load text with
        | Some obj => ret (Some obj)
        | None =>
            warning (Msg "Result directory %r: unable to read JSON configuration (%s)"
                       [ArgStr (path_str path_results); ArgStr "JSONDecodeError"]) ;;
            ret None
        end
    | inr err => warning (unreadable "JSON configuration" path_results err) ;; ret None
    end in
  (* Load training data *)
  let path_study := path_results ++ ["study"] in
  let* data_study :=
    match read_csv fs path_study "009" ["     nan"] with
    | inl df => let* r := alloc (set_index_name "Step number" df) in ret (Some r)
    | inr err => warning (unreadable "training data" path_results err) ;; ret None
    end in
  (* Load evaluation data *)
  let path_eval := path_results ++ ["eval"] in
  let* data_eval :=
    match read_csv fs path_eval "009" [] with
    | inl df => let* r := alloc (set_index_name "Step number" df) in ret (Some r)
    | inr err => warning (unreadable "evaluation data" path_results err) ;; ret None
    end in
  (* Merge data frames *)
  let* data := merge [data_study; data_eval] None in
  (* Finalization *)
  ret (mkSession (path_name path_results) path_results data_config data_json data).

End Loading.

(** [Session.get]. *)
Definition get (self : Session) (only_columns : list string) : M pyval :=
  select (of_frame (data self)) only_columns.

(** The training set sizes known to [compute_epoch]. *)
Definition training_sizes : gmap string Z :=
  list_to_map [("mnist", 60000); ("fashionmnist", 60000);
               ("cifar10", 50000); ("cifar100", 50000)].

(** [d.get(key, None)] on a dictionary keyed by strings: no other scalar is
    equal to a string. *)
Definition dict_get {A} (d : gmap string A) (key : json_value) : option A :=
  match key with
  | JStr s => d !! s
  | _ => None
  end.

(** [series / n]. *)
Definition series_div (col : Series) (n : Q) : M Series :=
  match mapM (fun v => vdiv v (VNum n)) col with
  | Some col' => ret col'
  | None => raise (TypeError (Msg "unsupported operand type(s) for /: 'str' and 'int'" []))
  end.

Definition compute_epoch (self : Session) : M Session :=
  let column_name := "Epoch number" in
  match data self with
  | None => raise (no_attribute "NoneType" "columns")
  | Some r =>
      let* df := deref r in
      (* Check if already there *)
      if str_in column_name (labels df) then ret self else
      (* Compute epoch number *)
      match json self with
      | None =>
          warning (Msg "No valid JSON-formatted configuration, cannot compute the epoch number" []) ;;
          ret self
      | Some cfg =>
          match cfg !! "dataset" with
          | None =>
              warning (Msg "No valid JSON-formatted configuration, cannot compute the epoch number" []) ;;
              ret self
          | Some dataset_name =>
              match dict_get training_sizes dataset_name with
              | None =>
                  warning (Msg "Unknown dataset %r, cannot compute the epoch number"
                             [ArgJson dataset_name]) ;;
                  ret self
              | Some training_size =>
                  let* count := getitem df "Training point count" in
                  let* epoch := series_div count (inject_Z training_size) in
                  setitem r column_name epoch ;;
                  ret self
              end
          end
      end
  end.

(** A configuration value as a number. *)
Definition json_number (v : json_value) : option Q :=
  match v with
  | JNum q => Some q
  | JBool b => Some (if b then 1 else 0)%Q
  | _ => None
  end.

(** A configuration value as the cell it fills a column with. *)
Definition json_cell (v : json_value) : value :=
  match v with
  | JNum q => VNum q
  | JBool b => VNum (if b then 1 else 0)%Q
  | JStr s => VStr s
  | JNull => VNaN
  end.

(** One row of [lr / ((index // lr_delta * lr_delta) / lr_decay + 1)]. *)
Definition lr_row (lr lr_delta lr_decay : Q) (i : value) : option value :=
  b ← vfloordiv i (VNum lr_delta);
  s ← vmul b (VNum lr_delta);
  d ← vdiv s (VNum lr_decay);
  e ← vadd d (VNum 1);
  vdiv (VNum lr) e.

Definition compute_lr (self : Session) : M Session :=
  let column_name := "Learning rate" in
  match data self with
  | None => raise (no_attribute "NoneType" "columns")
  | Some r =>
      let* df := deref r in
      (* Check if already there *)
      if str_in column_name (labels df) then ret self else
      (* Compute epoch number *)
      match json self with
      | None =>
          warning (Msg "No valid JSON-formatted configuration, cannot compute the learning rate" []) ;;
          ret self
      | Some cfg =>
          match cfg !! "learning_rate" with
          | None =>
              warning (Msg "No valid JSON-formatted configuration, cannot compute the learning rate" []) ;;
              ret self
          | Some lr =>
              let lr_decay := default (JNum 0) (cfg !! "learning_rate_decay") in
              let lr_delta := default (JNum 1) (cfg !! "learning_rate_decay_delta") in
              match json_number lr_decay with
              | None => raise (TypeError (Msg "'>' not supported between instances of %r and 'int'"
                                            [ArgJson lr_decay]))
              | Some decay =>
                  if negb (Qle_bool decay 0) then
                    match json_number lr_delta, json_number lr with
                    | Some delta, Some base =>
                        match mapM (lr_row base delta decay) (index df) with
                        | Some col => setitem r column_name col ;; ret self
                        | None => raise (TypeError (Msg "unsupported operand type(s) for //" []))
                        end
                    | _, _ => raise (TypeError (Msg "unsupported operand type(s)" []))
                    end
                  else
                    setitem r column_name (replicate (length (index df)) (json_cell lr)) ;;
                    ret self
              end
          end
      end
  end.

(** What [type(self).__dict__] holds under a name. *)
Inductive attribute :=
| Plain                                       (* not callable *)
| Method                                      (* callable, takes more than [self] or is not a computation *)
| Computation (func : Session -> M Session).  (* callable on [self] alone *)

(** [type(self).__dict__.items()], in definition order. *)
Definition Session_dict : list (string * attribute) :=
  [("__module__", Plain); ("__doc__", Plain); ("__init__", Method); ("get", Method);
   ("display", Method); ("has_known_ratio", Method); ("compute_all", Method);
   ("compute_epoch", Computation compute_epoch); ("compute_lr", Computation compute_lr)].

Definition compute_all (self : Session) : M Session :=
  (* Carries all the computations *)
  for_each Session_dict (fun '(name, func) =>
    if String.eqb name "compute_all" then ret tt else
    match func with
    | Computation f =>
        if String.eqb (substring 0 (String.length "compute_") name) "compute_"
        then f self ;; ret tt else ret tt
    | Method =>
        if String.eqb (substring 0 (String.length "compute_") name) "compute_"
        then raise (TypeError (Msg "missing required positional argument" [])) else ret tt
    | Plain => ret tt
    end) ;;
  (* Return self to enable chaining *)
  ret self.

(* ------------------------------------------------------------------------ *)
(** ** Plot management classes *)

(** A plot object is mutated by its methods; they run on the object and the
    world together. *)
Definition lift {T A} (m : M A) : St (T * world) A :=
  fun s => let '(o, w) := m s.2 in (o, (s.1, w)).

Definition self {T} : St (T * world) T := fun s => (Ok s.1, s).
Definition set_self {T} (x : T) : St (T * world) unit := fun s => (Ok tt, (x, s.2)).

(** [plt.subplots()]: a new figure, numbered by creation. *)
Definition is_subplots (c : mpl_call) : bool :=
  match c with Subplots _ => true | _ => false end.

Definition subplots : M nat :=
  fun w =>
    let fig := length (filter is_subplots (mpl w)) in
    (Ok fig, mkWorld (frames w) (warnings w) (mpl w ++ [Subplots fig])).

Definition vneg (a : value) : option value := vmul (VNum (-1)) a.

(** [a - b] and [a + b] on arrays. *)
Definition array_sub (a b : list value) : option (list value) :=
  mapM (fun '(x, y) => y' ← vneg y; vadd x y') (zip a b).
Definition array_add (a b : list value) : option (list value) :=
  mapM (fun '(x, y) => vadd x y) (zip a b).

(** [ax.get_legend_handles_labels()]: the labelled lines drawn on an axis so
    far, each handle being the position of the call that drew it. *)
Definition legend_entry (fig : nat) (twin : bool) (i : nat) (c : mpl_call) : option (nat * string) :=
  match c with
  | Plot fig' twin' _ _ label _ _ _ =>
      if bool_decide (fig' = fig) && Bool.eqb twin' twin
         && negb (is_empty label) && negb (String.prefix "_" label)
      then Some (i, label) else None
  | Axvline fig' _ _ (Some label) _ _ =>
      if bool_decide (fig' = fig) && negb twin
         && negb (is_empty label) && negb (String.prefix "_" label)
      then Some (i, label) else None
  | _ => None
  end.

Definition get_legend_handles_labels (fig : nat) (twin : bool) : M (list nat * list string) :=
  fun w =>
    let entries := omap (fun x => x) (imap (legend_entry fig twin) (mpl w)) in
    (Ok (map fst entries, map snd entries), w).

(** [ax.get_legend_handles_labels() for ax in self._axs.values()]. *)
Fixpoint legend_entries (fig : nat) (axs : list bool) : M (list (list nat * list string)) :=
  match axs with
  | [] => ret []
  | ax :: rest =>
      let* e := get_legend_handles_labels fig ax in
      let* es := legend_entries fig rest in
      ret (e :: es)
  end.

(** [generator_sum] inside [LinePlot.finalize]. *)
Definition generator_sum {A} (gen : list (list A)) : option (list A) :=
  match gen with
  | [] => None
  | val :: rest => Some (foldl (fun res val => res ++ val) val rest)
  end.

(** [s[:-n]] for [n = len(errs)]. *)
Definition drop_suffix (n : nat) (s : string) : string :=
  if (n =? 0)%nat then EmptyString else substring 0 (String.length s - n) s.

Module LinePlot.

Record t := mk {
  _fin : bool;                    (* Not yet finalized *)
  _fig : option nat;              (* Figure instance *)
  _ax : nat;                      (* Original axis instance: that of this figure *)
  _tax : option nat;              (* Twin axis instance: that of this figure *)
  _axs : list (string * bool);    (* Map column names to axis; [true] is the twin *)
  _idx : option string;           (* Column name to use as index by default *)
  _cnt : Z                        (* Plot counter *)
}.

Definition P (A : Type) : Type := St (t * world) A.

(** Known line styles *)
Definition linestyles : list string := ["-"; "--"; ":"; "-."].

Definition _get_line_style (ln : Z) : string * string :=
  (nth (Z.to_nat (ln mod Z.of_nat (length linestyles))) linestyles EmptyString,
   "C" +:+ pretty ln).

Definition init (index : option string) : M t :=
  let* fig := subplots in
  ret (mk false (Some fig) fig None [] index 0).

Definition _get_ax (name : string) : P bool :=
  let* s := self in
  (* Return existing axis *)
  match list_find (fun e => fst e = name) (_axs s) with
  | Some (_, (_, ax)) => ret ax
  | None =>
      (* Assert can make one more axis *)
      if (2 <=? length (_axs s))%nat then
        raise (RuntimeError (Msg "Line plot cannot have a 3rd y-axis" []))
      else
      (* Make one more axis *)
      let* ax := if (length (_axs s) =? 0)%nat then ret false
                 else lift (call (Twinx (_ax s))) ;;
                      set_self (mk (_fin s) (_fig s) (_ax s) (Some (_ax s)) (_axs s) (_idx s) (_cnt s)) ;;
                      ret true in
      let* s := self in
      set_self (mk (_fin s) (_fig s) (_ax s) (_tax s) (_axs s ++ [(name, ax)]) (_idx s) (_cnt s)) ;;
      ret ax
  end.

(** The first lines of [include] and [include_single]: the frame and the
    x-axis values. *)
Definition frame_and_x (data : pyval) : P (ref * DataFrame * list value) :=
  let* s := self in
  (* Recover the dataframe if a session was given *)
  let* data :=
    match data with
    | PySession sess => ret (session_data sess)
    | PyFrame r => ret (Some r)
    | PyNone =>
        raise (RuntimeError (Msg "Expected a Session or DataFrame for 'data', got a %r" [ArgStr "NoneType"]))
    | PyOther ty =>
        raise (RuntimeError (Msg "Expected a Session or DataFrame for 'data', got a %r" [ArgStr ty]))
    end in
  (* Get the x-axis values *)
  match _idx s, data with
  | None, None => raise (no_attribute "NoneType" "index")
  | Some _, None => raise (TypeError (Msg "argument of type 'NoneType' is not iterable" []))
  | None, Some r => let* df := lift (deref r) in ret (r, df, index df)
  | Some idx, Some r =>
      let* df := lift (deref r) in
      if negb (str_in idx (labels df)) then
        raise (RuntimeError (Msg "No column named %r to use as index in the given session/dataframe"
                               [ArgStr idx]))
      else
        let* x := lift (getitem df idx) in ret (r, df, x)
  end.

Definition bump : P unit :=
  let* s := self in
  set_self (mk (_fin s) (_fig s) (_ax s) (_tax s) (_axs s) (_idx s) (_cnt s + 1)).

(** The body of the inner loop of [include], for one selected column;
    [axis] is the axis of this selection once it is known. *)
Definition include_column (data subd : DataFrame) (x : list value) (col scol : string)
    (errs : option string) (lalp : Q) (ccnt : option Z) (axis : option bool) : P (option bool) :=
  let* s := self in
  (* Ignore index column *)
  if bool_decide (_idx s = Some scol) then ret axis else
  (* Ignore error column *)
  if match errs with
     | Some e => str_in (drop_suffix (String.length e) scol) (labels subd)
     | None => false
     end then ret axis else
  (* Get associated axis (if not done yet) *)
  let* ax := match axis with Some ax => ret ax | None => _get_ax col end in
  let* s := self in
  (* Pick a new line style and color *)
  let '(linestyle, color) := _get_line_style (default (_cnt s) ccnt) in
  (* Plot the data (line or error line) *)
  let* davg := lift (getitem subd scol) in
  match errs with
  | Some e =>
      if str_in (scol +:+ e) (labels data) then
        let* derr := lift (getitem data (scol +:+ e)) in
        match array_sub davg derr, array_add davg derr with
        | Some lo, Some hi => lift (call (FillBetween (_ax s) ax x lo hi color (2 # 10)))
        | _, _ => raise (TypeError (Msg "unsupported operand type(s) for -" []))
        end
      else ret tt
  | None => ret tt
  end ;;
  lift (call (Plot (_ax s) ax x davg scol linestyle color lalp)) ;;
  (* Increase the counter only on success *)
  bump ;;
  ret (Some ax).

Fixpoint include_columns (data subd : DataFrame) (x : list value) (col : string)
    (scols : list string) (errs : option string) (lalp : Q) (ccnt : option Z)
    (axis : option bool) : P unit :=
  match scols with
  | [] => ret tt
  | scol :: rest =>
      let* axis := include_column data subd x col scol errs lalp ccnt axis in
      include_columns data subd x col rest errs lalp ccnt axis
  end.

Definition include (data : pyval) (cols : list string) (errs : option string)
    (lalp : Q) (ccnt : option Z) : P unit :=
  let* s := self in
  (* Assert not already finalized *)
  if _fin s then
    raise (RuntimeError (Msg "Plot is already finalized and cannot include another line" []))
  else
  let* '(r, df, x) := frame_and_x data in
  (* Select semantic: empty list = select all *)
  let cols := if (length cols =? 0)%nat then labels df else cols in
  (* For every selection *)
  for_each cols (fun col =>
    (* Get associated data *)
    let* subd := lift (select (PyFrame r) [col]) in
    let* subd := match subd with
                 | PyFrame r => lift (deref r)
                 | _ => raise (TypeError (Msg "object is not iterable" []))
                 end in
    (* For every selected column *)
    include_columns df subd x col (labels subd) errs lalp ccnt None).

Definition include_single (data : pyval) (key col : string) (err : option string)
    (lalp : Q) (ccnt : option Z) : P unit :=
  let* s := self in
  (* Assert not already finalized *)
  if _fin s then
    raise (RuntimeError (Msg "Plot is already finalized and cannot include another line" []))
  else
  let* '(_, df, x) := frame_and_x data in
  (* Pick a new line style and color *)
  let '(linestyle, color) := _get_line_style (default (_cnt s) ccnt) in
  (* Plot the data (line and error line) *)
  let* davg := lift (getitem df col) in
  let* derr := match err with
               | Some e => let* d := lift (getitem df e) in ret (Some d)
               | None => ret None
               end in
  let* axis := _get_ax col in
  match derr with
  | Some derr =>
      match array_sub davg derr, array_add davg derr with
      | Some lo, Some hi => lift (call (FillBetween (_ax s) axis x lo hi color (2 # 10)))
      | _, _ => raise (TypeError (Msg "unsupported operand type(s) for -" []))
      end
  | None => ret tt
  end ;;
  lift (call (Plot (_ax s) axis x davg key linestyle color lalp)) ;;
  (* Increase the counter only on success *)
  bump.

(** [axvline] makes the line before it adds it to the axis, and making a
    line whose style is [None], as it is unless the caller gives one, is
    refused. *)
Definition include_vline (x : Q) (color : string) (label ls : option string) (lw : Q) : P unit :=
  let* s := self in
  match ls with
  | Some _ => lift (call (Axvline (_ax s) x color label ls lw))
  | None => raise (ValueError (Msg "Unrecognized linestyle: %s" [ArgStr "None"]))
  end.

Definition finalize (title xlabel ylabel : string) (zlabel : option string)
    (xmin xmax ymin ymax zmin zmax : option Q) (legend : option (list string)) : P unit :=
  let* s := self in
  (* Fast path *)
  if _fin s then ret tt else
  (* Plot the legend *)
  let* entries := lift (legend_entries (_ax s) (map snd (_axs s))) in
  match generator_sum (map fst entries) with
  | Some handles =>
      lift (call (Legend (_ax s) (bool_decide (is_Some (_tax s)))
                    (Some handles)
                    (match legend with
                     | None => generator_sum (map snd entries)
                     | Some given => Some given
                     end)))
  | None =>
      (* Without a line there is no axis to sum over: the handles are
         [None], which [legend] goes through as a list *)
      raise (TypeError (Msg "%r object is not iterable" [ArgStr "NoneType"]))
  end ;;
  (* Plot the grid and labels *)
  lift (call (Grid (_ax s))) ;;
  lift (call (SetXlabel (_ax s) xlabel)) ;;
  lift (call (SetYlabel (_ax s) false ylabel)) ;;
  lift (call (SetTitle (_ax s) title)) ;;
  match zlabel, _tax s with
  | Some z, None =>
      lift (warning (Msg "No secondary y-axis found, but its label %r was provided" [ArgStr z]))
  | Some z, Some tax => lift (call (SetYlabel tax true z))
  | None, Some tax =>
      lift (warning (Msg "No label provided for the secondary y-axis; using label %r from the primary"
                       [ArgStr ylabel])) ;;
      lift (call (SetYlabel tax true ylabel))
  | None, None => ret tt
  end ;;
  lift (call (SetXlim (_ax s) xmin xmax)) ;;
  lift (call (SetYlim (_ax s) false ymin ymax)) ;;
  match _tax s with
  | Some tax => lift (call (SetYlim tax true zmin zmax))
  | None => ret tt
  end ;;
  (* Mark finalized *)
  set_self (mk true (_fig s) (_ax s) (_tax s) (_axs s) (_idx s) (_cnt s)).

Definition display : P unit :=
  let* s := self in
  (* Assert already finalized *)
  if negb (_fin s) then
    raise (RuntimeError (Msg "Cannot display a plot that has not been finalized yet" []))
  else
  (* Show the plot *)
  match _fig s with
  | Some fig => lift (call (Show fig))
  | None => raise (no_attribute "NoneType" "show")
  end.

Definition save (path : string) (dpi xsize ysize : Q) : P unit :=
  let* s := self in
  (* Assert already finalized *)
  if negb (_fin s) then
    raise (RuntimeError (Msg "Cannot display a plot that has not been finalized yet" []))
  else
  (* Save the figure *)
  match _fig s with
  | Some fig =>
      lift (call (SetSizeInches fig (xsize * (254 # 100)) (ysize * (254 # 100)))) ;;
      lift (call (SetDpi fig dpi)) ;;
      lift (call (Savefig fig path))
  | None => raise (no_attribute "NoneType" "set_size_inches")
  end.

Definition close : P unit :=
  let* s := self in
  match _fig s with
  | Some fig =>
      lift (call (Close fig)) ;;
      set_self (mk (_fin s) None (_ax s) (_tax s) (_axs s) (_idx s) (_cnt s))
  | None => ret tt
  end.

End LinePlot.

(** What [HistPlot.include] is given: a series or an array of samples. *)
Inductive samples :=
| SeriesData (s : Series)
| ArrayData (a : list value).

Module HistPlot.

Record t := mk {
  _bins : Z;
  _fin : bool;
  _fig : option nat;
  _ax : nat
}.

Definition P (A : Type) : Type := St (t * world) A.

Definition init (bins : Z) : M t :=
  (* Make the subplots *)
  let* fig := subplots in
  (* Finalize *)
  ret (mk bins false (Some fig) fig).

Definition include (data : samples) : P unit :=
  let* s := self in
  (* Convert 'pandas.Series' to numpy *)
  let data := match data with
              | SeriesData series => series
              | ArrayData a => a
              end in
  (* Make the histogram *)
  lift (call (Hist (_ax s) data (_bins s))).

Definition finalize (title xlabel ylabel : string) (xmin xmax ymin ymax : option Q) : P unit :=
  let* s := self in
  (* Fast path *)
  if _fin s then ret tt else
  (* Plot the grid and labels *)
  lift (call (Grid (_ax s))) ;;
  lift (call (SetXlabel (_ax s) xlabel)) ;;
  lift (call (SetYlabel (_ax s) false ylabel)) ;;
  lift (call (SetTitle (_ax s) title)) ;;
  lift (call (SetXlim (_ax s) xmin xmax)) ;;
  lift (call (SetYlim (_ax s) false ymin ymax)) ;;
  (* Mark finalized *)
  set_self (mk (_bins s) true (_fig s) (_ax s)).

Definition display : P unit :=
  let* s := self in
  (* Assert already finalized *)
  if negb (_fin s) then
    raise (RuntimeError (Msg "Cannot display a plot that has not been finalized yet" []))
  else
  (* Show the plot *)
  match _fig s with
  | Some fig => lift (call (Show fig))
  | None => raise (no_attribute "NoneType" "show")
  end.

Definition save (path : string) (dpi xsize ysize : Q) : P unit :=
  let* s := self in
  (* Assert already finalized *)
  if negb (_fin s) then
    raise (RuntimeError (Msg "Cannot display a plot that has not been finalized yet" []))
  else
  (* Save the figure *)
  match _fig s with
  | Some fig =>
      lift (call (SetSizeInches fig (xsize * (254 # 100)) (ysize * (254 # 100)))) ;;
      lift (call (SetDpi fig dpi)) ;;
      lift (call (Savefig fig path))
  | None => raise (no_attribute "NoneType" "set_size_inches")
  end.

Definition close : P unit :=
  let* s := self in
  match _fig s with
  | Some fig =>
      lift (call (Close fig)) ;;
      set_self (mk (_bins s) (_fin s) None (_ax s))
  | None => ret tt
  end.

End HistPlot.

(** The world before anything ran. *)
Definition empty_world : world := mkWorld [] [] [].

(* ------------------------------------------------------------------------ *)
(** ** The rest of the column helpers and of the session *)

(** [del df[c]], in place: every column carrying the label goes; a label
    that is not there is a [KeyError]. *)
Definition delitem (r : ref) (c : string) : M unit :=
  let* df := deref r in
  if str_in c (labels df) then
    store r (mkDataFrame (index_name df) (index df)
               (filter (fun col => fst col ≠ c) (columns df)))
  else raise (KeyError (Msg "%r" [ArgStr c])).

(** What Python raises on [obj[...]] when [type(obj)] has no item access. *)
Definition not_subscriptable (type_name : string) : exn :=
  TypeError (Msg "%r object is not subscriptable" [ArgStr type_name]).

(** The inner loop of [discard], over the labels the frame had when the loop
    started. *)
Definition discard_scan (r : ref) (only_column : string) (cols : list string) : M unit :=
  for_each cols (fun column =>
    if contains only_column (lower column) then delitem r column else ret tt).

Section Discarding.

(** Whether the objects of a type, given by its name, can be sliced as a
    whole: lists, tuples and strings can and give a copy, numbers cannot.
    Of an object that is no table only the name of its type is known, so
    that this is a parameter. *)
Variable takes_slice : string -> bool.

Definition discard (data : pyval) (only_columns : list string) : M pyval :=
  (* Fast path *)
  if (length only_columns =? 0)%nat then ret data else
  (* Intelligent discarding *)
  match data with
  | PyFrame r =>
      let* df := deref r in
      let* r' := alloc df in
      for_each only_columns (fun only_column =>
        let only_column := lower only_column in
        let* df := deref r' in
        discard_scan r' only_column (labels df)) ;;
      ret (PyFrame r')
  | PyNone => raise (not_subscriptable "NoneType")
  | PySession _ => raise (not_subscriptable "Session")
  | PyOther ty =>
      if takes_slice ty then
        (* The copy is of the same type, and its columns are asked for *)
        raise (no_attribute ty "columns")
      else raise (not_subscriptable ty)
  end.

End Discarding.

Section Aggregators.

(** The registry [aggregators.gars] is not part of this file: it maps the
  name of an aggregation rule to a descriptor, of which only the optional
  [upper_bound] is read here. *)
Variable bound : Type.

Record rule := mkRule { upper_bound : option bound }.

Variable gars : gmap string rule.

Definition has_known_ratio (self : Session) : M bool :=
match json self with
| None =>
    warning (Msg "No valid JSON-formatted configuration, cannot tell whether the associated GAR has a ratio" []) ;;
    ret false
| Some cfg =>
    match cfg !! "gar" with
    | None =>
        warning (Msg "No valid JSON-formatted configuration, cannot tell whether the associated GAR has a ratio" []) ;;
        ret false
    | Some g =>
        match dict_get gars g with
        | Some found => ret (bool_decide (is_Some (upper_bound found)))
        | None => ret false
        end
    end
end.

End Aggregators.

(* ------------------------------------------------------------------------ *)
(** ** The specification's vocabulary

    What the properties below are stated with: the wording of the
    specification as definitions of its own, and a few shorthands. *)

(** The specification's wording of [select]: a column matches a fragment
    when its lower-cased name contains the lower-cased fragment; the
    fragments are taken in turn, each scanning the columns in table order,
    and a column is kept where it is first seen. *)
Definition matches (fragment column : string) : bool :=
  contains (lower fragment) (lower column).

Fixpoint first_occurrences (l : list string) : list string :=
  match l with
  | [] => []
  | x :: l' => x :: filter (fun y => y ≠ x) (first_occurrences l')
  end.

Definition first_seen (cols F : list string) : list string :=
  first_occurrences (flat_map (fun f => filter (fun c => matches f c) cols) F).

(** One step of the loops of [select]: append unless already there. *)
Definition add_once (acc : list string) (x : string) : list string :=
  if str_in x acc then acc else acc ++ [x].

(** The table with one more column at the end. *)
Definition with_column (df : DataFrame) (c : string) (col : Series) : DataFrame :=
  mkDataFrame (index_name df) (index df) (columns df ++ [(c, col)]).

(** The learning rate schedule as the specification writes it. *)
Definition schedule (base delta decay i : Q) : Q :=
  (base / (inject_Z (Qfloor (i / delta)) * delta / decay + 1))%Q.

(** A cell of the epoch column: the count over the size; a count that is
    missing or not finite stays as it is. *)
Definition epoch_cell (size : Z) (v : value) : value :=
  match v with
  | VNum q => qnum (q / inject_Z size)
  | _ => v
  end.

Definition is_text (v : value) : bool :=
  match v with VStr _ => true | _ => false end.

(** The datasets the specification lists, with their training set sizes. *)
Definition known_datasets : list (string * Z) :=
  [("mnist", 60000); ("fashionmnist", 60000); ("cifar10", 50000); ("cifar100", 50000)].

(** The world with other tables, or with one more warning. *)
Definition set_frames (w : world) (fr : list DataFrame) : world :=
  mkWorld fr (warnings w) (mpl w).

Definition add_warning (w : world) (msg : message) : world :=
  mkWorld (frames w) (warnings w ++ [msg]) (mpl w).

(** What loading the two configuration files leaves: the text, the parsed
    object, the warnings. *)
Definition loaded_config (fs : filesystem) (p : Path) : option string :=
  match open_file fs (p ++ ["config"]) with
  | inl text => Some (strip text)
  | inr _ => None
  end.

Definition loaded_json (json_load : string -> option (gmap string json_value))
    (fs : filesystem) (p : Path) : option (gmap string json_value) :=
  match open_file fs (p ++ ["config.json"]) with
  | inl text => json_load text
  | inr _ => None
  end.

Definition config_warnings (json_load : string -> option (gmap string json_value))
    (fs : filesystem) (p : Path) : list message :=
  match open_file fs (p ++ ["config"]) with
  | inl _ => []
  | inr e => [unreadable "configuration" p e]
  end ++
  match open_file fs (p ++ ["config.json"]) with
  | inl text =>
      match json_load text with
      | Some _ => []
      | None => [Msg "Result directory %r: unable to read JSON configuration (%s)"
                   [ArgStr (path_str p); ArgStr "JSONDecodeError"]]
      end
  | inr e => [unreadable "JSON configuration" p e]
  end.

(** The part of [Session.__init__] after the configuration files. *)
Definition load_logs (json_load : string -> option (gmap string json_value))
    (key_order : list value -> list value -> list value)
    (fs : filesystem) (p : Path) : M Session :=
  let* data_study :=
    match read_csv fs (p ++ ["study"]) "009" ["     nan"] with
    | inl df => let* r := alloc (set_index_name "Step number" df) in ret (Some r)
    | inr err => warning (unreadable "training data" p err) ;; ret None
    end in
  let* data_eval :=
    match read_csv fs (p ++ ["eval"]) "009" [] with
    | inl df => let* r := alloc (set_index_name "Step number" df) in ret (Some r)
    | inr err => warning (unreadable "evaluation data" p err) ;; ret None
    end in
  let* data := merge key_order [data_study; data_eval] None in
  ret (mkSession (path_name p) p (loaded_config fs p) (loaded_json json_load fs p) data).

(** Row [i] of a table, as labelled cells; the row of missing values; the
    row a join takes from one side. *)
Definition row (df : DataFrame) (i : nat) : list (string * value) :=
  map (fun c => (c.1, nth i c.2 VNaN)) (columns df).

Definition missing_row (df : DataFrame) : list (string * value) :=
  map (fun c => (c.1, VNaN)) (columns df).

Definition side_row (df : DataFrame) (o : option nat) : list (string * value) :=
  match o with
  | Some i => row df i
  | None => missing_row df
  end.

(** A row of one side matched to a key, or the absence of any such row. *)
Definition matched (k : value) (idx : list value) (o : option nat) : Prop :=
  match o with
  | Some i => (i < length idx)%nat ∧ value_eqb k (nth i idx VNaN) = true
  | None => ∀ i, (i < length idx)%nat → value_eqb k (nth i idx VNaN) = false
  end.

(** What the specification asks of the merged table [J] of [L] and [R]:
    it has the columns of both; each of its rows carries one key, the cells
    of a row of [L] with that key or missing values if [L] has none, and
    likewise for [R]; a row comes from at least one side; every row of [L]
    and of [R] is found in it, and every two rows of [L] and [R] with the
    same key are found in it together; and no row of a side, and no two rows
    together, come twice. *)
Definition outer_join_of (L R J : DataFrame) : Prop :=
  ∃ ix : list (value * option nat * option nat),
    length (index J) = length ix ∧
    labels J = labels L ++ labels R ∧
    (∀ j k l r, ix !! j = Some (k, l, r) →
       index J !! j = Some k ∧
       matched k (index L) l ∧ matched k (index R) r ∧
       (is_Some l ∨ is_Some r) ∧
       row J j = side_row L l ++ side_row R r) ∧
    (∀ i, (i < length (index L))%nat → ∃ j k r, ix !! j = Some (k, Some i, r)) ∧
    (∀ i, (i < length (index R))%nat → ∃ j k l, ix !! j = Some (k, l, Some i)) ∧
    (∀ i i', (i < length (index L))%nat → (i' < length (index R))%nat →
       value_eqb (nth i (index L) VNaN) (nth i' (index R) VNaN) = true →
       ∃ j k, ix !! j = Some (k, Some i, Some i')) ∧
    NoDup (map (fun t => (t.1.2, t.2)) ix).

(** The keys of two indexes as they come, those of the left index first:
    the order the examples take. *)
Definition appearance_order (lidx ridx : list value) : list value :=
  unique_keys (lidx ++ ridx).

(** The padded literal the training log is read with. *)
Definition padded_nan : string := "     nan".

(** Where a method leaves the plot and the world. *)
Definition run {T A} (m : St (T * world) A) (s : T * world) : T * world := (m s).2.

(* ------------------------------------------------------------------------ *)
(** ** Sample runs *)

(** A log file as the experiment runner writes it: one line per row, the
    fields separated by tabulations. *)
Definition tsv (rows : list (list string)) : string :=
  String.concat (String "010" EmptyString)
    (map (String.concat (String "009" EmptyString)) rows ++ [EmptyString]).

Definition select_world : world :=
  mkWorld [mkDataFrame (Some "Step number") [VNum 0; VNum 1]
             [("Average loss", [VNum 2; VNum 1]);
              ("Accuracy", [VNum (1 # 2); VNum (3 # 4)]);
              ("Loss err", [VNum (1 # 10); VNum (1 # 10)])]] [] [].

Definition lr_frame : DataFrame :=
  mkDataFrame (Some "Step number") [VNum 0; VNum 10; VNum 25]
    [("Average loss", [VNum 3; VNum 2; VNum 1])].

Definition lr_world : world := mkWorld [lr_frame] [] [].

Definition lr_session (cfg : gmap string json_value) : Session :=
  mkSession "run" ["run"] None (Some cfg) (Some 0%nat).

Definition constant_config : gmap string json_value :=
  <["learning_rate" := JNum (1 # 10)]> (<["learning_rate_decay" := JNum 0]> ∅).

Definition decaying_config : gmap string json_value :=
  <["learning_rate" := JNum (1 # 10)]>
    (<["learning_rate_decay" := JNum 50]> (<["learning_rate_decay_delta" := JNum 10]> ∅)).

Definition epoch_frame : DataFrame :=
  mkDataFrame (Some "Step number") [VNum 0; VNum 1]
    [("Training point count", [VNum 60000; VNum 120000])].

Definition epoch_world : world := mkWorld [epoch_frame] [] [].

Definition epoch_session : Session :=
  mkSession "run" ["run"] None (Some {["dataset" := JStr "mnist"]}) (Some 0%nat).

(** A result directory with a training log only. *)
Definition study_fs : filesystem :=
  <[ ["run"] := Dir ]>
    (<[ ["run"; "study"] :=
          File (tsv [["Step number"; "Average loss"; "Training point count"];
                     ["0"; "  2.5"; "60000"];
                     ["1"; "     nan"; "120000"]]) ]> ∅).

(** The same two rows as an evaluation log and as a training log. *)
Definition eval_rows : list (list string) :=
  [["Step number"; "Accuracy"]; ["0"; "     nan"]; ["1"; "  0.5"]].

Definition eval_fs : filesystem :=
  <[ ["run"] := Dir ]> (<[ ["run"; "eval"] := File (tsv eval_rows) ]> ∅).

Definition as_study_fs : filesystem :=
  <[ ["run"] := Dir ]> (<[ ["run"; "study"] := File (tsv eval_rows) ]> ∅).

(** A result directory with both logs: the steps 0 and 1 of the training,
    the steps 1 and 2 of the evaluation. *)
Definition both_fs : filesystem :=
  <[ ["run"] := Dir ]>
    (<[ ["run"; "study"] :=
          File (tsv [["Step number"; "Average loss"]; ["0"; "2.5"]; ["1"; "1.5"]]) ]>
       (<[ ["run"; "eval"] :=
             File (tsv [["Step number"; "Accuracy"]; ["1"; "0.5"]; ["2"; "0.75"]]) ]> ∅)).

(** A result directory whose two logs have a column of the same name. *)
Definition overlap_fs : filesystem :=
  <[ ["run"] := Dir ]>
    (<[ ["run"; "study"] := File (tsv eval_rows) ]>
       (<[ ["run"; "eval"] := File (tsv eval_rows) ]> ∅)).

(** The table a session holds once loaded from [run], if any. *)
Definition loaded_table (fs : filesystem) : option DataFrame :=
  match Session_init (fun _ => None) appearance_order fs (PathObj ["run"]) empty_world with
  | (Ok s, w) => r ← data s; frames w !! r
  | (Raise _, _) => None
  end.

(** A regular file where a result directory is expected. *)
Definition file_fs : filesystem :=
  <[ ["results.txt"] := File "not a directory" ]> ∅.

(** A line plot made next to the table of [lr_world] and given the line of
    its loss; the same plot finalized; and a finalized histogram. *)
Definition drawn_lineplot : LinePlot.t * world :=
  match LinePlot.init None lr_world with
  | (Ok p, w) => run (LinePlot.include (PyFrame 0%nat) ["loss"] None 1 None) (p, w)
  | (Raise _, w) => (LinePlot.mk false None 0 None [] None 0, w)
  end.

Definition finalized_lineplot : LinePlot.t * world :=
  run (LinePlot.finalize "Loss" "Step" "Loss" None None None None None None None None)
    drawn_lineplot.

Definition finalized_histplot : HistPlot.t * world :=
  match HistPlot.init 25 empty_world with
  | (Ok p, w) => run (HistPlot.finalize "Norms" "Norm" "Count" None None None None) (p, w)
  | (Raise _, w) => (HistPlot.mk 25 false None 0, w)
  end.

(** A line plot closed before it was ever finalized, next to a table. *)
Definition closed_lineplot : LinePlot.t * world :=
  match LinePlot.init None lr_world with
  | (Ok p, w) => run LinePlot.close (p, w)
  | (Raise _, w) => (LinePlot.mk false None 0 None [] None 0, w)
  end.

(* ------------------------------------------------------------------------ *)
(** ** Further vocabulary *)

(** A column name that no fragment of [F] matches. *)
Definition unmatched (F : list string) (c : string) : bool :=
  forallb (fun f => negb (matches f c)) F.

(** The table without the columns that some fragment of [F] matches. *)
Definition without (F : list string) (df : DataFrame) : DataFrame :=
  mkDataFrame (index_name df) (index df)
    (filter (fun col => unmatched F col.1) (columns df)).

(** What every line plot keeps: at most two y-axes, under distinct
    selectors, the first being the original axis and the second its twin,
    which exists exactly when there are two. *)
Definition axes_ok (s : LinePlot.t) : Prop :=
  NoDup (map fst (LinePlot._axs s)) ∧
  map snd (LinePlot._axs s) = take (length (LinePlot._axs s)) [false; true] ∧
  (length (LinePlot._axs s) ≤ 2)%nat ∧
  (is_Some (LinePlot._tax s) ↔ length (LinePlot._axs s) = 2%nat).

(** A method keeps a property of the plot, whether it returns or raises. *)
Definition keeps {T A} (I : T → Prop) (m : St (T * world) A) : Prop :=
  ∀ s w, I s → I (m (s, w)).2.1.

(** The two warnings of the derived columns. *)
Definition no_epoch_warning : message :=
  Msg "No valid JSON-formatted configuration, cannot compute the epoch number" [].

Definition no_lr_warning : message :=
  Msg "No valid JSON-formatted configuration, cannot compute the learning rate" [].

(** More sample configurations. *)
Definition cifar_config : gmap string json_value :=
  <["dataset" := JStr "cifar10"]> constant_config.

Definition negative_config : gmap string json_value :=
  <["learning_rate_decay" := JNum (-5)]> constant_config.

Definition text_decay_config : gmap string json_value :=
  <["learning_rate_decay" := JStr "fast"]> constant_config.

(** A session whose configuration does not allow the epoch, or the learning
    rate, to be computed. *)
Definition epoch_unconfigured (s : Session) : Prop :=
  match json s with
  | None => True
  | Some cfg =>
      match cfg !! "dataset" with
      | None => True
      | Some d => dict_get training_sizes d = None
      end
  end.

Definition lr_unconfigured (s : Session) : Prop :=
  match json s with
  | None => True
  | Some cfg => cfg !! "learning_rate" = None
  end.

(** What a derived-column method that returned did to the table [df] at
    [r]: nothing because the column [c] was there, nothing because it could
    not be computed, or the column appended. *)
Definition column_step (c : string) (unconfigured : Prop) (r : ref) (df : DataFrame)
    (w w1 : world) : Prop :=
  (c ∈ labels df ∧ w1 = w) ∨
  ((c ∉ labels df) ∧ unconfigured ∧ frames w1 = frames w) ∨
  ((c ∉ labels df) ∧ ∃ col, frames w1 = <[r := with_column df c col]> (frames w)).

(** The plot after one more line was counted. *)
Definition bumped (s : LinePlot.t) : LinePlot.t :=
  LinePlot.mk (LinePlot._fin s) (LinePlot._fig s) (LinePlot._ax s) (LinePlot._tax s)
    (LinePlot._axs s) (LinePlot._idx s) (LinePlot._cnt s + 1).

(** The world after one more call into matplotlib. *)
Definition add_call (w : world) (c : mpl_call) : world :=
  mkWorld (frames w) (warnings w) (mpl w ++ [c]).

(** What [LinePlot.finalize] warns of, if anything. *)
Definition finalize_warnings (ylabel : string) (zlabel : option string)
    (tax : option nat) : list message :=
  match zlabel, tax with
  | Some z, None =>
      [Msg "No secondary y-axis found, but its label %r was provided" [ArgStr z]]
  | None, Some _ =>
      [Msg "No label provided for the secondary y-axis; using label %r from the primary"
         [ArgStr ylabel]]
  | _, _ => []
  end.

(** A line plot with its two y-axes taken. *)
Definition two_axes_plot : LinePlot.t :=
  LinePlot.mk false (Some 0%nat) 0%nat (Some 0%nat)
    [("loss", false); ("accuracy", true)] None 2.

(** A line plot next to the table of [select_world], given the lines of its
    losses and then, on a second axis, the line of its accuracy. *)
Definition twin_lineplot : LinePlot.t * world :=
  match LinePlot.init None select_world with
  | (Ok p, w) =>
      run (LinePlot.include (PyFrame 0%nat) ["acc"] None 1 None)
        (run (LinePlot.include (PyFrame 0%nat) ["loss"] None 1 None) (p, w))
  | (Raise _, w) => (LinePlot.mk false None 0 None [] None 0, w)
  end.

(* ------------------------------------------------------------------------ *)
(** * Properties *)

(** ** Column selection *)

Section Select.

Lemma select_scan_foldl f cols acc :
  select_scan (lower f) cols acc = foldl add_once acc (filter (fun c => matches f c) cols).
Proof.
  revert acc; induction cols as [|c cols IH]; intros acc; simpl; [done|].
  destruct (contains (lower f) (lower c)) eqn:Hm.
  - rewrite filter_cons_True by (unfold matches; rewrite Hm; done).
    simpl. unfold add_once at 2.
    destruct (str_in c acc); simpl; apply IH.
  - rewrite filter_cons_False by (unfold matches; rewrite Hm; intros []).
    rewrite andb_false_r. apply IH.
Qed.

Lemma select_loop_foldl F cols acc :
  select_loop F cols acc =
  foldl add_once acc (flat_map (fun f => filter (fun c => matches f c) cols) F).
Proof.
  revert acc; induction F as [|f F IH]; intros acc; simpl; [done|].
  rewrite foldl_app, IH, select_scan_foldl. done.
Qed.

Lemma foldl_add_once l acc :
  foldl add_once acc l = acc ++ filter (fun y => y ∉ acc) (first_occurrences l).
Proof.
  revert acc; induction l as [|x l IH]; intros acc; simpl.
  - by rewrite app_nil_r.
  - rewrite IH. unfold add_once, str_in. case_bool_decide as Hx.
    + rewrite filter_cons_False by (intros Hn; by apply Hn).
      f_equal. rewrite list_filter_filter. apply list_filter_iff.
      intros y; split; [intros Hy; split; [done | congruence] | by intros [? _]].
    + rewrite filter_cons_True by done.
      rewrite <- app_assoc. simpl. do 2 f_equal.
      rewrite list_filter_filter. apply list_filter_iff.
      intros y. rewrite elem_of_app, list_elem_of_singleton. tauto.
Qed.

Lemma filter_not_in_nil (l : list string) : filter (fun y => y ∉ []) l = l.
Proof.
  induction l as [|x l IH]; [done|].
  rewrite filter_cons_True by apply not_elem_of_nil. by rewrite IH.
Qed.

Lemma select_columns_first_seen df F :
  select_columns df F = first_seen (labels df) F.
Proof.
  unfold select_columns, first_seen. rewrite select_loop_foldl, foldl_add_once. simpl.
  apply filter_not_in_nil.
Qed.

Lemma elem_of_first_occurrences l x : x ∈ first_occurrences l ↔ x ∈ l.
Proof.
  induction l as [|y l IH]; simpl; [done|].
  rewrite !elem_of_cons, list_elem_of_filter, IH.
  destruct (decide (x = y)); tauto.
Qed.

Lemma NoDup_first_occurrences l : NoDup (first_occurrences l).
Proof.
  induction l as [|y l IH]; simpl; constructor.
  - rewrite list_elem_of_filter. by intros [? _].
  - by apply NoDup_filter.
Qed.

Lemma elem_of_scanned cols F c :
  c ∈ flat_map (fun f => filter (fun c => matches f c) cols) F ↔
  c ∈ cols ∧ ∃ f, f ∈ F ∧ matches f c = true.
Proof.
  rewrite list_elem_of_In, in_flat_map. split.
  - intros (f & Hf & Hc). apply list_elem_of_In, list_elem_of_filter in Hc as [Hm Hc].
    split; [done|]. exists f. split; [by apply list_elem_of_In | by apply Is_true_true].
  - intros (Hc & f & Hf & Hm). exists f. split; [by apply list_elem_of_In|].
    apply list_elem_of_In, list_elem_of_filter. split; [by apply Is_true_true | done].
Qed.

Lemma elem_of_select_columns df F c :
  c ∈ select_columns df F ↔ c ∈ labels df ∧ ∃ f, f ∈ F ∧ matches f c = true.
Proof.
  rewrite select_columns_first_seen. unfold first_seen.
  rewrite elem_of_first_occurrences. apply elem_of_scanned.
Qed.

Lemma elem_of_getitem_list df cols col :
  col ∈ columns (getitem_list df cols) ↔ col ∈ columns df ∧ col.1 ∈ cols.
Proof.
  unfold getitem_list; simpl. rewrite list_elem_of_In, in_flat_map. split.
  - intros (c & Hc & Hcol). apply list_elem_of_In, list_elem_of_filter in Hcol as [-> ?].
    split; [done | by apply list_elem_of_In].
  - intros [Hcol Hc]. exists col.1. split; [by apply list_elem_of_In|].
    by apply list_elem_of_In, list_elem_of_filter.
Qed.

Lemma filter_label_unique (cols : list (string * Series)) c :
  NoDup (map fst cols) → c ∈ map fst cols →
  map fst (filter (fun col => col.1 = c) cols) = [c].
Proof.
  induction cols as [|[c' s] cols IH]; simpl; intros Hnd Hc.
  - by apply elem_of_nil in Hc.
  - apply NoDup_cons in Hnd as [Hc' Hnd]. rewrite filter_cons. simpl.
    destruct (decide (c' = c)) as [->|Hne]; simpl.
    + f_equal. clear IH Hc Hnd. induction cols as [|[c'' s'] cols IH]; [done|].
      simpl in *. rewrite not_elem_of_cons in Hc'. destruct Hc' as [Hne Hc'].
      rewrite filter_cons_False by (simpl; congruence). by apply IH.
    + apply IH; [done|]. apply elem_of_cons in Hc as [?|?]; congruence.
Qed.

Lemma labels_getitem_list df cols :
  NoDup (labels df) → (∀ c, c ∈ cols → c ∈ labels df) →
  labels (getitem_list df cols) = cols.
Proof.
  unfold labels, getitem_list. simpl. intros Hnd.
  induction cols as [|c cols IH]; intros Hsub; simpl; [done|].
  rewrite map_app, filter_label_unique; [|done|apply Hsub; left].
  simpl. f_equal. apply IH. intros c' Hc'. apply Hsub. by right.
Qed.

(** C2.  [select(T)] without fragments gives back the very object [T] (the
    same reference, nothing allocated); with fragments [F] it gives a new
    table, the projection of [T] onto the columns whose lower-cased name
    contains a lower-cased fragment of [F]: the labels picked are exactly
    those, each once, in the order in which scanning the columns of [T]
    once per fragment first meets them.  A session is first replaced by
    its table. *)
Theorem select_projection (w : world) (r : ref) (T : DataFrame) (F : list string) :
  frames w !! r = Some T →
  select (PyFrame r) [] w = (Ok (PyFrame r), w) ∧
  (∀ s, select (PySession s) F w = select (of_frame (data s)) F w) ∧
  (F ≠ [] →
     let P := getitem_list T (select_columns T F) in
     select (PyFrame r) F w =
       (Ok (PyFrame (length (frames w))),
        mkWorld (frames w ++ [P]) (warnings w) (mpl w)) ∧
     select_columns T F = first_seen (labels T) F ∧
     NoDup (select_columns T F) ∧
     (∀ c, c ∈ select_columns T F ↔
           c ∈ labels T ∧ ∃ f, f ∈ F ∧ contains (lower f) (lower c) = true) ∧
     index P = index T ∧
     (∀ col, col ∈ columns P ↔
             col ∈ columns T ∧ ∃ f, f ∈ F ∧ contains (lower f) (lower col.1) = true) ∧
     (NoDup (labels T) → labels P = select_columns T F)).
Proof.
  intros Hr. split; [done|]. split.
  { intros s. unfold select, session_data. by destruct (data s). }
  intros HF P.
  assert (Hin : ∀ c, c ∈ select_columns T F ↔
           c ∈ labels T ∧ ∃ f, f ∈ F ∧ contains (lower f) (lower c) = true)
    by (intros c; apply elem_of_select_columns).
  split; [|split; [|split; [|split; [|split; [|split]]]]].
  - unfold select. destruct F as [|f F]; [done|]. simpl.
    unfold bind, deref. rewrite Hr. done.
  - apply select_columns_first_seen.
  - rewrite select_columns_first_seen. apply NoDup_first_occurrences.
  - exact Hin.
  - done.
  - intros col. unfold P. rewrite elem_of_getitem_list, Hin. split.
    + tauto.
    + intros [Hcol Hf]. split; [done|]. split; [|done].
      unfold labels. apply list_elem_of_In, in_map, list_elem_of_In, Hcol.
  - intros Hnd. apply labels_getitem_list; [done|].
    intros c Hc. by apply Hin in Hc as [? _].
Qed.

End Select.

Lemma select_projection_witness :
  select (PyFrame 0%nat) ["LOSS"; "a"] select_world =
    (Ok (PyFrame 1%nat),
     mkWorld (frames select_world ++
              [mkDataFrame (Some "Step number") [VNum 0; VNum 1]
                 [("Average loss", [VNum 2; VNum 1]);
                  ("Loss err", [VNum (1 # 10); VNum (1 # 10)]);
                  ("Accuracy", [VNum (1 # 2); VNum (3 # 4)])]]) [] []).
Proof.
  pose proof (select_projection select_world 0%nat
                (mkDataFrame (Some "Step number") [VNum 0; VNum 1]
                   [("Average loss", [VNum 2; VNum 1]);
                    ("Accuracy", [VNum (1 # 2); VNum (3 # 4)]);
                    ("Loss err", [VNum (1 # 10); VNum (1 # 10)])])
                ["LOSS"; "a"] eq_refl) as (_ & _ & H).
  destruct (H ltac:(discriminate)) as [Hsel _].
  exact Hsel.
Defined.

(** ** Derived columns *)

Section Derived.

Local Open Scope Q_scope.

Lemma Qzero_false q : ¬ q == 0 → Qzero q = false.
Proof.
  intros Hq. unfold Qzero. destruct (Qeq_bool q 0) eqn:E; [|done].
  by apply Qeq_bool_iff in E.
Qed.

Lemma Qzero_true q : q == 0 → Qzero q = true.
Proof. intros Hq. by apply Qeq_bool_iff. Qed.

Lemma qnum_proper p q : p == q → qnum p = qnum q.
Proof. intros H. unfold qnum. f_equal. by apply Qred_complete. Qed.

Lemma vfloordiv_num x y :
  ¬ y == 0 → vfloordiv (VNum x) (VNum y) = Some (qnum (inject_Z (Qfloor (x / y)))).
Proof. intros Hy. unfold vfloordiv. by rewrite Qzero_false. Qed.

Lemma vdiv_num x y : ¬ y == 0 → vdiv (VNum x) (VNum y) = Some (qnum (x / y)).
Proof. intros Hy. unfold vdiv. by rewrite Qzero_false. Qed.

Lemma lr_row_schedule base delta decay i :
  0 < decay → ¬ delta == 0 →
  ¬ inject_Z (Qfloor (i / delta)) * delta / decay + 1 == 0 →
  lr_row base delta decay (VNum i) = Some (qnum (schedule base delta decay i)).
Proof.
  intros Hdecay Hdelta Hden.
  assert (Hdecay' : ¬ decay == 0).
  { intros E. rewrite E in Hdecay. by apply Qlt_irrefl in Hdecay. }
  set (f := inject_Z (Qfloor (i / delta))) in *.
  assert (He : Qred (Qred (Qred (Qred f * delta) / decay) + 1) == f * delta / decay + 1).
  { transitivity (Qred (Qred (Qred f * delta) / decay) + 1); [apply Qred_correct|].
    apply Qplus_comp; [|reflexivity].
    transitivity (Qred (Qred f * delta) / decay); [apply Qred_correct|].
    apply Qdiv_comp; [|reflexivity].
    transitivity (Qred f * delta); [apply Qred_correct|].
    apply Qmult_comp; [apply Qred_correct | reflexivity]. }
  unfold lr_row. rewrite vfloordiv_num by done. fold f.
  unfold qnum at 1. cbn [mbind option_bind vmul].
  unfold qnum at 1. cbn [mbind option_bind].
  rewrite vdiv_num by done.
  unfold qnum at 1. cbn [mbind option_bind vadd].
  unfold qnum at 1. cbn [mbind option_bind].
  rewrite vdiv_num.
  - f_equal. apply qnum_proper. unfold schedule. fold f.
    apply Qdiv_comp; [reflexivity | exact He].
  - intros E. apply Hden. transitivity (Qred (Qred (Qred (Qred f * delta) / decay) + 1));
      [symmetry; exact He | exact E].
Qed.

Lemma find_label_None (cols : list (string * Series)) c :
  c ∉ map fst cols → list_find (fun old => old.1 = c) cols = None.
Proof.
  intros Hc. apply list_find_None, Forall_forall. intros [c' s] Hin Heq.
  simpl in Heq. subst c'. apply Hc.
  apply list_elem_of_In, (in_map fst _ (c, s)). by apply list_elem_of_In.
Qed.

Lemma setitem_new w r df c col :
  frames w !! r = Some df → c ∉ labels df →
  setitem r c col w = (Ok tt, set_frames w (<[r := with_column df c col]> (frames w))).
Proof.
  intros Hr Hc. unfold setitem, bind, deref. rewrite Hr.
  by rewrite find_label_None.
Qed.

Lemma not_str_in c (l : list string) : c ∉ l → str_in c l = false.
Proof. intros. unfold str_in. by apply bool_decide_eq_false. Qed.

Lemma mapM_lr_rows base delta decay steps :
  0 < decay → ¬ delta == 0 →
  (∀ i, i ∈ steps → ¬ inject_Z (Qfloor (i / delta)) * delta / decay + 1 == 0) →
  mapM (lr_row base delta decay) (map VNum steps) =
    Some (map (fun i => qnum (schedule base delta decay i)) steps).
Proof.
  intros Hdecay Hdelta. induction steps as [|i steps IH]; intros Hden; [done|].
  simpl. rewrite lr_row_schedule; [|done|done|apply Hden; left].
  simpl. rewrite IH; [done|]. intros j Hj. apply Hden. by right.
Qed.

(** For step numbers that are not negative and a positive [delta] the
    denominator of the schedule is at least 1. *)
Lemma schedule_defined delta decay i :
  0 < decay → 0 < delta → 0 <= i →
  ¬ inject_Z (Qfloor (i / delta)) * delta / decay + 1 == 0.
Proof.
  intros Hdecay Hdelta Hi.
  assert (Hq : 0 <= i / delta).
  { apply Qle_shift_div_l; [done|]. by rewrite Qmult_0_l. }
  assert (Hf : 0 <= inject_Z (Qfloor (i / delta))).
  { change 0 with (inject_Z 0). rewrite <- Zle_Qle.
    change 0%Z with (Qfloor 0). by apply Qfloor_resp_le. }
  assert (Hn : 0 <= inject_Z (Qfloor (i / delta)) * delta / decay).
  { apply Qle_shift_div_l; [done|]. rewrite Qmult_0_l.
    apply Qmult_le_0_compat; [done | by apply Qlt_le_weak]. }
  intros E.
  assert (Hlt : 0 < inject_Z (Qfloor (i / delta)) * delta / decay + 1).
  { apply (Qlt_le_trans _ (0 + 1)); [reflexivity|].
    apply Qplus_le_compat; [done | apply Qle_refl]. }
  rewrite E in Hlt. by apply Qlt_irrefl in Hlt.
Qed.

(** C3.  On a session whose configuration has a "learning_rate" and whose
    table has no "Learning rate" column yet, [compute_lr] appends that
    column.  With a decay above zero the row of step [i] holds
    [base_lr / (floor(i / delta) * delta / decay + 1)], for numeric steps, a
    non-zero [delta] and wherever that denominator is not zero; with a
    decay of zero every row holds [base_lr].  [delta] defaults to 1 and the
    decay to 0. *)
Theorem compute_lr_schedule (w : world) (s : Session) (r : ref) (df : DataFrame)
    (cfg : gmap string json_value) (lr : json_value) (decay : Q) :
  data s = Some r → frames w !! r = Some df → "Learning rate" ∉ labels df →
  json s = Some cfg → cfg !! "learning_rate" = Some lr →
  json_number (default (JNum 0) (cfg !! "learning_rate_decay")) = Some decay →
  (0 < decay →
     ∀ base delta steps,
       json_number lr = Some base →
       json_number (default (JNum 1) (cfg !! "learning_rate_decay_delta")) = Some delta →
       ¬ delta == 0 →
       index df = map VNum steps →
       (∀ i, i ∈ steps → ¬ inject_Z (Qfloor (i / delta)) * delta / decay + 1 == 0) →
       compute_lr s w =
         (Ok s, set_frames w (<[r := with_column df "Learning rate"
                                       (map (fun i => qnum (schedule base delta decay i)) steps)]>
                                (frames w)))) ∧
  (decay == 0 →
     compute_lr s w =
       (Ok s, set_frames w (<[r := with_column df "Learning rate"
                                     (replicate (length (index df)) (json_cell lr))]>
                              (frames w)))).
Proof.
  intros Hdata Hr Hcol Hjson Hlr Hdecay. split.
  - intros Hpos base delta steps Hbase Hdelta Hnz Hidx Hden.
    unfold compute_lr. rewrite Hdata. unfold bind at 1. unfold deref. rewrite Hr.
    rewrite not_str_in by done. rewrite Hjson, Hlr, Hdecay.
    assert (Qle_bool decay 0 = false) as ->.
    { destruct (Qle_bool decay 0) eqn:E; [|done].
      apply Qle_bool_iff in E. by apply Qle_not_lt in E. }
    simpl. rewrite Hdelta, Hbase, Hidx, mapM_lr_rows by done.
    unfold bind. by rewrite (setitem_new w r df).
  - intros Hzero.
    unfold compute_lr. rewrite Hdata. unfold bind at 1. unfold deref. rewrite Hr.
    rewrite not_str_in by done. rewrite Hjson, Hlr, Hdecay.
    assert (Qle_bool decay 0 = true) as ->.
    { apply Qle_bool_iff. rewrite Hzero. apply Qle_refl. }
    simpl. unfold bind. by rewrite (setitem_new w r df).
Qed.

Lemma series_div_cells count size w :
  (0 < size)%Z → (∀ v, v ∈ count → is_text v = false) →
  series_div count (inject_Z size) w = (Ok (map (epoch_cell size) count), w).
Proof.
  intros Hsize Htext. unfold series_div.
  assert (mapM (fun v => vdiv v (VNum (inject_Z size))) count
          = Some (map (epoch_cell size) count)) as ->; [|done].
  induction count as [|v count IH]; [done|].
  simpl. assert (vdiv v (VNum (inject_Z size)) = Some (epoch_cell size v)) as ->.
  { specialize (Htext v ltac:(left)). destruct v as [q|b| |t]; try done.
    - apply vdiv_num. unfold Qeq. simpl. lia.
    - assert (Qneg (inject_Z size) = false) as Hneg.
      { unfold Qneg. apply negb_false_iff, Qle_bool_iff. unfold Qle. simpl. lia. }
      simpl. rewrite Hneg. by destruct b. }
  simpl. rewrite IH; [done|]. intros v' Hv'. apply Htext. by right.
Qed.

Lemma elem_of_labels (cols : list (string * Series)) c col :
  (c, col) ∈ cols → c ∈ map fst cols.
Proof.
  intros Hin. apply list_elem_of_In, (in_map fst _ (c, col)). by apply list_elem_of_In.
Qed.

Lemma label_unique (cols : list (string * Series)) c a b :
  NoDup (map fst cols) → (c, a) ∈ cols → (c, b) ∈ cols → a = b.
Proof.
  induction cols as [|[c' x] cols IH]; simpl; intros Hnd Ha Hb.
  - by apply elem_of_nil in Ha.
  - apply NoDup_cons in Hnd as [Hc' Hnd].
    apply elem_of_cons in Ha as [Ha|Ha]; apply elem_of_cons in Hb as [Hb|Hb].
    + congruence.
    + inversion Ha; subst. exfalso. apply Hc'. by apply elem_of_labels in Hb.
    + inversion Hb; subst. exfalso. apply Hc'. by apply elem_of_labels in Ha.
    + by apply IH.
Qed.

Lemma find_label_unique (cols : list (string * Series)) c col :
  NoDup (map fst cols) → (c, col) ∈ cols →
  ∃ i, list_find (fun old => old.1 = c) cols = Some (i, (c, col)).
Proof.
  intros Hnd Hin.
  destruct (list_find_elem_of (fun old => old.1 = c) cols (c, col) Hin eq_refl)
    as [[i [c' col']] Hfind].
  exists i. rewrite Hfind. apply list_find_Some in Hfind as (Hi & Hc & _).
  simpl in Hc. subst c'. apply list_elem_of_lookup_2 in Hi.
  by rewrite (label_unique cols c col' col Hnd Hi Hin).
Qed.

Lemma known_dataset_size name size :
  (name, size) ∈ known_datasets → training_sizes !! name = Some size ∧ (0 < size)%Z.
Proof.
  unfold known_datasets. rewrite !elem_of_cons.
  intros [H|[H|[H|[H|H]]]]; try (inversion H; subst; split; [by vm_compute | lia]).
  by apply elem_of_nil in H.
Qed.

Lemma unknown_dataset_size name :
  name ∉ map fst known_datasets → training_sizes !! name = None.
Proof.
  intros Hn. unfold training_sizes. apply not_elem_of_list_to_map_1.
  intros Hin. apply Hn. exact Hin.
Qed.

(** C4.  [compute_epoch] changes nothing when the table already has an
    "Epoch number" column, so a second call leaves what the first one did.
    Otherwise, for a "dataset" among mnist (60000), fashionmnist (60000),
    cifar10 (50000) and cifar100 (50000), it appends the column of the
    "Training point count" cells divided by that size; for any other
    dataset name, or without a "dataset" key or without configuration, it
    warns and leaves every table as it is. *)
Theorem compute_epoch_column (w : world) (s : Session) (r : ref) (df : DataFrame) :
  data s = Some r → frames w !! r = Some df →
  ("Epoch number" ∈ labels df → compute_epoch s w = (Ok s, w)) ∧
  ("Epoch number" ∉ labels df →
     (∀ cfg name size count,
        json s = Some cfg → cfg !! "dataset" = Some (JStr name) →
        (name, size) ∈ known_datasets →
        NoDup (labels df) → ("Training point count", count) ∈ columns df →
        (∀ v, v ∈ count → is_text v = false) →
        let w' := set_frames w (<[r := with_column df "Epoch number"
                                         (map (epoch_cell size) count)]> (frames w)) in
        compute_epoch s w = (Ok s, w') ∧ compute_epoch s w' = (Ok s, w')) ∧
     (∀ cfg name,
        json s = Some cfg → cfg !! "dataset" = Some (JStr name) →
        name ∉ map fst known_datasets →
        compute_epoch s w =
          (Ok s, add_warning w (Msg "Unknown dataset %r, cannot compute the epoch number"
                                  [ArgJson (JStr name)]))) ∧
     ((json s = None ∨ ∃ cfg, json s = Some cfg ∧ cfg !! "dataset" = None) →
        compute_epoch s w =
          (Ok s, add_warning w
                   (Msg "No valid JSON-formatted configuration, cannot compute the epoch number" [])))).
Proof.
  intros Hdata Hr. split; [|intros Hcol; split; [|split]].
  - intros Hcol. unfold compute_epoch. rewrite Hdata. unfold bind, deref. rewrite Hr.
    unfold str_in. by rewrite bool_decide_eq_true_2.
  - intros cfg name size count Hjson Hds Hknown Hnd Hcount Htext w'.
    apply known_dataset_size in Hknown as [Hsize Hpos].
    destruct (find_label_unique _ _ _ Hnd Hcount) as [i Hi].
    split.
    + unfold compute_epoch. rewrite Hdata. unfold bind at 1. unfold deref. rewrite Hr.
      rewrite not_str_in by done. rewrite Hjson, Hds. simpl. rewrite Hsize.
      unfold bind at 1. unfold getitem. rewrite Hi. unfold ret at 1.
      unfold bind at 1. rewrite series_div_cells by done.
      unfold bind. by rewrite (setitem_new w r df).
    + unfold compute_epoch. rewrite Hdata. unfold bind, deref. simpl.
      rewrite list_lookup_insert_eq by (by apply lookup_lt_Some in Hr).
      unfold str_in. rewrite bool_decide_eq_true_2; [done|].
      unfold labels, with_column. simpl. rewrite map_app. apply elem_of_app. right. by left.
  - intros cfg name Hjson Hds Hname.
    unfold compute_epoch. rewrite Hdata. unfold bind at 1. unfold deref. rewrite Hr.
    rewrite not_str_in by done. rewrite Hjson, Hds. simpl.
    by rewrite unknown_dataset_size.
  - intros [Hjson|(cfg & Hjson & Hds)].
    + unfold compute_epoch. rewrite Hdata. unfold bind at 1. unfold deref. rewrite Hr.
      rewrite not_str_in by done. by rewrite Hjson.
    + unfold compute_epoch. rewrite Hdata. unfold bind at 1. unfold deref. rewrite Hr.
      rewrite not_str_in by done. by rewrite Hjson, Hds.
Qed.

End Derived.

Ltac by_decide :=
  match goal with
  | |- ?P => apply (bool_decide_eq_true_1 P); vm_compute; reflexivity
  end.

Ltac each_elem H :=
  repeat (apply elem_of_cons in H as [->|H]; [try reflexivity|]);
  try (by apply elem_of_nil in H).

Lemma compute_lr_schedule_witness :
  compute_lr (lr_session constant_config) lr_world =
    (Ok (lr_session constant_config),
     mkWorld [with_column lr_frame "Learning rate"
                [VNum (1 # 10); VNum (1 # 10); VNum (1 # 10)]] [] []) ∧
  compute_lr (lr_session decaying_config) lr_world =
    (Ok (lr_session decaying_config),
     mkWorld [with_column lr_frame "Learning rate"
                [VNum (1 # 10); VNum (1 # 12); VNum (1 # 14)]] [] []).
Proof.
  split.
  - assert (Hcol : "Learning rate" ∉ labels lr_frame) by by_decide.
    destruct (compute_lr_schedule lr_world (lr_session constant_config) 0%nat lr_frame
                constant_config (JNum (1 # 10)) 0%Q
                eq_refl eq_refl Hcol eq_refl eq_refl eq_refl) as [_ H].
    exact (H ltac:(reflexivity)).
  - assert (Hcol : "Learning rate" ∉ labels lr_frame) by by_decide.
    destruct (compute_lr_schedule lr_world (lr_session decaying_config) 0%nat lr_frame
                decaying_config (JNum (1 # 10)) 50%Q
                eq_refl eq_refl Hcol eq_refl eq_refl eq_refl) as [H _].
    refine (H ltac:(reflexivity) (1 # 10)%Q 10%Q [0%Q; 10%Q; 25%Q] eq_refl eq_refl
              ltac:(discriminate) eq_refl _).
    intros i Hi. each_elem Hi; discriminate.
Defined.

Lemma compute_epoch_column_witness :
  let w' := mkWorld [with_column epoch_frame "Epoch number" [VNum 1; VNum 2]] [] [] in
  compute_epoch epoch_session epoch_world = (Ok epoch_session, w') ∧
  compute_epoch epoch_session w' = (Ok epoch_session, w').
Proof.
  destruct (compute_epoch_column epoch_world epoch_session 0%nat epoch_frame
              eq_refl eq_refl) as [_ H].
  assert (Hcol : "Epoch number" ∉ labels epoch_frame) by by_decide.
  destruct (H Hcol) as [Hknown _].
  refine (Hknown {["dataset" := JStr "mnist"]} "mnist" 60000%Z [VNum 60000; VNum 120000]
            eq_refl eq_refl _ _ _ _).
  - by_decide.
  - by_decide.
  - apply list_elem_of_here.
  - intros v Hv. each_elem Hv.
Defined.

(** ** Sessions without a table *)

(** C10.  When neither log could be loaded the session has no table, and
    [compute_epoch], [compute_lr] and [compute_all] raise an
    [AttributeError] on reaching for its columns: nothing is looked up in
    the configuration, no warning is printed and nothing is changed. *)
Theorem compute_without_table (w : world) (s : Session) :
  data s = None →
  compute_epoch s w = (Raise (no_attribute "NoneType" "columns"), w) ∧
  compute_lr s w = (Raise (no_attribute "NoneType" "columns"), w) ∧
  compute_all s w = (Raise (no_attribute "NoneType" "columns"), w).
Proof.
  intros Hdata.
  assert (He : compute_epoch s w = (Raise (no_attribute "NoneType" "columns"), w))
    by (unfold compute_epoch; by rewrite Hdata).
  assert (Hl : compute_lr s w = (Raise (no_attribute "NoneType" "columns"), w))
    by (unfold compute_lr; by rewrite Hdata).
  split; [done|]. split; [done|].
  unfold compute_all, Session_dict. cbn [for_each]. unfold bind, ret. cbn.
  by rewrite He.
Qed.

Lemma compute_without_table_witness :
  let s := mkSession "run" ["run"] None (Some {["dataset" := JStr "mnist"]}) None in
  compute_all s empty_world = (Raise (no_attribute "NoneType" "columns"), empty_world).
Proof.
  intros s.
  exact (proj2 (proj2 (compute_without_table empty_world s eq_refl))).
Defined.

(** ** Loading a session *)

Section Load.

Variable json_load : string -> option (gmap string json_value).
Variable key_order : list value -> list value -> list value.

Lemma open_file_absent (fs : filesystem) q :
  fs !! q = None → ∃ e, open_file fs q = inr e.
Proof. intros H. unfold open_file. rewrite H. destruct (existsb _ _); eauto. Qed.

Lemma read_csv_absent (fs : filesystem) q sep na :
  fs !! q = None → ∃ e, read_csv fs q sep na = inr e.
Proof.
  intros H. destruct (open_file_absent fs q H) as [e He].
  exists e. unfold read_csv. by rewrite He.
Qed.

Lemma Session_init_logs fs p w :
  path_exists fs p = true →
  Session_init json_load key_order fs (PathObj p) w =
    load_logs json_load key_order fs p
      (mkWorld (frames w) (warnings w ++ config_warnings json_load fs p) (mpl w)).
Proof.
  intros Hex. unfold Session_init, load_logs, loaded_config, loaded_json, config_warnings.
  rewrite Hex. cbn [negb].
  destruct (open_file fs (p ++ ["config"])) as [text|e1];
    destruct (open_file fs (p ++ ["config.json"])) as [jtext|e2];
    try destruct (json_load jtext) as [obj|];
    unfold bind at 1; cbn [ret warning bind];
    unfold bind at 1; cbn [ret warning bind].
  - rewrite app_nil_r; by destruct w.
  - unfold bind at 1. cbn. reflexivity.
  - unfold bind at 1. cbn. reflexivity.
  - unfold bind at 1. cbn. reflexivity.
  - unfold bind at 1. cbn. unfold bind at 1. cbn. rewrite <- app_assoc. reflexivity.
  - unfold bind at 1. cbn. unfold bind at 1. cbn. rewrite <- app_assoc. reflexivity.
Qed.

End Load.

(** ** The outer join *)

Section Join.

Variable key_order : list value -> list value -> list value.

Lemma value_eqb_refl a : value_eqb a a = true.
Proof.
  destruct a as [q|b| |s]; simpl; [apply Qeq_bool_refl | by destruct b | done | apply String.eqb_refl].
Qed.

Lemma value_eqb_trans a b c :
  value_eqb a b = true → value_eqb b c = true → value_eqb a c = true.
Proof.
  destruct a as [x|s| |t], b as [y|s'| |t'], c as [z|s''| |t'']; simpl; try done.
  - apply Qeq_bool_trans.
  - intros H1 H2. apply Bool.eqb_prop in H1, H2. subst. by destruct s''.
  - intros H1 H2. apply String.eqb_eq in H1, H2. subst. apply String.eqb_refl.
Qed.

Lemma value_eqb_sym a b : value_eqb a b = true → value_eqb b a = true.
Proof.
  destruct a as [x|s| |t], b as [y|s'| |t']; simpl; try done.
  - apply Qeq_bool_sym.
  - intros H. apply Bool.eqb_prop in H. subst. by destruct s'.
  - intros H. apply String.eqb_eq in H. subst. apply String.eqb_refl.
Qed.

Lemma unique_keys_sub x l : x ∈ unique_keys l → x ∈ l.
Proof.
  induction l as [|y l IH]; simpl; [done|].
  rewrite !elem_of_cons, list_elem_of_filter. intros [->|[_ H]]; [by left | right; by apply IH].
Qed.

Lemma unique_keys_cover x l :
  x ∈ l → ∃ k, k ∈ unique_keys l ∧ value_eqb k x = true.
Proof.
  induction l as [|y l IH]; simpl; intros Hx; [by apply elem_of_nil in Hx|].
  apply elem_of_cons in Hx as [->|Hx].
  - exists y. split; [by left | apply value_eqb_refl].
  - destruct (IH Hx) as (k & Hk & Hkx).
    destruct (value_eqb y k) eqn:Hyk.
    + exists y. split; [by left | by apply (value_eqb_trans y k x)].
    + exists k. split; [|done]. right. apply list_elem_of_filter. split; [|done].
      rewrite Hyk. done.
Qed.

Lemma FOP_filter {A} (R : A → A → Prop) (P : A → Prop) `{!∀ x, Decision (P x)} l :
  ForallOrdPairs R l → ForallOrdPairs R (filter P l).
Proof.
  induction 1 as [|a l Ha Hl IH]; [constructor|].
  destruct (decide (P a)) as [Hp|Hp].
  - rewrite filter_cons_True by done. constructor; [|done].
    apply List.Forall_forall. intros x Hx. apply list_elem_of_In, list_elem_of_filter in Hx as [_ Hx].
    rewrite List.Forall_forall in Ha. by apply Ha, list_elem_of_In.
  - by rewrite filter_cons_False.
Qed.

(** No two of the keys kept are the same key. *)
Lemma unique_keys_apart l :
  ForallOrdPairs (fun a b => value_eqb a b = false) (unique_keys l).
Proof.
  induction l as [|k l IH]; simpl; constructor.
  - apply List.Forall_forall. intros x Hx.
    apply list_elem_of_In, list_elem_of_filter in Hx as [Hx _].
    by destruct (value_eqb k x).
  - by apply FOP_filter.
Qed.

Lemma elem_of_map_Some (found : list nat) o :
  o ∈ map Some found ↔ match o with Some i => i ∈ found | None => False end.
Proof.
  rewrite list_elem_of_In, in_map_iff. destruct o as [i|].
  - split; [intros (x & [= ->] & Hx); by apply list_elem_of_In |
            intros Hi; exists i; split; [done | by apply list_elem_of_In]].
  - split; [by intros (x & [=] & _) | done].
Qed.

Lemma elem_of_matching k idx i :
  i ∈ filter (fun i => value_eqb k (nth i idx VNaN)) (seq 0 (length idx)) ↔
  (i < length idx)%nat ∧ value_eqb k (nth i idx VNaN) = true.
Proof.
  rewrite list_elem_of_filter, list_elem_of_In, in_seq.
  split; [intros [H ?]; split; [lia | by apply Is_true_true] |
          intros [? H]; split; [by apply Is_true_true | lia]].
Qed.

Lemma elem_of_rows_of k idx o : o ∈ rows_of k idx ↔ matched k idx o.
Proof.
  unfold rows_of.
  pose proof (elem_of_matching k idx) as Hf.
  destruct (filter _ _) as [|i0 found].
  - rewrite list_elem_of_singleton. destruct o as [i|]; simpl.
    + split; [done|]. intros Hi. apply Hf in Hi. by apply elem_of_nil in Hi.
    + split; [|done]. intros _ i Hi.
      destruct (value_eqb k (nth i idx VNaN)) eqn:E; [|done].
      exfalso. apply (not_elem_of_nil i), Hf. done.
  - rewrite elem_of_map_Some. destruct o as [i|]; simpl; [apply Hf|].
    split; [done|]. intros Hnone.
    assert (Hi0 : i0 ∈ i0 :: found) by by left.
    apply Hf in Hi0 as [Hlt Hp]. by rewrite (Hnone i0 Hlt) in Hp.
Qed.

Lemma rows_of_inhabited k idx : ∃ o, o ∈ rows_of k idx.
Proof.
  unfold rows_of. destruct (filter _ _) as [|i found].
  - exists None. by left.
  - exists (Some i). simpl. by left.
Qed.

Lemma NoDup_rows_of k idx : NoDup (rows_of k idx).
Proof.
  unfold rows_of.
  assert (Hnd : NoDup (filter (fun i => value_eqb k (nth i idx VNaN)) (seq 0 (length idx))))
    by apply NoDup_filter, NoDup_ListNoDup, List.seq_NoDup.
  destruct (filter _ _) as [|i found]; [apply NoDup_singleton|].
  apply (NoDup_fmap_2 Some) in Hnd. exact Hnd.
Qed.

Lemma elem_of_outer_indexer lidx ridx k l r :
  (k, l, r) ∈ outer_indexer key_order lidx ridx ↔
  k ∈ key_order lidx ridx ∧ matched k lidx l ∧ matched k ridx r.
Proof.
  unfold outer_indexer. rewrite list_elem_of_In, in_flat_map. split.
  - intros (k' & Hk' & Hin). apply in_flat_map in Hin as (l' & Hl' & Hin).
    apply in_map_iff in Hin as (r' & [= -> -> ->] & Hr').
    apply list_elem_of_In in Hk'. split; [done|].
    split; apply elem_of_rows_of; by apply list_elem_of_In.
  - intros (Hk & Hl & Hr). exists k. split; [by apply list_elem_of_In|].
    apply in_flat_map. exists l. split; [by apply list_elem_of_In, elem_of_rows_of|].
    apply in_map_iff. exists r. split; [done|]. by apply list_elem_of_In, elem_of_rows_of.
Qed.

(** The rows a key pairs, as they are laid for a list of keys. *)
Lemma elem_of_pairs (keys lidx ridx : list value) l r :
  (l, r) ∈ map (fun t : value * option nat * option nat => (t.1.2, t.2))
             (flat_map (fun k =>
                  flat_map (fun l => map (fun r => (k, l, r)) (rows_of k ridx))
                    (rows_of k lidx)) keys) ↔
  ∃ k, k ∈ keys ∧ matched k lidx l ∧ matched k ridx r.
Proof.
  rewrite list_elem_of_In, in_map_iff. split.
  - intros ([[k0 l0] r0] & Heq & Hin). apply in_flat_map in Hin as (k' & Hk' & Hin).
    apply in_flat_map in Hin as (l' & Hl' & Hin).
    apply in_map_iff in Hin as (r' & Heq' & Hr'). simplify_eq/=.
    eexists. split; [apply list_elem_of_In; eassumption|].
    split; apply elem_of_rows_of; by apply list_elem_of_In.
  - intros (k & Hk & Hl & Hr). exists (k, l, r). split; [done|].
    apply in_flat_map. exists k. split; [by apply list_elem_of_In|].
    apply in_flat_map. exists l. split; [by apply list_elem_of_In, elem_of_rows_of|].
    apply in_map_iff. exists r. split; [done|]. by apply list_elem_of_In, elem_of_rows_of.
Qed.

Lemma NoDup_product (k : value) (ls rs : list (option nat)) :
  NoDup ls → NoDup rs →
  NoDup (map (fun t : value * option nat * option nat => (t.1.2, t.2))
           (flat_map (fun l => map (fun r => (k, l, r)) rs) ls)).
Proof.
  intros Hls Hrs. induction Hls as [|l ls Hl Hls IH]; simpl; [apply NoDup_nil_2|].
  rewrite map_app, map_map. simpl. apply NoDup_app. split; [|split; [|exact IH]].
  - apply (NoDup_fmap_2_strong (fun r => (l, r))); [|exact Hrs].
    by intros r r' _ _ [= ->].
  - intros [l' r'] Hin Hin'.
    apply list_elem_of_In, in_map_iff in Hin as (r0 & Heq & _).
    apply list_elem_of_In, in_map_iff in Hin' as ([[k0 l0] r1] & Heq' & Hin').
    apply in_flat_map in Hin' as (l1 & Hl1 & Hin').
    apply in_map_iff in Hin' as (r2 & Heq2 & _). simplify_eq/=.
    apply Hl. by apply list_elem_of_In.
Qed.

(** Keys that are all different and all found in an index pair no row, and
    no two rows, twice. *)
Lemma NoDup_pairs (keys lidx ridx : list value) :
  ForallOrdPairs (fun a b => value_eqb a b = false) keys →
  (∀ k, k ∈ keys → k ∈ lidx ++ ridx) →
  NoDup (map (fun t : value * option nat * option nat => (t.1.2, t.2))
           (flat_map (fun k =>
                flat_map (fun l => map (fun r => (k, l, r)) (rows_of k ridx))
                  (rows_of k lidx)) keys)).
Proof.
  induction 1 as [|k ks Hk Hks IH]; intros Hsub; simpl; [apply NoDup_nil_2|].
  rewrite map_app. apply NoDup_app. split; [|split].
  - apply NoDup_product; apply NoDup_rows_of.
  - intros [l r] Hin Hin'.
    assert (Hin1 : (l, r) ∈ map (fun t : value * option nat * option nat => (t.1.2, t.2))
               (flat_map (fun k =>
                    flat_map (fun l => map (fun r => (k, l, r)) (rows_of k ridx))
                      (rows_of k lidx)) [k])) by (simpl; by rewrite app_nil_r).
    apply elem_of_pairs in Hin1 as (k0 & Hk0 & Hl & Hr).
    apply list_elem_of_singleton in Hk0 as ->.
    apply elem_of_pairs in Hin' as (k' & Hk' & Hl' & Hr').
    rewrite List.Forall_forall in Hk. specialize (Hk k' (proj1 (list_elem_of_In _ _) Hk')).
    assert (Hsame : value_eqb k k' = true); [|by rewrite Hsame in Hk].
    destruct l as [i|]; [|destruct r as [i|]].
    + destruct Hl as [_ Hl], Hl' as [_ Hl'].
      apply (value_eqb_trans _ (nth i lidx VNaN)); [done | by apply value_eqb_sym].
    + destruct Hr as [_ Hr], Hr' as [_ Hr'].
      apply (value_eqb_trans _ (nth i ridx VNaN)); [done | by apply value_eqb_sym].
    + exfalso. simpl in Hl, Hr.
      assert (Hin0 : k ∈ lidx ++ ridx) by (apply Hsub; by left).
      apply elem_of_app in Hin0 as [Hin0|Hin0];
        apply list_elem_of_In, (In_nth _ _ VNaN) in Hin0 as (i & Hi & Hn).
      * specialize (Hl i Hi). by rewrite Hn, value_eqb_refl in Hl.
      * specialize (Hr i Hi). by rewrite Hn, value_eqb_refl in Hr.
  - apply IH. intros k' Hk'. apply Hsub. by right.
Qed.

Lemma nth_take_rows {A} (f : A → option nat) (ix : list A) j t col :
  ix !! j = Some t →
  nth j (take_rows (map f ix) col) VNaN =
    match f t with Some i => nth i col VNaN | None => VNaN end.
Proof.
  revert j. induction ix as [|t' ix IH]; intros [|j] Hj; simplify_eq/=; [done|].
  by apply IH.
Qed.

Lemma lookup_map {A B} (f : A → B) (l : list A) j t :
  l !! j = Some t → map f l !! j = Some (f t).
Proof.
  revert j. induction l as [|t' l IH]; intros [|j] Hj; simplify_eq/=; [done|].
  by apply IH.
Qed.

Lemma key_somewhere k (lidx ridx : list value) :
  k ∈ lidx ++ ridx →
  (∃ i, (i < length lidx)%nat ∧ nth i lidx VNaN = k) ∨
  (∃ i, (i < length ridx)%nat ∧ nth i ridx VNaN = k).
Proof.
  intros Hk. apply elem_of_app in Hk as [Hk|Hk]; [left|right];
    apply list_elem_of_In, (In_nth _ _ VNaN) in Hk as (i & Hi & Hn); eauto.
Qed.

Section Ordered.

Variables lidx ridx : list value.
Hypothesis key_order_perm : key_order lidx ridx ≡ₚ unique_keys (lidx ++ ridx).

Lemma elem_of_key_order k : k ∈ key_order lidx ridx ↔ k ∈ unique_keys (lidx ++ ridx).
Proof. by rewrite key_order_perm. Qed.

Lemma row_cover i :
  (i < length lidx)%nat →
  ∃ k r, (k, Some i, r) ∈ outer_indexer key_order lidx ridx.
Proof.
  intros Hi.
  assert (Hin : nth i lidx VNaN ∈ lidx ++ ridx).
  { apply elem_of_app. left. apply list_elem_of_In, nth_In. lia. }
  destruct (unique_keys_cover _ _ Hin) as (k & Hk & Hki).
  destruct (rows_of_inhabited k ridx) as [r Hr].
  exists k, r. apply elem_of_outer_indexer.
  split; [by apply elem_of_key_order|]. split; [done|].
  by apply elem_of_rows_of.
Qed.

Lemma row_cover_r i :
  (i < length ridx)%nat →
  ∃ k l, (k, l, Some i) ∈ outer_indexer key_order lidx ridx.
Proof.
  intros Hi.
  assert (Hin : nth i ridx VNaN ∈ lidx ++ ridx).
  { apply elem_of_app. right. apply list_elem_of_In, nth_In. lia. }
  destruct (unique_keys_cover _ _ Hin) as (k & Hk & Hki).
  destruct (rows_of_inhabited k lidx) as [l Hl].
  exists k, l. apply elem_of_outer_indexer.
  split; [by apply elem_of_key_order|]. split; [|done].
  by apply elem_of_rows_of.
Qed.

Lemma pair_cover i i' :
  (i < length lidx)%nat → (i' < length ridx)%nat →
  value_eqb (nth i lidx VNaN) (nth i' ridx VNaN) = true →
  ∃ k, (k, Some i, Some i') ∈ outer_indexer key_order lidx ridx.
Proof.
  intros Hi Hi' Heq.
  assert (Hin : nth i lidx VNaN ∈ lidx ++ ridx).
  { apply elem_of_app. left. apply list_elem_of_In, nth_In. lia. }
  destruct (unique_keys_cover _ _ Hin) as (k & Hk & Hki).
  exists k. apply elem_of_outer_indexer.
  split; [by apply elem_of_key_order|]. split; [done|].
  split; [done|]. by apply (value_eqb_trans _ (nth i lidx VNaN)).
Qed.

Lemma NoDup_outer_indexer :
  NoDup (map (fun t : value * option nat * option nat => (t.1.2, t.2))
           (outer_indexer key_order lidx ridx)).
Proof.
  unfold outer_indexer.
  rewrite (Permutation_map (fun t : value * option nat * option nat => (t.1.2, t.2))
             (Permutation_flat_map
                (fun k => flat_map (fun l => map (fun r => (k, l, r)) (rows_of k ridx))
                            (rows_of k lidx))
                key_order_perm)).
  apply NoDup_pairs; [apply unique_keys_apart | intros k; apply unique_keys_sub].
Qed.

End Ordered.

Lemma join_outer_disjoint L R :
  (∀ c, c ∈ labels L → c ∉ labels R) →
  key_order (index L) (index R) ≡ₚ unique_keys (index L ++ index R) →
  ∃ J, join_outer key_order L R = inl J ∧
       index_name J = (if bool_decide (index_name L = index_name R)
                       then index_name L else None) ∧
       outer_join_of L R J.
Proof.
  intros Hdis Hperm. unfold join_outer.
  assert (filter (fun c => str_in c (labels R)) (labels L) = []) as ->.
  { induction (labels L) as [|c cs IH]; [done|].
    rewrite filter_cons_False.
    - apply IH. intros c' Hc'. apply Hdis. by right.
    - unfold str_in. rewrite bool_decide_eq_false_2; [by intros []|].
      apply Hdis. by left. }
  eexists. split; [done|]. split; [done|].
  exists (outer_indexer key_order (index L) (index R)). simpl.
  split; [by rewrite length_map|]. split.
  { unfold labels. simpl. rewrite map_app, !map_map. done. }
  split; [|split; [|split; [|split]]].
  - intros j k l r Hj.
    assert (Hin : (k, l, r) ∈ outer_indexer key_order (index L) (index R))
      by (by eapply list_elem_of_lookup_2).
    apply elem_of_outer_indexer in Hin as (Hk & Hl & Hr).
    apply (elem_of_key_order _ _ Hperm), unique_keys_sub in Hk.
    split; [by apply (lookup_map (fun t => t.1.1) _ _ _ Hj)|].
    split; [done|]. split; [done|]. split.
    + destruct l as [il|]; [left; eauto|]. destruct r as [ir|]; [right; eauto|].
      exfalso. simpl in Hl, Hr.
      destruct (key_somewhere _ _ _ Hk) as [(i & Hi & <-)|(i & Hi & <-)].
      * specialize (Hl i Hi). by rewrite value_eqb_refl in Hl.
      * specialize (Hr i Hi). by rewrite value_eqb_refl in Hr.
    + unfold row. simpl. rewrite map_app, !map_map. f_equal.
      * destruct l as [il|]; simpl; apply map_ext; intros [c col]; simpl;
          by rewrite (nth_take_rows (fun t => t.1.2) _ _ _ _ Hj).
      * destruct r as [ir|]; simpl; apply map_ext; intros [c col]; simpl;
          by rewrite (nth_take_rows (fun t => t.2) _ _ _ _ Hj).
  - intros i Hi. destruct (row_cover _ _ Hperm _ Hi) as (k & r & Hin).
    apply list_elem_of_lookup_1 in Hin as [j Hj]. eauto.
  - intros i Hi. destruct (row_cover_r _ _ Hperm _ Hi) as (k & l & Hin).
    apply list_elem_of_lookup_1 in Hin as [j Hj]. eauto.
  - intros i i' Hi Hi' Heq. destruct (pair_cover _ _ Hperm _ _ Hi Hi' Heq) as (k & Hin).
    apply list_elem_of_lookup_1 in Hin as [j Hj]. eauto.
  - by apply NoDup_outer_indexer.
Qed.

End Join.

Section LoadSession.

Variable json_load : string -> option (gmap string json_value).
Variable key_order : list value -> list value -> list value.

Lemma path_exists_dir (fs : filesystem) p : fs !! p = Some Dir → path_exists fs p = true.
Proof. intros H. unfold path_exists. apply bool_decide_eq_true_2. by rewrite H. Qed.

Lemma bind_Ok {S A B} (m : St S A) (k : A → St S B) s a s' :
  m s = (Ok a, s') → bind m k s = k a s'.
Proof. intros H. unfold bind. by rewrite H. Qed.

Lemma merge_both w r1 r2 L R J :
  frames w !! r1 = Some L → frames w !! r2 = Some R → join_outer key_order L R = inl J →
  merge key_order [Some r1; Some r2] None w =
    (Ok (Some (length (frames w))), mkWorld (frames w ++ [J]) (warnings w) (mpl w)).
Proof.
  intros H1 H2 HJ. cbn [merge]. unfold bind, deref. rewrite H1, H2, HJ. done.
Qed.

Lemma bind_Raise {S A B} (m : St S A) (k : A → St S B) s e s' :
  m s = (Raise e, s') → bind m k s = (Raise e, s').
Proof. intros H. unfold bind. by rewrite H. Qed.

Lemma merge_overlap w r1 r2 L R e :
  frames w !! r1 = Some L → frames w !! r2 = Some R → join_outer key_order L R = inr e →
  merge key_order [Some r1; Some r2] None w = (Raise e, w).
Proof.
  intros H1 H2 HJ. cbn [merge]. unfold bind, deref. rewrite H1, H2, HJ. done.
Qed.

Lemma lookup_two {A} (l : list A) x y :
  (l ++ [x; y]) !! length l = Some x ∧ (l ++ [x; y]) !! S (length l) = Some y.
Proof.
  split.
  - rewrite lookup_app_r by lia. by rewrite Nat.sub_diag.
  - rewrite lookup_app_r by lia.
    by replace (S (length l) - length l)%nat with 1%nat by lia.
Qed.

Lemma join_outer_overlap L R c :
  c ∈ labels L → c ∈ labels R → ∃ m, join_outer key_order L R = inr (ValueError m).
Proof.
  intros HL HR. unfold join_outer.
  destruct (filter (fun c => str_in c (labels R)) (labels L)) as [|c' rest] eqn:Hf;
    [|by eexists].
  exfalso. apply (not_elem_of_nil c). rewrite <- Hf. apply list_elem_of_filter.
  split; [|done]. unfold str_in. by rewrite bool_decide_eq_true_2.
Qed.

(** C9, as the code has it.  In a result directory [p]:
    - with a readable [study], no [eval] and no configuration file, the
      session is built without exception, its configuration and its JSON
      are absent and its table is the study table under the index name
      "Step number";
    - with both logs readable and no column name in common, its table is
      their outer join on the step index, under the same index name: each
      step once, whatever the order the steps are laid in;
    - with both logs readable and a column name in common, the join raises
      a [ValueError] and no session is built;
    - with neither log readable it has no table. *)
Theorem session_tables (fs : filesystem) (p : Path) (w : world) :
  fs !! p = Some Dir →
  (∀ study,
     fs !! (p ++ ["config"]) = None → fs !! (p ++ ["config.json"]) = None →
     fs !! (p ++ ["eval"]) = None →
     read_csv fs (p ++ ["study"]) "009" ["     nan"] = inl study →
     ∃ e1 e2 e3,
       Session_init json_load key_order fs (PathObj p) w =
         (Ok (mkSession (path_name p) p None None (Some (length (frames w)))),
          mkWorld (frames w ++ [set_index_name "Step number" study])
            (warnings w ++ [unreadable "configuration" p e1;
                            unreadable "JSON configuration" p e2;
                            unreadable "evaluation data" p e3])
            (mpl w))) ∧
  (∀ study eval,
     read_csv fs (p ++ ["study"]) "009" ["     nan"] = inl study →
     read_csv fs (p ++ ["eval"]) "009" [] = inl eval →
     (∀ c, c ∈ labels study → c ∉ labels eval) →
     key_order (index study) (index eval) ≡ₚ unique_keys (index study ++ index eval) →
     ∃ s w' J,
       Session_init json_load key_order fs (PathObj p) w = (Ok s, w') ∧
       data s = Some (length (frames w) + 2)%nat ∧
       frames w' = frames w ++ [set_index_name "Step number" study;
                                set_index_name "Step number" eval; J] ∧
       index_name J = Some "Step number" ∧
       outer_join_of (set_index_name "Step number" study)
         (set_index_name "Step number" eval) J) ∧
  (∀ study eval c,
     read_csv fs (p ++ ["study"]) "009" ["     nan"] = inl study →
     read_csv fs (p ++ ["eval"]) "009" [] = inl eval →
     c ∈ labels study → c ∈ labels eval →
     ∃ m w', Session_init json_load key_order fs (PathObj p) w = (Raise (ValueError m), w')) ∧
  (∀ e1 e2,
     read_csv fs (p ++ ["study"]) "009" ["     nan"] = inr e1 →
     read_csv fs (p ++ ["eval"]) "009" [] = inr e2 →
     ∃ s w',
       Session_init json_load key_order fs (PathObj p) w = (Ok s, w') ∧
       data s = None ∧ frames w' = frames w).
Proof.
  intros Hdir. pose proof (path_exists_dir _ _ Hdir) as Hex.
  split; [|split; [|split]].
  - intros study Hc Hj He Hs.
    destruct (open_file_absent fs _ Hc) as [e1 H1].
    destruct (open_file_absent fs _ Hj) as [e2 H2].
    destruct (read_csv_absent fs _ "009" [] He) as [e3 H3].
    exists e1, e2, e3. rewrite Session_init_logs by done.
    unfold load_logs, loaded_config, loaded_json, config_warnings.
    rewrite H1, H2, H3, Hs. cbn. by rewrite <- app_assoc.
  - intros study eval Hs He Hdis Hperm.
    destruct (join_outer_disjoint key_order (set_index_name "Step number" study)
                (set_index_name "Step number" eval) Hdis Hperm)
      as (J & HJ & Hname & Hjoin).
    rewrite Session_init_logs by done. unfold load_logs. rewrite Hs, He.
    eexists _, _, J. cbn -[merge].
    erewrite bind_Ok.
    2:{ apply (merge_both _ _ _ (set_index_name "Step number" study)
                 (set_index_name "Step number" eval) J); [| |exact HJ]; cbn [frames].
        - rewrite <- app_assoc. rewrite lookup_app_r by lia.
          by rewrite Nat.sub_diag.
        - rewrite lookup_app_r by done. by rewrite Nat.sub_diag. }
    cbn. split; [done|]. split; [rewrite !length_app; cbn [length]; apply (f_equal Some); lia|].
    split; [by rewrite <- !app_assoc|]. split; [|done].
    rewrite Hname. cbn [index_name set_index_name]. by rewrite bool_decide_eq_true_2.
  - intros study eval c Hs He Hc1 Hc2.
    destruct (join_outer_overlap (set_index_name "Step number" study)
                (set_index_name "Step number" eval) c Hc1 Hc2) as [m HJ].
    rewrite Session_init_logs by done. unfold load_logs. rewrite Hs, He.
    exists m. eexists. cbn -[merge].
    erewrite bind_Raise; [reflexivity|].
    apply (merge_overlap _ _ _ (set_index_name "Step number" study)
             (set_index_name "Step number" eval)); [| |exact HJ]; cbn [frames].
    + rewrite <- app_assoc. rewrite lookup_app_r by lia.
      by rewrite Nat.sub_diag.
    + rewrite lookup_app_r by done. by rewrite Nat.sub_diag.
  - intros e1 e2 H1 H2.
    rewrite Session_init_logs by done. unfold load_logs. rewrite H1, H2.
    eexists _, _. cbn. done.
Qed.

End LoadSession.
(** C9 as stated fails when the two logs have a column of the same name:
    both are read, the join refuses them and no session is built. *)
Lemma session_join_raises :
  read_csv overlap_fs ["run"; "study"] "009" ["     nan"] =
    inl (mkDataFrame (Some "Step number") [VNum 0; VNum 1]
           [("Accuracy", [VNaN; VNum (1 # 2)])]) ∧
  read_csv overlap_fs ["run"; "eval"] "009" [] =
    inl (mkDataFrame (Some "Step number") [VNum 0; VNum 1]
           [("Accuracy", [VStr "     nan"; VStr "  0.5"])]) ∧
  ∃ m w',
    Session_init (fun _ => None) appearance_order overlap_fs (PathObj ["run"]) empty_world =
      (Raise (ValueError m), w').
Proof.
  split; [by vm_compute|]. split; [by vm_compute|].
  eexists _, _. vm_compute. reflexivity.
Qed.

Lemma session_tables_witness :
  (∃ s w',
     Session_init (fun _ => None) appearance_order study_fs (PathObj ["run"]) empty_world =
       (Ok s, w') ∧
     config s = None ∧ json s = None ∧ data s = Some 0%nat ∧
     frames w' = [mkDataFrame (Some "Step number") [VNum 0; VNum 1]
                    [("Average loss", [VNum (5 # 2); VNaN]);
                     ("Training point count", [VNum 60000; VNum 120000])]]) ∧
  (∃ s w',
     Session_init (fun _ => None) appearance_order both_fs (PathObj ["run"]) empty_world =
       (Ok s, w') ∧
     data s = Some 2%nat ∧
     frames w' !! 2%nat =
       Some (mkDataFrame (Some "Step number") [VNum 0; VNum 1; VNum 2]
               [("Average loss", [VNum (5 # 2); VNum (3 # 2); VNaN]);
                ("Accuracy", [VNaN; VNum (1 # 2); VNum (3 # 4)])])).
Proof.
  split.
  - destruct (session_tables (fun _ => None) appearance_order study_fs ["run"] empty_world
                eq_refl) as [H _].
    destruct (H (mkDataFrame (Some "Step number") [VNum 0; VNum 1]
                   [("Average loss", [VNum (5 # 2); VNaN]);
                    ("Training point count", [VNum 60000; VNum 120000])])
                eq_refl eq_refl eq_refl eq_refl) as (e1 & e2 & e3 & Heq).
    eexists _, _. split; [exact Heq|]. repeat split.
  - destruct (session_tables (fun _ => None) appearance_order both_fs ["run"] empty_world
                eq_refl) as (_ & H & _).
    assert (Hdis : ∀ c : string, c ∈ ["Average loss"] → c ∉ ["Accuracy"]).
    { intros c Hc Hc'. apply list_elem_of_singleton in Hc, Hc'. subst. discriminate. }
    destruct (H (mkDataFrame (Some "Step number") [VNum 0; VNum 1]
                   [("Average loss", [VNum (5 # 2); VNum (3 # 2)])])
                (mkDataFrame (Some "Step number") [VNum 1; VNum 2]
                   [("Accuracy", [VNum (1 # 2); VNum (3 # 4)])])
                eq_refl eq_refl Hdis (Permutation_refl _))
      as (s & w' & J & Heq & Hdata & Hframes & _).
    exists s, w'. split; [exact Heq|]. split; [exact Hdata|].
    assert (Hrun : (Session_init (fun _ => None) appearance_order both_fs (PathObj ["run"])
                      empty_world).2 =
                   mkWorld
                     [mkDataFrame (Some "Step number") [VNum 0; VNum 1]
                        [("Average loss", [VNum (5 # 2); VNum (3 # 2)])];
                      mkDataFrame (Some "Step number") [VNum 1; VNum 2]
                        [("Accuracy", [VNum (1 # 2); VNum (3 # 4)])];
                      mkDataFrame (Some "Step number") [VNum 0; VNum 1; VNum 2]
                        [("Average loss", [VNum (5 # 2); VNum (3 # 2); VNaN]);
                         ("Accuracy", [VNaN; VNum (1 # 2); VNum (3 # 4)])]]
                     (warnings w') []).
    { rewrite Heq. cbn [snd]. revert Heq. vm_compute. intros [= _ <-]. reflexivity. }
    rewrite Heq in Hrun. cbn [snd] in Hrun. rewrite Hrun. reflexivity.
Defined.

(** ** Reading the evaluation log *)

Section Eval.

Variable json_load : string -> option (gmap string json_value).
Variable key_order : list value -> list value -> list value.

Lemma mapM_lookup {A B} (f : A → option B) (l : list A) k i x :
  mapM f l = Some k → l !! i = Some x → ∃ y, f x = Some y ∧ k !! i = Some y.
Proof.
  intros Hk Hi. apply mapM_Some_1 in Hk.
  destruct (Forall2_lookup_l _ _ _ _ _ Hk Hi) as (y & Hy & Hf). eauto.
Qed.

Lemma mapM_None_at {A B} (f : A → option B) (l : list A) i x :
  l !! i = Some x → f x = None → mapM f l = None.
Proof.
  intros Hi Hx. destruct (mapM f l) as [k|] eqn:E; [|done].
  destruct (mapM_lookup _ _ _ _ _ E Hi) as (y & Hy & _). congruence.
Qed.

Lemma padded_nan_is_text toks i :
  toks !! i = Some padded_nan →
  parse_column (default_na_values ++ []) toks !! i = Some (VStr padded_nan).
Proof.
  intros Hi. unfold parse_column.
  rewrite (mapM_None_at _ toks i padded_nan Hi) by reflexivity.
  lazy beta iota. by erewrite (lookup_map _ toks i padded_nan Hi).
Qed.

Lemma padded_nan_is_missing toks i :
  toks !! i = Some padded_nan →
  parse_column (default_na_values ++ [padded_nan]) toks !! i = Some VNaN.
Proof.
  intros Hi. unfold parse_column.
  destruct (mapM _ toks) as [vs|] eqn:E.
  - destruct (mapM_lookup _ _ _ _ _ E Hi) as (y & Hy & Hk).
    rewrite Hk. by inversion Hy.
  - by erewrite (lookup_map _ toks i padded_nan Hi).
Qed.

(** C5, as the code has it.  The evaluation log is read with tabulations as
    separators and its first column as index, and the index is then named
    "Step number": the table is kept as a new object, whether or not the
    training log could be read.  No missing-value marker is added to the
    parser's own, so that a field holding the padded "nan" literal is kept
    as text, whereas the training log is read with that literal as a
    marker, which makes such a field a missing value. *)
Theorem eval_log_reading (fs : filesystem) (p : Path) (w : world) (df : DataFrame) :
  fs !! p = Some Dir →
  read_csv fs (p ++ ["eval"]) "009" [] = inl df →
  (∃ o w' r,
     Session_init json_load key_order fs (PathObj p) w = (o, w') ∧
     (length (frames w) ≤ r)%nat ∧
     frames w' !! r = Some (set_index_name "Step number" df) ∧
     (∀ e, read_csv fs (p ++ ["study"]) "009" [padded_nan] = inr e →
           ∃ s, o = Ok s ∧ data s = Some r)) ∧
  (∀ toks i, toks !! i = Some padded_nan →
     parse_column (default_na_values ++ []) toks !! i = Some (VStr padded_nan) ∧
     parse_column (default_na_values ++ [padded_nan]) toks !! i = Some VNaN).
Proof.
  intros Hdir He. split.
  - rewrite Session_init_logs by (by apply path_exists_dir).
    unfold load_logs. rewrite He. fold padded_nan.
    destruct (read_csv fs (p ++ ["study"]) "009" [padded_nan]) as [study|e].
    + cbn -[merge]. rewrite <- app_assoc. cbn [app].
      replace (length (frames w ++ [set_index_name "Step number" study]))
        with (S (length (frames w))) by (rewrite length_app; simpl; lia).
      destruct (lookup_two (frames w) (set_index_name "Step number" study)
                  (set_index_name "Step number" df)) as [H1 H2].
      destruct (join_outer key_order (set_index_name "Step number" study)
                  (set_index_name "Step number" df)) as [J|e] eqn:HJ.
      * erewrite bind_Ok
          by (apply (merge_both _ _ _ _ (set_index_name "Step number" study)
                       (set_index_name "Step number" df) J);
              [exact H1 | exact H2 | exact HJ]).
        eexists _, _, (S (length (frames w))). split; [reflexivity|].
        split; [lia|]. split; [|done]. cbn [frames].
        rewrite lookup_app_l by (rewrite length_app; simpl; lia). exact H2.
      * erewrite bind_Raise
          by (apply (merge_overlap _ _ _ _ (set_index_name "Step number" study)
                       (set_index_name "Step number" df) e);
              [exact H1 | exact H2 | exact HJ]).
        eexists _, _, (S (length (frames w))). split; [reflexivity|].
        split; [lia|]. split; [exact H2 | done].
    + cbn. eexists _, _, (length (frames w)). split; [reflexivity|]. split; [lia|].
      split; [|intros ? _; eauto].
      cbn. rewrite lookup_app_r by lia. by rewrite Nat.sub_diag.
  - intros toks i Hi. split; [by apply padded_nan_is_text | by apply padded_nan_is_missing].
Qed.

End Eval.

(** C5 as stated fails: a padded "nan" in the evaluation log is loaded as
    text, and makes the whole column text, where the same file given as
    training log has a missing value and a number. *)
Lemma eval_keeps_padded_nan :
  loaded_table eval_fs =
    Some (mkDataFrame (Some "Step number") [VNum 0; VNum 1]
            [("Accuracy", [VStr "     nan"; VStr "  0.5"])]) ∧
  loaded_table as_study_fs =
    Some (mkDataFrame (Some "Step number") [VNum 0; VNum 1]
            [("Accuracy", [VNaN; VNum (1 # 2)])]) ∧
  loaded_table eval_fs ≠ loaded_table as_study_fs.
Proof.
  assert (He : loaded_table eval_fs =
               Some (mkDataFrame (Some "Step number") [VNum 0; VNum 1]
                       [("Accuracy", [VStr "     nan"; VStr "  0.5"])]))
    by (vm_compute; reflexivity).
  assert (Hs : loaded_table as_study_fs =
               Some (mkDataFrame (Some "Step number") [VNum 0; VNum 1]
                       [("Accuracy", [VNaN; VNum (1 # 2)])]))
    by (vm_compute; reflexivity).
  split; [exact He|]. split; [exact Hs|]. rewrite He, Hs. discriminate.
Qed.

Lemma eval_log_reading_witness :
  ∃ o w',
    Session_init (fun _ => None) appearance_order eval_fs (PathObj ["run"]) empty_world = (o, w') ∧
    ∃ r, frames w' !! r =
           Some (mkDataFrame (Some "Step number") [VNum 0; VNum 1]
                   [("Accuracy", [VStr "     nan"; VStr "  0.5"])]).
Proof.
  destruct (eval_log_reading (fun _ => None) appearance_order eval_fs ["run"] empty_world
              (mkDataFrame (Some "Step number") [VNum 0; VNum 1]
                 [("Accuracy", [VStr "     nan"; VStr "  0.5"])])
              eq_refl eq_refl) as [(o & w' & r & Heq & _ & Hr & _) _].
  exists o, w'. split; [exact Heq|]. exists r. exact Hr.
Defined.

(** ** A result path that is not a directory *)

(** C8 at a path that names a regular file: [path.exists()] holds, nothing is
    raised, and a session without configuration and without table comes out
    after four warnings. *)
Theorem session_on_regular_file (json_load : string -> option (gmap string json_value))
    (key_order : list value -> list value -> list value) :
  Session_init json_load key_order file_fs (PathStr "results.txt") empty_world =
    (Ok (mkSession "results.txt" ["results.txt"] None None None),
     mkWorld []
       [unreadable "configuration" ["results.txt"] (NotADirectory "results.txt/config");
        unreadable "JSON configuration" ["results.txt"] (NotADirectory "results.txt/config.json");
        unreadable "training data" ["results.txt"] (NotADirectory "results.txt/study");
        unreadable "evaluation data" ["results.txt"] (NotADirectory "results.txt/eval")]
       []).
Proof. vm_compute. reflexivity. Qed.

(** Where nothing exists at the path, the user-facing error is raised. *)
Lemma session_on_missing_path (json_load : string -> option (gmap string json_value))
    (key_order : list value -> list value -> list value)
    (fs : filesystem) (s : string) (w : world) :
  fs !! parse_path s = None →
  Session_init json_load key_order fs (PathStr s) w =
    (Raise (UserException (Msg "Result directory %r cannot be accessed or does not exist"
                             [ArgStr (path_str (parse_path s))])), w).
Proof.
  intros H. unfold Session_init, path_exists.
  rewrite bool_decide_eq_false_2; [done|]. rewrite H. by intros [? ?].
Qed.

(** ** Plots *)

(** C1 at the default sizes: [save] asks for a figure of 3 * 2.54 by
    2 * 2.54 inches, which is not 3 cm by 2 cm. *)
Theorem save_multiplies_by_254 :
  mpl (run (LinePlot.save "plot.png" 200 3 2) finalized_lineplot).2 =
    mpl finalized_lineplot.2 ++
    [SetSizeInches 0 (3 * (254 # 100)) (2 * (254 # 100)); SetDpi 0 200; Savefig 0 "plot.png"] ∧
  mpl (run (HistPlot.save "hist.png" 200 3 2) finalized_histplot).2 =
    mpl finalized_histplot.2 ++
    [SetSizeInches 0 (3 * (254 # 100)) (2 * (254 # 100)); SetDpi 0 200; Savefig 0 "hist.png"] ∧
  (3 * (254 # 100) == 762 # 100)%Q ∧
  ¬ (3 * (254 # 100) == 3 / (254 # 100))%Q.
Proof.
  split; [reflexivity|]. split; [reflexivity|]. split; [reflexivity|].
  intros H. vm_compute in H. discriminate.
Qed.


Section Plots.

Lemma legend_entries_ok fig axs w : ∃ es, legend_entries fig axs w = (Ok es, w).
Proof.
  induction axs as [|ax axs [es IH]]; [by eexists|].
  eexists. cbn [legend_entries]. unfold bind. cbn. rewrite IH. reflexivity.
Qed.

Lemma legend_entries_length fig axs w :
  ∃ es, legend_entries fig axs w = (Ok es, w) ∧ length es = length axs.
Proof.
  induction axs as [|ax axs (es & IH & Hlen)]; [by eexists|].
  eexists. cbn [legend_entries]. unfold bind. cbn. rewrite IH. split; [reflexivity|].
  cbn. by rewrite Hlen.
Qed.

(** A [finalize] that returns leaves the plot finalized. *)
Lemma finalize_marks (s : LinePlot.t) (w : world) (once : LinePlot.t * world)
    title xlabel ylabel zlabel xmin xmax ymin ymax zmin zmax legend :
  LinePlot.finalize title xlabel ylabel zlabel xmin xmax ymin ymax zmin zmax legend (s, w) =
    (Ok tt, once) →
  LinePlot._fin once.1 = true.
Proof.
  unfold LinePlot.finalize. unfold bind at 1. cbn [self fst snd].
  destruct (LinePlot._fin s) eqn:Hfin; [by intros [= <-]|].
  unfold bind at 1. unfold lift at 1. cbn [fst snd].
  destruct (legend_entries_ok (LinePlot._ax s) (map snd (LinePlot._axs s)) w) as [es ->].
  destruct (generator_sum (map fst es)) as [handles|]; [|discriminate].
  destruct zlabel as [z|], (LinePlot._tax s) as [tax|]; by intros [= <-].
Qed.



(** C7 on the code: [HistPlot.include] never looks at the finalized flag.
    Whatever the state of the histogram, it bins the samples and returns;
    so it does on a histogram that was just finalized. *)
Theorem hist_include_unguarded (s : HistPlot.t) (w : world) (data : list value) :
  HistPlot.include (ArrayData data) (s, w) =
    (Ok tt, (s, mkWorld (frames w) (warnings w)
                  (mpl w ++ [Hist (HistPlot._ax s) data (HistPlot._bins s)]))) ∧
  HistPlot.include (SeriesData data) (s, w) =
    (Ok tt, (s, mkWorld (frames w) (warnings w)
                  (mpl w ++ [Hist (HistPlot._ax s) data (HistPlot._bins s)]))) ∧
  HistPlot._fin finalized_histplot.1 = true ∧
  HistPlot.include (ArrayData [VNum 1; VNum 2]) finalized_histplot =
    (Ok tt, (finalized_histplot.1,
             mkWorld [] [] (mpl finalized_histplot.2 ++ [Hist 0 [VNum 1; VNum 2] 25]))).
Proof. repeat split. Qed.

End Plots.


(** ** Discarding columns *)

Section Discard.

Variable takes_slice : string -> bool.

Lemma filter_ext_in {A} (P Q : A → Prop) `{!∀ x, Decision (P x), !∀ x, Decision (Q x)}
  (l : list A) :
(∀ x, x ∈ l → (P x ↔ Q x)) → filter P l = filter Q l.
Proof.
induction l as [|a l IH]; intros Hext; [done|].
rewrite !filter_cons.
destruct (decide (P a)) as [Ha|Ha], (decide (Q a)) as [Hb|Hb].
- f_equal. apply IH. intros x Hx. apply Hext. by right.
- exfalso. apply Hb, (Hext a); [by left | done].
- exfalso. apply Ha, (Hext a); [by left | done].
- apply IH. intros x Hx. apply Hext. by right.
Qed.

Lemma filter_all {A} (P : A → Prop) `{!∀ x, Decision (P x)} (l : list A) :
(∀ x, P x) → filter P l = l.
Proof.
intros HP. induction l as [|a l IH]; [done|].
rewrite filter_cons_True by done. by rewrite IH.
Qed.

Lemma filter_all_in {A} (P : A → Prop) `{!∀ x, Decision (P x)} (l : list A) :
(∀ x, x ∈ l → P x) → filter P l = l.
Proof.
induction l as [|a l IH]; intros HP; [done|].
rewrite filter_cons_True by (apply HP; by left).
f_equal. apply IH. intros x Hx. apply HP. by right.
Qed.

Lemma filter_none_in {A} (P : A → Prop) `{!∀ x, Decision (P x)} (l : list A) :
(∀ x, x ∈ l → ¬ P x) → filter P l = [].
Proof.
induction l as [|a l IH]; intros HP; [done|].
rewrite filter_cons_False by (apply HP; by left).
apply IH. intros x Hx. apply HP. by right.
Qed.

Lemma NoDup_labels_filter (P : string * Series → Prop) `{!∀ x, Decision (P x)}
  (cols : list (string * Series)) :
NoDup (map fst cols) → NoDup (map fst (filter P cols)).
Proof.
induction cols as [|[c s] cols IH]; simpl; intros Hnd; [done|].
apply NoDup_cons in Hnd as [Hc Hnd]. rewrite filter_cons.
destruct (decide (P (c, s))); [|by apply IH].
simpl. apply NoDup_cons. split; [|by apply IH].
intros Hin. apply Hc.
apply list_elem_of_In, in_map_iff in Hin as ([c' s'] & Heq & Hin).
simpl in Heq. subst c'. apply list_elem_of_In, list_elem_of_filter in Hin as [_ Hin].
by apply (elem_of_labels _ _ s').
Qed.

Lemma set_frames_id w : set_frames w (frames w) = w.
Proof. by destruct w. Qed.

Lemma delitem_present w r df c :
frames w !! r = Some df → c ∈ labels df →
delitem r c w =
  (Ok tt, set_frames w (<[r := mkDataFrame (index_name df) (index df)
                                 (filter (fun col => col.1 ≠ c) (columns df))]>
                          (frames w))).
Proof.
intros Hr Hc. unfold delitem, bind, deref. rewrite Hr.
unfold str_in. by rewrite bool_decide_eq_true_2.
Qed.

(** The inner loop of [discard] on a table with distinct labels: of the
  labels still to scan, those that match are dropped. *)
Lemma discard_scan_spec r f rest :
∀ w df,
  frames w !! r = Some df → NoDup rest →
  (∀ c, c ∈ rest → contains f (lower c) = true → c ∈ labels df) →
  discard_scan r f rest w =
    (Ok tt,
     set_frames w
       (<[r := mkDataFrame (index_name df) (index df)
                 (filter (fun col => negb (str_in col.1 rest && contains f (lower col.1)))
                    (columns df))]> (frames w))).
Proof.
induction rest as [|c rest IH]; intros w df Hr Hnd Hin.
- cbn. rewrite list_insert_id; [by rewrite set_frames_id|].
  rewrite Hr. f_equal. destruct df as [n i cols]. cbn [index_name index columns].
  f_equal. symmetry. apply filter_all. intros [c s].
  rewrite not_str_in by apply not_elem_of_nil. done.
- apply NoDup_cons in Hnd as [Hc Hnd].
  unfold discard_scan. cbn [for_each]. fold (discard_scan r f rest).
  destruct (contains f (lower c)) eqn:Hm.
  + erewrite bind_Ok by (apply (delitem_present w r df c Hr); apply Hin; [by left | done]).
    rewrite (IH _ (mkDataFrame (index_name df) (index df)
                     (filter (fun col => col.1 ≠ c) (columns df)))).
    * unfold set_frames. cbn [frames warnings mpl index_name index columns].
      rewrite list_insert_insert_eq. do 4 f_equal.
      rewrite list_filter_filter. apply list_filter_iff. intros [c' s']. simpl.
      unfold str_in. destruct (decide (c' = c)) as [->|Hne].
      -- rewrite (bool_decide_eq_true_2 (c ∈ c :: rest)) by (by left). rewrite Hm.
         split; [by intros [? ?] | done].
      -- destruct (decide (c' ∈ rest)) as [Hr'|Hr'].
         ++ rewrite !bool_decide_eq_true_2 by (done || by right). tauto.
         ++ rewrite !bool_decide_eq_false_2; [tauto| |done].
            intros [?|?]%elem_of_cons; congruence.
    * cbn [frames set_frames]. apply list_lookup_insert_eq. by apply lookup_lt_Some in Hr.
    * done.
    * intros c' Hc' Hm'. unfold labels. cbn [columns].
      assert (Hl : c' ∈ labels df) by (apply Hin; [by right | done]).
      apply list_elem_of_In, in_map_iff in Hl as ([c'' s] & Heq & Hl). simpl in Heq. subst c''.
      apply (elem_of_labels _ _ s), list_elem_of_filter. split; [|by apply list_elem_of_In].
      simpl. intros ->. done.
  + unfold bind at 1. cbn [ret].
    rewrite (IH w df Hr Hnd) by (intros c' Hc'; apply Hin; by right).
    do 4 f_equal. apply list_filter_iff. intros [c' s']. simpl.
    unfold str_in. destruct (decide (c' = c)) as [->|Hne].
    * rewrite (bool_decide_eq_true_2 (c ∈ c :: rest)) by (by left).
      rewrite Hm, andb_false_r. simpl. done.
    * destruct (decide (c' ∈ rest)) as [Hr'|Hr'].
      -- rewrite !bool_decide_eq_true_2 by (done || by right). tauto.
      -- rewrite !bool_decide_eq_false_2; [tauto| |done].
         intros [?|?]%elem_of_cons; congruence.
Qed.

Lemma unmatched_cons f F c :
unmatched (f :: F) c = negb (matches f c) && unmatched F c.
Proof. done. Qed.

(** The outer loop of [discard]. *)
Lemma discard_loop_spec r F :
∀ w df,
  frames w !! r = Some df → NoDup (labels df) →
  for_each F (fun only_column =>
      let only_column := lower only_column in
      let* df := deref r in
      discard_scan r only_column (labels df)) w =
    (Ok tt, set_frames w (<[r := without F df]> (frames w))).
Proof.
induction F as [|f F IH]; intros w df Hr Hnd.
- cbn. rewrite list_insert_id; [by rewrite set_frames_id|].
  rewrite Hr. f_equal. destruct df as [n i cols]. unfold without.
  cbn [index_name index columns]. f_equal. symmetry. by apply filter_all.
- cbn [for_each]. unfold bind at 1. unfold bind at 1. unfold deref at 1. rewrite Hr.
  rewrite (discard_scan_spec r (lower f) (labels df) w df Hr Hnd) by (by intros).
  rewrite (IH _ (mkDataFrame (index_name df) (index df)
                   (filter (fun col => negb (str_in col.1 (labels df)
                                             && contains (lower f) (lower col.1)))
                      (columns df)))).
  + unfold set_frames, without. cbn [frames warnings mpl index_name index columns].
    rewrite list_insert_insert_eq. do 4 f_equal.
    rewrite list_filter_filter. apply filter_ext_in. intros [c s] Hcol.
    cbn [fst]. rewrite unmatched_cons. unfold matches.
    unfold str_in. rewrite bool_decide_eq_true_2 by (by apply (elem_of_labels _ _ s)).
    destruct (contains (lower f) (lower c)), (unmatched F c); simpl; tauto.
  + cbn [frames set_frames]. apply list_lookup_insert_eq. by apply lookup_lt_Some in Hr.
  + unfold labels. cbn [columns]. by apply NoDup_labels_filter.
Qed.

Lemma elem_of_without F df col :
col ∈ columns (without F df) ↔
col ∈ columns df ∧ ∀ f, f ∈ F → contains (lower f) (lower col.1) = false.
Proof.
unfold without. cbn [columns]. rewrite list_elem_of_filter.
unfold unmatched. rewrite Is_true_true, forallb_forall. split.
- intros [H Hcol]. split; [done|]. intros f Hf.
  specialize (H f (proj1 (list_elem_of_In _ _) Hf)). by apply negb_true_iff in H.
- intros [Hcol H]. split; [|done]. intros f Hf.
  apply negb_true_iff, H. by apply list_elem_of_In.
Qed.

Lemma discard_frame w r T F :
frames w !! r = Some T → NoDup (labels T) → F ≠ [] →
discard takes_slice (PyFrame r) F w =
  (Ok (PyFrame (length (frames w))), set_frames w (frames w ++ [without F T])).
Proof.
intros Hr Hnd HF. unfold discard. destruct F as [|f F]; [done|].
cbn [length Nat.eqb]. unfold bind at 1. unfold deref at 1. rewrite Hr.
unfold bind at 1. cbn [alloc].
erewrite bind_Ok.
2:{ apply (discard_loop_spec _ (f :: F) _ T); [|done].
    cbn [frames]. rewrite lookup_app_r by lia. by rewrite Nat.sub_diag. }
cbn. unfold set_frames. cbn [frames warnings mpl]. do 2 f_equal.
rewrite insert_app_r_alt by lia. by rewrite Nat.sub_diag.
Qed.

(** X1.  [discard] without fragments gives back its argument itself, whatever
  it is.  With fragments, on a table with distinct column names, it gives a
  new table and leaves the given one as it was: the new table has the same
  index and, in their order, exactly the columns whose lower-cased name
  contains no lower-cased fragment. *)
Theorem discard_copy (w : world) (r : ref) (T : DataFrame) (F : list string) :
frames w !! r = Some T → NoDup (labels T) →
(∀ data, discard takes_slice data [] w = (Ok data, w)) ∧
(F ≠ [] →
   discard takes_slice (PyFrame r) F w =
     (Ok (PyFrame (length (frames w))), set_frames w (frames w ++ [without F T])) ∧
   (frames w ++ [without F T]) !! r = Some T ∧
   index (without F T) = index T ∧
   sublist (columns (without F T)) (columns T) ∧
   (∀ col, col ∈ columns (without F T) ↔
           col ∈ columns T ∧ ∀ f, f ∈ F → contains (lower f) (lower col.1) = false)).
Proof.
intros Hr Hnd. split; [done|]. intros HF.
split; [by apply discard_frame|]. split.
{ rewrite lookup_app_l by (by apply lookup_lt_Some in Hr). done. }
split; [done|]. split; [apply sublist_filter|]. apply elem_of_without.
Qed.

(** X2.  On a table with distinct column names, [select] and [discard] with
  the same fragments split the columns between them: a column name of the
  table is in the result of exactly one of the two. *)
Theorem select_discard_split (w : world) (r : ref) (T : DataFrame) (F : list string) :
frames w !! r = Some T → NoDup (labels T) → F ≠ [] →
∃ S D w1 w2,
  select (PyFrame r) F w = (Ok (PyFrame (length (frames w))), w1) ∧
  frames w1 !! length (frames w) = Some S ∧
  discard takes_slice (PyFrame r) F w = (Ok (PyFrame (length (frames w))), w2) ∧
  frames w2 !! length (frames w) = Some D ∧
  ∀ c, (c ∈ labels S ∨ c ∈ labels D ↔ c ∈ labels T) ∧
       ¬ (c ∈ labels S ∧ c ∈ labels D).
Proof.
intros Hr Hnd HF.
exists (getitem_list T (select_columns T F)), (without F T). eexists _, _.
split.
{ unfold select. destruct F as [|f F]; [done|]. cbn [length Nat.eqb].
  unfold bind, deref. rewrite Hr. reflexivity. }
split.
{ cbn [frames]. rewrite lookup_app_r by lia. by rewrite Nat.sub_diag. }
split; [by apply discard_frame|]. split.
{ cbn [frames set_frames]. rewrite lookup_app_r by lia. by rewrite Nat.sub_diag. }
intros c.
assert (HS : c ∈ labels (getitem_list T (select_columns T F)) ↔
             c ∈ labels T ∧ ∃ f, f ∈ F ∧ matches f c = true).
{ rewrite labels_getitem_list; [apply elem_of_select_columns | done |].
  intros c' Hc'. by apply elem_of_select_columns in Hc' as [? _]. }
assert (HD : c ∈ labels (without F T) ↔
             c ∈ labels T ∧ ∀ f, f ∈ F → matches f c = false).
{ unfold labels at 1. rewrite list_elem_of_In, in_map_iff. split.
  - intros ([c' s] & Heq & Hin). simpl in Heq. subst c'.
    apply list_elem_of_In, elem_of_without in Hin as [Hin Hno].
    split; [by apply (elem_of_labels _ _ s) | exact Hno].
  - intros [Hin Hno]. apply list_elem_of_In, in_map_iff in Hin as ([c' s] & Heq & Hin).
    simpl in Heq. subst c'. exists (c, s). split; [done|].
    apply list_elem_of_In, elem_of_without. split; [by apply list_elem_of_In | exact Hno]. }
rewrite HS, HD. split; [split|].
- intros [[? _]|[? _]]; done.
- intros Hc. destruct (unmatched F c) eqn:Hu.
  + right. split; [done|]. intros f Hf. unfold unmatched in Hu.
    rewrite forallb_forall in Hu. apply negb_true_iff, Hu. by apply list_elem_of_In.
  + left. split; [done|]. unfold unmatched in Hu.
    apply not_true_iff_false in Hu. rewrite forallb_forall in Hu.
    destruct (existsb (fun f => matches f c) F) eqn:He.
    * apply existsb_exists in He as (f & Hf & Hm). exists f.
      split; [by apply list_elem_of_In | done].
    * exfalso. apply Hu. intros f Hf. apply negb_true_iff.
      destruct (matches f c) eqn:Hm; [|done].
      assert (existsb (fun f => matches f c) F = true) as Hx
        by (apply existsb_exists; eauto).
      congruence.
- intros [[_ (f & Hf & Hm)] [_ Hno]]. rewrite (Hno f Hf) in Hm. done.
Qed.

(** X3.  [select] takes a session for its table, [discard] does not: with
  fragments, [discard] on a session raises a [TypeError] at [data[:]] and
  changes nothing, where [select] answers as on the table of the session;
  without fragments [discard] hands the session back and [select] its
  table. *)
Theorem discard_session (w : world) (s : Session) (F : list string) :
discard takes_slice (PySession s) [] w = (Ok (PySession s), w) ∧
select (PySession s) [] w = (Ok (of_frame (data s)), w) ∧
(F ≠ [] →
   discard takes_slice (PySession s) F w = (Raise (not_subscriptable "Session"), w) ∧
   select (PySession s) F w = select (of_frame (data s)) F w).
Proof.
split; [done|]. split.
{ unfold select, session_data. by destruct (data s). }
intros HF. destruct F as [|f F]; [done|]. split; [done|].
unfold select, session_data. by destruct (data s).
Qed.

End Discard.

Lemma discard_copy_witness :
  discard (fun _ => true) (PyFrame 0%nat) ["ERR"; "acc"] select_world =
    (Ok (PyFrame 1%nat),
     mkWorld (frames select_world ++
              [mkDataFrame (Some "Step number") [VNum 0; VNum 1]
                 [("Average loss", [VNum 2; VNum 1])]]) [] []).
Proof.
  assert (Hnd : NoDup ["Average loss"; "Accuracy"; "Loss err"]) by by_decide.
  destruct (discard_copy (fun _ => true) select_world 0%nat
              (mkDataFrame (Some "Step number") [VNum 0; VNum 1]
                 [("Average loss", [VNum 2; VNum 1]);
                  ("Accuracy", [VNum (1 # 2); VNum (3 # 4)]);
                  ("Loss err", [VNum (1 # 10); VNum (1 # 10)])])
              ["ERR"; "acc"] eq_refl Hnd) as [_ H].
  destruct (H ltac:(discriminate)) as [Heq _]. exact Heq.
Defined.

Lemma select_discard_split_witness :
  ∃ S D w1 w2,
    select (PyFrame 0%nat) ["err"] select_world = (Ok (PyFrame 1%nat), w1) ∧
    frames w1 !! 1%nat = Some S ∧
    discard (fun _ => true) (PyFrame 0%nat) ["err"] select_world = (Ok (PyFrame 1%nat), w2) ∧
    frames w2 !! 1%nat = Some D ∧
    ∀ c, (c ∈ labels S ∨ c ∈ labels D ↔
          c ∈ ["Average loss"; "Accuracy"; "Loss err"]) ∧
         ¬ (c ∈ labels S ∧ c ∈ labels D).
Proof.
  assert (Hnd : NoDup ["Average loss"; "Accuracy"; "Loss err"]) by by_decide.
  exact (select_discard_split (fun _ => true) select_world 0%nat
           (mkDataFrame (Some "Step number") [VNum 0; VNum 1]
              [("Average loss", [VNum 2; VNum 1]);
               ("Accuracy", [VNum (1 # 2); VNum (3 # 4)]);
               ("Loss err", [VNum (1 # 10); VNum (1 # 10)])])
           ["err"] eq_refl Hnd ltac:(discriminate)).
Defined.

Lemma discard_session_witness :
  discard (fun _ => true) (PySession epoch_session) ["epoch"] epoch_world =
    (Raise (not_subscriptable "Session"), epoch_world).
Proof.
  destruct (discard_session (fun _ => true) epoch_world epoch_session ["epoch"]) as (_ & _ & H).
  exact (proj1 (H ltac:(discriminate))).
Defined.

(** ** More on selection *)

Section SelectMore.

Lemma select_loop_lower F F' cols acc :
map lower F = map lower F' → select_loop F cols acc = select_loop F' cols acc.
Proof.
revert F' acc. induction F as [|f F IH]; intros [|f' F'] acc Heq; simplify_eq/=; [done|].
rewrite H. by apply IH.
Qed.

(** X4.  Only the lower-cased fragments count: two lists of fragments that
  agree up to letter case make [select] do the same thing, on any
  argument. *)
Theorem select_case_insensitive (w : world) (data : pyval) (F F' : list string) :
map lower F = map lower F' → select data F w = select data F' w.
Proof.
intros Heq. unfold select.
assert (length F = length F') as ->
  by (rewrite <- (length_map lower F), Heq; apply length_map).
destruct (length F' =? 0)%nat; [done|].
destruct data as [|r|s|ty]; try done.
- unfold bind, deref. destruct (frames w !! r); [|done].
  unfold select_columns. by rewrite (select_loop_lower F F').
- unfold session_data. destruct (data s) as [r|]; [|done]. cbn [of_frame].
  unfold bind, deref. destruct (frames w !! r); [|done].
  unfold select_columns. by rewrite (select_loop_lower F F').
Qed.

Lemma select_case_insensitive_witness :
select (PyFrame 0%nat) ["LOSS"; "Acc"] select_world =
select (PyFrame 0%nat) ["loss"; "ACC"] select_world.
Proof.
exact (select_case_insensitive select_world (PyFrame 0%nat)
         ["LOSS"; "Acc"] ["loss"; "ACC"] eq_refl).
Defined.

(** X5.  Adding fragments only appends: the columns chosen for [F1 ++ F2] are
  those chosen for [F1], in the same order, followed by those chosen for
  [F2] that were not chosen already. *)
Theorem select_columns_app (df : DataFrame) (F1 F2 : list string) :
select_columns df (F1 ++ F2) =
  select_columns df F1 ++
  filter (fun c => c ∉ select_columns df F1) (select_columns df F2).
Proof.
unfold select_columns at 1. rewrite select_loop_foldl, flat_map_app, foldl_app.
rewrite <- (select_loop_foldl F1 (labels df) []). fold (select_columns df F1).
rewrite foldl_add_once. by rewrite (select_columns_first_seen df F2).
Qed.

Lemma first_occurrences_NoDup (l : list string) : NoDup l → first_occurrences l = l.
Proof.
induction l as [|x l IH]; intros Hnd; [done|].
apply NoDup_cons in Hnd as [Hx Hnd]. simpl. f_equal. rewrite IH by done.
apply filter_all_in. intros y Hy ->. done.
Qed.

Lemma contains_empty s : contains EmptyString s = true.
Proof. by destruct s. Qed.

Lemma filter_label_one (cols : list (string * Series)) c s :
NoDup (map fst cols) → (c, s) ∈ cols → filter (fun col => col.1 = c) cols = [(c, s)].
Proof.
induction cols as [|[c' s'] cols IH]; simpl; intros Hnd Hin.
- by apply elem_of_nil in Hin.
- apply NoDup_cons in Hnd as [Hc' Hnd]. rewrite filter_cons. simpl.
  apply elem_of_cons in Hin as [Heq|Hin].
  + inversion Heq; subst. rewrite decide_True by done. f_equal.
    apply filter_none_in. intros [c'' s''] Hin' Heq'. simpl in Heq'. subst c''.
    by apply elem_of_labels in Hin'.
  + rewrite decide_False; [by apply IH|].
    intros ->. by apply elem_of_labels in Hin.
Qed.

Lemma getitem_list_all df :
NoDup (labels df) → getitem_list df (labels df) = df.
Proof.
intros Hnd. destruct df as [n i cols]. unfold getitem_list, labels in *.
cbn [index_name index columns] in *. f_equal.
assert (Hgen : ∀ sub, (∀ col, col ∈ sub → col ∈ cols) →
          flat_map (fun c => filter (fun col : string * Series => col.1 = c) cols)
            (map fst sub) = sub).
{ induction sub as [|[c s] sub IH]; intros Hsub; [done|].
  simpl. rewrite (filter_label_one cols c s Hnd) by (apply Hsub; by left).
  simpl. f_equal. apply IH. intros col Hcol. apply Hsub. by right. }
by apply Hgen.
Qed.

(** X6.  The empty fragment is contained in every name: on a table with
  distinct column names, [select] with the empty fragment alone gives a new
  table equal to the whole given one. *)
Theorem select_empty_fragment (w : world) (r : ref) (T : DataFrame) :
frames w !! r = Some T → NoDup (labels T) →
select (PyFrame r) [EmptyString] w =
  (Ok (PyFrame (length (frames w))), set_frames w (frames w ++ [T])).
Proof.
intros Hr Hnd. unfold select. cbn [length Nat.eqb]. unfold bind, deref. rewrite Hr.
cbn [alloc ret]. unfold set_frames. do 4 f_equal.
assert (select_columns T [EmptyString] = labels T) as ->; [|by apply getitem_list_all].
rewrite select_columns_first_seen. unfold first_seen. simpl. rewrite app_nil_r.
rewrite filter_all by (intros c; unfold matches; by rewrite contains_empty).
by apply first_occurrences_NoDup.
Qed.

Lemma select_empty_fragment_witness :
select (PyFrame 0%nat) [EmptyString] select_world =
  (Ok (PyFrame 1%nat), set_frames select_world (frames select_world ++ frames select_world)).
Proof.
assert (Hnd : NoDup ["Average loss"; "Accuracy"; "Loss err"]) by by_decide.
exact (select_empty_fragment select_world 0%nat
         (mkDataFrame (Some "Step number") [VNum 0; VNum 1]
            [("Average loss", [VNum 2; VNum 1]);
             ("Accuracy", [VNum (1 # 2); VNum (3 # 4)]);
             ("Loss err", [VNum (1 # 10); VNum (1 # 10)])]) eq_refl Hnd).
Defined.

(** X7.  Fragments that match no column are no error: [select] then gives a
  new table with the index of the given one and no column at all. *)
Theorem select_no_match (w : world) (r : ref) (T : DataFrame) (F : list string) :
frames w !! r = Some T → F ≠ [] →
(∀ f c, f ∈ F → c ∈ labels T → contains (lower f) (lower c) = false) →
select (PyFrame r) F w =
  (Ok (PyFrame (length (frames w))),
   set_frames w (frames w ++ [mkDataFrame (index_name T) (index T) []])).
Proof.
intros Hr HF Hno. unfold select. destruct F as [|f F]; [done|].
cbn [length Nat.eqb]. unfold bind, deref. rewrite Hr. cbn [alloc ret].
assert (select_columns T (f :: F) = []) as ->; [|done].
destruct (select_columns T (f :: F)) as [|c cs] eqn:E; [done|].
assert (Hc : c ∈ select_columns T (f :: F)) by (rewrite E; by left).
apply elem_of_select_columns in Hc as [Hc (f' & Hf' & Hm)].
unfold matches in Hm. by rewrite (Hno f' c Hf' Hc) in Hm.
Qed.

Lemma select_no_match_witness :
select (PyFrame 0%nat) ["gradient"] select_world =
  (Ok (PyFrame 1%nat),
   set_frames select_world
     (frames select_world ++ [mkDataFrame (Some "Step number") [VNum 0; VNum 1] []])).
Proof.
refine (select_no_match select_world 0%nat
          (mkDataFrame (Some "Step number") [VNum 0; VNum 1]
             [("Average loss", [VNum 2; VNum 1]);
              ("Accuracy", [VNum (1 # 2); VNum (3 # 4)]);
              ("Loss err", [VNum (1 # 10); VNum (1 # 10)])])
          ["gradient"] eq_refl ltac:(discriminate) _).
intros f c Hf Hc. each_elem Hf. each_elem Hc.
Defined.

(** X8.  [Session.get] on a session that has no table: without fragments it
  returns [None]; with fragments it raises an [AttributeError] for the
  columns of [None].  Nothing is changed either way. *)
Theorem get_without_table (w : world) (s : Session) (F : list string) :
data s = None →
get s [] w = (Ok PyNone, w) ∧
(F ≠ [] → get s F w = (Raise (no_attribute "NoneType" "columns"), w)).
Proof.
intros Hdata. unfold get. rewrite Hdata. split; [done|].
intros HF. by destruct F.
Qed.

Lemma get_without_table_witness :
get (mkSession "run" ["run"] None None None) ["loss"] empty_world =
  (Raise (no_attribute "NoneType" "columns"), empty_world).
Proof.
destruct (get_without_table empty_world (mkSession "run" ["run"] None None None)
            ["loss"] eq_refl) as [_ H].
exact (H ltac:(discriminate)).
Defined.

End SelectMore.

(** ** More on the derived columns *)

Section DerivedMore.

Local Open Scope Q_scope.

Lemma compute_all_unfold s w :
compute_all s w =
  match compute_epoch s w with
  | (Ok _, w1) =>
      match compute_lr s w1 with
      | (Ok _, w2) => (Ok s, w2)
      | (Raise e, w2) => (Raise e, w2)
      end
  | (Raise e, w1) => (Raise e, w1)
  end.
Proof.
unfold compute_all, Session_dict. cbn [for_each]. unfold bind, ret.
cbn -[compute_epoch compute_lr].
destruct (compute_epoch s w) as [[a|e] w1]; [|done].
by destruct (compute_lr s w1) as [[b|e] w2].
Qed.

(** X9.  [compute_all] runs [compute_epoch], then [compute_lr] on what the
  first left, and nothing else; it returns the session itself.  An
  exception of the first keeps the second from running, and an exception of
  either comes out of [compute_all] with the world as it then is. *)
Theorem compute_all_order (s : Session) (w : world) :
compute_all s w =
  match compute_epoch s w with
  | (Ok _, w1) =>
      match compute_lr s w1 with
      | (Ok _, w2) => (Ok s, w2)
      | (Raise e, w2) => (Raise e, w2)
      end
  | (Raise e, w1) => (Raise e, w1)
  end.
Proof. apply compute_all_unfold. Qed.

Lemma compute_epoch_unconfigured w s r df :
data s = Some r → frames w !! r = Some df → "Epoch number" ∉ labels df →
(json s = None ∨ ∃ cfg, json s = Some cfg ∧ cfg !! "dataset" = None) →
compute_epoch s w = (Ok s, add_warning w no_epoch_warning).
Proof.
intros Hdata Hr Hcol Hcfg. unfold compute_epoch. rewrite Hdata.
unfold bind at 1. unfold deref. rewrite Hr. rewrite not_str_in by done.
destruct Hcfg as [->|(cfg & -> & ->)]; done.
Qed.

Lemma compute_lr_unconfigured w s r df :
data s = Some r → frames w !! r = Some df → "Learning rate" ∉ labels df →
(json s = None ∨ ∃ cfg, json s = Some cfg ∧ cfg !! "learning_rate" = None) →
compute_lr s w = (Ok s, add_warning w no_lr_warning).
Proof.
intros Hdata Hr Hcol Hcfg. unfold compute_lr. rewrite Hdata.
unfold bind at 1. unfold deref. rewrite Hr. rewrite not_str_in by done.
destruct Hcfg as [->|(cfg & -> & ->)]; done.
Qed.

Lemma compute_epoch_present w s r df :
data s = Some r → frames w !! r = Some df → "Epoch number" ∈ labels df →
compute_epoch s w = (Ok s, w).
Proof.
intros Hdata Hr Hcol. unfold compute_epoch. rewrite Hdata. unfold bind, deref. rewrite Hr.
unfold str_in. by rewrite bool_decide_eq_true_2.
Qed.

Lemma compute_lr_present w s r df :
data s = Some r → frames w !! r = Some df → "Learning rate" ∈ labels df →
compute_lr s w = (Ok s, w).
Proof.
intros Hdata Hr Hcol. unfold compute_lr. rewrite Hdata. unfold bind, deref. rewrite Hr.
unfold str_in. by rewrite bool_decide_eq_true_2.
Qed.

Lemma compute_lr_constant w s r df cfg lr decay :
data s = Some r → frames w !! r = Some df → "Learning rate" ∉ labels df →
json s = Some cfg → cfg !! "learning_rate" = Some lr →
json_number (default (JNum 0) (cfg !! "learning_rate_decay")) = Some decay →
decay <= 0 →
compute_lr s w =
  (Ok s, set_frames w (<[r := with_column df "Learning rate"
                                (replicate (length (index df)) (json_cell lr))]>
                         (frames w))).
Proof.
intros Hdata Hr Hcol Hjson Hlr Hdecay Hle.
unfold compute_lr. rewrite Hdata. unfold bind at 1. unfold deref. rewrite Hr.
rewrite not_str_in by done. rewrite Hjson, Hlr, Hdecay.
assert (Qle_bool decay 0 = true) as -> by (by apply Qle_bool_iff).
cbn [negb]. unfold bind. by rewrite (setitem_new w r df).
Qed.

(** X10.  On a session with a table but no JSON configuration, and neither
  derived column yet, [compute_all] returns the session after two warnings,
  that of the epoch first, and leaves every table as it is. *)
Theorem compute_all_unconfigured (w : world) (s : Session) (r : ref) (df : DataFrame) :
data s = Some r → frames w !! r = Some df → json s = None →
"Epoch number" ∉ labels df → "Learning rate" ∉ labels df →
compute_all s w =
  (Ok s, mkWorld (frames w) (warnings w ++ [no_epoch_warning; no_lr_warning]) (mpl w)).
Proof.
intros Hdata Hr Hjson He Hl. rewrite compute_all_unfold.
rewrite (compute_epoch_unconfigured w s r df) by auto.
rewrite (compute_lr_unconfigured _ s r df) by auto.
unfold add_warning. cbn [frames warnings mpl]. by rewrite <- app_assoc.
Qed.

Lemma compute_all_unconfigured_witness :
compute_all (mkSession "run" ["run"] None None (Some 0%nat)) lr_world =
  (Ok (mkSession "run" ["run"] None None (Some 0%nat)),
   mkWorld [lr_frame] [no_epoch_warning; no_lr_warning] []).
Proof.
assert (He : "Epoch number" ∉ labels lr_frame) by by_decide.
assert (Hl : "Learning rate" ∉ labels lr_frame) by by_decide.
exact (compute_all_unconfigured lr_world (mkSession "run" ["run"] None None (Some 0%nat))
         0%nat lr_frame eq_refl eq_refl eq_refl He Hl).
Defined.

(** X11.  A computation that cannot be done does not stop the next one: with
  a configuration that has a "learning_rate" and no decay but no "dataset",
  [compute_all] warns about the epoch and still appends the constant
  "Learning rate" column. *)
Theorem compute_all_goes_on (w : world) (s : Session) (r : ref) (df : DataFrame)
  (cfg : gmap string json_value) (lr : json_value) :
data s = Some r → frames w !! r = Some df → json s = Some cfg →
"Epoch number" ∉ labels df → "Learning rate" ∉ labels df →
cfg !! "dataset" = None → cfg !! "learning_rate" = Some lr →
cfg !! "learning_rate_decay" = None →
compute_all s w =
  (Ok s, mkWorld (<[r := with_column df "Learning rate"
                            (replicate (length (index df)) (json_cell lr))]> (frames w))
           (warnings w ++ [no_epoch_warning]) (mpl w)).
Proof.
intros Hdata Hr Hjson He Hl Hds Hlr Hdecay. rewrite compute_all_unfold.
rewrite (compute_epoch_unconfigured w s r df) by eauto.
rewrite (compute_lr_constant _ s r df cfg lr 0); try done.
- by rewrite Hdecay.
Qed.

Lemma compute_all_goes_on_witness :
compute_all (lr_session {["learning_rate" := JNum (1 # 10)]}) lr_world =
  (Ok (lr_session {["learning_rate" := JNum (1 # 10)]}),
   mkWorld [with_column lr_frame "Learning rate"
              [VNum (1 # 10); VNum (1 # 10); VNum (1 # 10)]]
     [no_epoch_warning] []).
Proof.
assert (He : "Epoch number" ∉ labels lr_frame) by by_decide.
assert (Hl : "Learning rate" ∉ labels lr_frame) by by_decide.
exact (compute_all_goes_on lr_world (lr_session {["learning_rate" := JNum (1 # 10)]})
         0%nat lr_frame {["learning_rate" := JNum (1 # 10)]} (JNum (1 # 10))
         eq_refl eq_refl eq_refl He Hl eq_refl eq_refl eq_refl).
Defined.

(** X12.  For a known dataset, a table without a "Training point count"
  column makes [compute_epoch] raise a [KeyError]; [compute_all] then
  raises it too, and the learning rate is not computed: no table and no
  warning changes. *)
Theorem compute_epoch_without_count (w : world) (s : Session) (r : ref) (df : DataFrame)
  (cfg : gmap string json_value) (name : string) (size : Z) :
data s = Some r → frames w !! r = Some df → json s = Some cfg →
"Epoch number" ∉ labels df → "Training point count" ∉ labels df →
cfg !! "dataset" = Some (JStr name) → (name, size) ∈ known_datasets →
compute_epoch s w = (Raise (KeyError (Msg "%r" [ArgStr "Training point count"])), w) ∧
compute_all s w = (Raise (KeyError (Msg "%r" [ArgStr "Training point count"])), w).
Proof.
intros Hdata Hr Hjson He Hc Hds Hknown.
assert (Heq : compute_epoch s w =
              (Raise (KeyError (Msg "%r" [ArgStr "Training point count"])), w)).
{ apply known_dataset_size in Hknown as [Hsize _].
  unfold compute_epoch. rewrite Hdata. unfold bind at 1. unfold deref. rewrite Hr.
  rewrite not_str_in by done. rewrite Hjson, Hds. cbn [dict_get]. rewrite Hsize.
  unfold bind, getitem. by rewrite find_label_None. }
split; [done|]. rewrite compute_all_unfold. by rewrite Heq.
Qed.

Lemma compute_epoch_without_count_witness :
compute_all (lr_session cifar_config) lr_world =
  (Raise (KeyError (Msg "%r" [ArgStr "Training point count"])), lr_world).
Proof.
assert (He : "Epoch number" ∉ labels lr_frame) by by_decide.
assert (Hc : "Training point count" ∉ labels lr_frame) by by_decide.
assert (Hk : ("cifar10", 50000%Z) ∈ known_datasets) by by_decide.
exact (proj2 (compute_epoch_without_count lr_world (lr_session cifar_config) 0%nat
                lr_frame cifar_config "cifar10" 50000%Z
                eq_refl eq_refl eq_refl He Hc eq_refl Hk)).
Defined.

(** X13.  [compute_lr] changes nothing when the table already has a
  "Learning rate" column; without configuration, or without a
  "learning_rate" in it, it warns once and leaves every table as it is. *)
Theorem compute_lr_skips (w : world) (s : Session) (r : ref) (df : DataFrame) :
data s = Some r → frames w !! r = Some df →
("Learning rate" ∈ labels df → compute_lr s w = (Ok s, w)) ∧
("Learning rate" ∉ labels df →
   (json s = None ∨ ∃ cfg, json s = Some cfg ∧ cfg !! "learning_rate" = None) →
   compute_lr s w = (Ok s, add_warning w no_lr_warning)).
Proof.
intros Hdata Hr. split.
- by apply (compute_lr_present w s r df).
- by apply (compute_lr_unconfigured w s r df).
Qed.

Lemma compute_lr_skips_witness :
compute_lr (lr_session {["dataset" := JStr "mnist"]}) lr_world =
  (Ok (lr_session {["dataset" := JStr "mnist"]}), add_warning lr_world no_lr_warning).
Proof.
assert (Hl : "Learning rate" ∉ labels lr_frame) by by_decide.
destruct (compute_lr_skips lr_world (lr_session {["dataset" := JStr "mnist"]})
            0%nat lr_frame eq_refl eq_refl) as [_ H].
apply (H Hl). right. exists {["dataset" := JStr "mnist"]}. split; reflexivity.
Defined.

(** X14.  A negative decay is not refused: as with a decay of zero, every row
  of the new "Learning rate" column holds the base learning rate, whatever
  the index and the decay delta are. *)
Theorem compute_lr_negative_decay (w : world) (s : Session) (r : ref) (df : DataFrame)
  (cfg : gmap string json_value) (lr : json_value) (decay : Q) :
data s = Some r → frames w !! r = Some df → "Learning rate" ∉ labels df →
json s = Some cfg → cfg !! "learning_rate" = Some lr →
json_number (default (JNum 0) (cfg !! "learning_rate_decay")) = Some decay →
decay < 0 →
compute_lr s w =
  (Ok s, set_frames w (<[r := with_column df "Learning rate"
                                (replicate (length (index df)) (json_cell lr))]>
                         (frames w))).
Proof.
intros Hdata Hr Hcol Hjson Hlr Hdecay Hneg.
apply (compute_lr_constant w s r df cfg lr decay); try done. by apply Qlt_le_weak.
Qed.

Lemma compute_lr_negative_decay_witness :
compute_lr (lr_session negative_config) lr_world =
  (Ok (lr_session negative_config),
   mkWorld [with_column lr_frame "Learning rate"
              [VNum (1 # 10); VNum (1 # 10); VNum (1 # 10)]] [] []).
Proof.
assert (Hl : "Learning rate" ∉ labels lr_frame) by by_decide.
exact (compute_lr_negative_decay lr_world (lr_session negative_config) 0%nat lr_frame
         negative_config (JNum (1 # 10)) (-5)
         eq_refl eq_refl Hl eq_refl eq_refl eq_refl eq_refl).
Defined.

(** X15.  A decay that is not a number (a string, or null) makes
  [compute_lr] raise a [TypeError] at the comparison with zero; no column is
  added and nothing is warned. *)
Theorem compute_lr_decay_type (w : world) (s : Session) (r : ref) (df : DataFrame)
  (cfg : gmap string json_value) (lr decay : json_value) :
data s = Some r → frames w !! r = Some df → "Learning rate" ∉ labels df →
json s = Some cfg → cfg !! "learning_rate" = Some lr →
cfg !! "learning_rate_decay" = Some decay → json_number decay = None →
∃ m, compute_lr s w = (Raise (TypeError m), w).
Proof.
intros Hdata Hr Hcol Hjson Hlr Hdecay Hnum.
unfold compute_lr. rewrite Hdata. unfold bind at 1. unfold deref. rewrite Hr.
rewrite not_str_in by done. rewrite Hjson, Hlr, Hdecay.
change (default (JNum 0) (Some decay)) with decay. rewrite Hnum. by eexists.
Qed.

Lemma compute_lr_decay_type_witness :
∃ m, compute_lr (lr_session text_decay_config) lr_world = (Raise (TypeError m), lr_world).
Proof.
assert (Hl : "Learning rate" ∉ labels lr_frame) by by_decide.
exact (compute_lr_decay_type lr_world (lr_session text_decay_config) 0%nat lr_frame
         text_decay_config (JNum (1 # 10)) (JStr "fast")
         eq_refl eq_refl Hl eq_refl eq_refl eq_refl eq_refl).
Defined.

Lemma str_in_spec c (l : list string) :
(str_in c l = true ∧ c ∈ l) ∨ (str_in c l = false ∧ c ∉ l).
Proof.
unfold str_in. destruct (decide (c ∈ l)).
- left. by rewrite bool_decide_eq_true_2.
- right. by rewrite bool_decide_eq_false_2.
Qed.

Ltac returned := unfold bind, ret, warning; cbn; intros Heq; inversion Heq; subst.

Lemma compute_epoch_ok s w a w1 :
compute_epoch s w = (Ok a, w1) →
∃ r df, data s = Some r ∧ frames w !! r = Some df ∧
        column_step "Epoch number" (epoch_unconfigured s) r df w w1.
Proof.
unfold compute_epoch. destruct (data s) as [r|] eqn:Hdata; [|done].
unfold bind at 1. unfold deref. destruct (frames w !! r) as [df|] eqn:Hr; [|done].
intros H. exists r, df. split; [done|]. split; [done|]. revert H.
unfold column_step, epoch_unconfigured.
destruct (str_in_spec "Epoch number" (labels df)) as [[-> Hin]|[-> Hin]].
{ returned. by left. }
destruct (json s) as [cfg|].
2:{ returned. right. by left. }
destruct (cfg !! "dataset") as [d|].
2:{ returned. right. by left. }
destruct (dict_get training_sizes d) as [size|] eqn:Hd.
2:{ returned. right. by left. }
unfold bind at 1. unfold getitem.
destruct (list_find _ (columns df)) as [[i [c count]]|]; [|done].
unfold ret at 1. unfold bind at 1. unfold series_div.
destruct (mapM _ count) as [epoch|]; [|done].
unfold ret at 1. unfold bind. rewrite (setitem_new w r df) by done.
intros Heq; inversion Heq; subst. right. right. split; [done|]. by eexists.
Qed.

Lemma compute_lr_ok s w a w1 :
compute_lr s w = (Ok a, w1) →
∃ r df, data s = Some r ∧ frames w !! r = Some df ∧
        column_step "Learning rate" (lr_unconfigured s) r df w w1.
Proof.
unfold compute_lr. destruct (data s) as [r|] eqn:Hdata; [|done].
unfold bind at 1. unfold deref. destruct (frames w !! r) as [df|] eqn:Hr; [|done].
intros H. exists r, df. split; [done|]. split; [done|]. revert H.
unfold column_step, lr_unconfigured.
destruct (str_in_spec "Learning rate" (labels df)) as [[-> Hin]|[-> Hin]].
{ returned. by left. }
destruct (json s) as [cfg|].
2:{ returned. right. by left. }
destruct (cfg !! "learning_rate") as [lr|].
2:{ returned. right. by left. }
destruct (json_number (default (JNum 0) (cfg !! "learning_rate_decay"))) as [decay|];
  [|done].
destruct (negb (Qle_bool decay 0)).
- destruct (json_number (default (JNum 1) (cfg !! "learning_rate_decay_delta")))
    as [delta|]; [|done].
  destruct (json_number lr) as [base|]; [|done].
  destruct (mapM _ (index df)) as [col|]; [|done].
  unfold bind. rewrite (setitem_new w r df) by done.
  intros Heq; inversion Heq; subst. right. right. split; [done|]. by eexists.
- unfold bind. rewrite (setitem_new w r df) by done.
  intros Heq; inversion Heq; subst. right. right. split; [done|]. by eexists.
Qed.

Lemma compute_epoch_again s w r df :
data s = Some r → frames w !! r = Some df →
("Epoch number" ∈ labels df ∨ epoch_unconfigured s) →
∃ w1, compute_epoch s w = (Ok s, w1) ∧ frames w1 = frames w.
Proof.
intros Hdata Hr H. unfold compute_epoch. rewrite Hdata. unfold bind at 1.
unfold deref. rewrite Hr.
destruct (str_in_spec "Epoch number" (labels df)) as [[-> Hin]|[-> Hin]]; [by eexists|].
destruct H as [H|H]; [done|]. unfold epoch_unconfigured in H.
destruct (json s) as [cfg|]; [|by eexists].
destruct (cfg !! "dataset") as [d|]; [|by eexists].
rewrite H. by eexists.
Qed.

Lemma compute_lr_again s w r df :
data s = Some r → frames w !! r = Some df →
("Learning rate" ∈ labels df ∨ lr_unconfigured s) →
∃ w1, compute_lr s w = (Ok s, w1) ∧ frames w1 = frames w.
Proof.
intros Hdata Hr H. unfold compute_lr. rewrite Hdata. unfold bind at 1.
unfold deref. rewrite Hr.
destruct (str_in_spec "Learning rate" (labels df)) as [[-> Hin]|[-> Hin]]; [by eexists|].
destruct H as [H|H]; [done|]. unfold lr_unconfigured in H.
destruct (json s) as [cfg|]; [|by eexists].
rewrite H. by eexists.
Qed.

(** After a step the table at [r] has the labels it had, and [c] if the
  step appended it. *)
Lemma column_step_after c U r df w w1 :
frames w !! r = Some df → column_step c U r df w w1 →
∃ df1, frames w1 !! r = Some df1 ∧
       (∀ x, x ∈ labels df → x ∈ labels df1) ∧
       (∀ x, x ∈ labels df1 → x ∈ labels df ∨ x = c) ∧
       (c ∈ labels df1 ∨ (U ∧ df1 = df)).
Proof.
intros Hr [[Hin ->]|[(Hin & HU & Hfr)|(Hin & col & Hfr)]].
- exists df. split; [done|]. split; [done|]. split; [by left|]. by left.
- exists df. rewrite Hfr. split; [done|]. split; [done|]. split; [by left|]. by right.
- exists (with_column df c col). rewrite Hfr.
  split; [apply list_lookup_insert_eq; by apply lookup_lt_Some in Hr|].
  unfold labels, with_column. cbn [columns]. rewrite map_app.
  split; [intros x Hx; apply elem_of_app; by left|].
  split.
  + intros x Hx. apply elem_of_app in Hx as [Hx|Hx]; [by left|].
    right. by apply list_elem_of_singleton in Hx.
  + left. apply elem_of_app. right. by left.
Qed.

(** X16.  Once [compute_all] has returned, calling it again never changes a
  table: whatever column could be computed is there and is not computed
  again, and what could not be computed the first time only makes it warn
  again. *)
Theorem compute_all_settles (s : Session) (w w1 : world) (a : Session) :
compute_all s w = (Ok a, w1) →
∃ w2, compute_all s w1 = (Ok s, w2) ∧ frames w2 = frames w1.
Proof.
rewrite compute_all_unfold.
destruct (compute_epoch s w) as [[a1|e] wa] eqn:He; [|done].
destruct (compute_lr s wa) as [[a2|e] wb] eqn:Hl; [|done].
intros [= _ <-].
destruct (compute_epoch_ok _ _ _ _ He) as (r & df & Hdata & Hr & Hstep1).
destruct (column_step_after _ _ _ _ _ _ Hr Hstep1) as (dfa & Hra & Hsub1 & Hnew1 & Hend1).
destruct (compute_lr_ok _ _ _ _ Hl) as (r' & dfa' & Hdata' & Hra' & Hstep2).
assert (r' = r) as -> by congruence. assert (dfa' = dfa) as -> by congruence.
destruct (column_step_after _ _ _ _ _ _ Hra Hstep2) as (dfb & Hrb & Hsub2 & Hnew2 & Hend2).
destruct (compute_epoch_again s wb r dfb Hdata Hrb) as (wc & Hc & Hfc).
{ destruct Hend1 as [Hin|[HU ->]]; [left; by apply Hsub2 | by right]. }
assert (Hrc : frames wc !! r = Some dfb) by (by rewrite Hfc).
destruct (compute_lr_again s wc r dfb Hdata Hrc) as (wd & Hd & Hfd).
{ destruct Hend2 as [Hin|[HU _]]; [by left | by right]. }
exists wd. rewrite compute_all_unfold, Hc, Hd. split; [done|]. by rewrite Hfd.
Qed.

Lemma compute_all_settles_witness :
∃ w2, compute_all epoch_session
        (mkWorld [with_column epoch_frame "Epoch number" [VNum 1; VNum 2]]
           [no_lr_warning] []) = (Ok epoch_session, w2) ∧
      frames w2 = [with_column epoch_frame "Epoch number" [VNum 1; VNum 2]].
Proof.
exact (compute_all_settles epoch_session epoch_world
         (mkWorld [with_column epoch_frame "Epoch number" [VNum 1; VNum 2]]
            [no_lr_warning] []) epoch_session eq_refl).
Defined.

End DerivedMore.

(** ** More on the plots *)

Section PlotsMore.

(** X17.  Whatever the line number, negative ones included, the line style
  picked for it is one of the four known ones, and the styles come round
  again every four lines. *)
Theorem line_style_cycles (ln : Z) :
(LinePlot._get_line_style ln).1 ∈ LinePlot.linestyles ∧
(LinePlot._get_line_style (ln + 4)).1 = (LinePlot._get_line_style ln).1.
Proof.
unfold LinePlot._get_line_style, LinePlot.linestyles. cbn [fst length].
change (Z.of_nat 4) with 4%Z. split.
- pose proof (Z.mod_pos_bound ln 4 ltac:(lia)) as Hb.
  assert (Hc : (ln mod 4 = 0 ∨ ln mod 4 = 1 ∨ ln mod 4 = 2 ∨ ln mod 4 = 3)%Z) by lia.
  destruct Hc as [-> | [-> | [-> | ->]]]; cbn; repeat ((by left) || right).
- replace (ln + 4)%Z with (ln + 1 * 4)%Z by lia. by rewrite Z_mod_plus_full.
Qed.

(** X18.  Before [finalize], [display] and [save] of a line plot and of a
  histogram raise a [RuntimeError]; nothing is shown or written and the
  plot stays as it is. *)
Theorem render_needs_finalize (s : LinePlot.t) (h : HistPlot.t) (w : world)
  (file : string) (dpi xsize ysize : Q) :
LinePlot._fin s = false → HistPlot._fin h = false →
let e := RuntimeError (Msg "Cannot display a plot that has not been finalized yet" []) in
LinePlot.display (s, w) = (Raise e, (s, w)) ∧
LinePlot.save file dpi xsize ysize (s, w) = (Raise e, (s, w)) ∧
HistPlot.display (h, w) = (Raise e, (h, w)) ∧
HistPlot.save file dpi xsize ysize (h, w) = (Raise e, (h, w)).
Proof.
intros Hs Hh e. repeat split.
- unfold LinePlot.display, bind. cbn. by rewrite Hs.
- unfold LinePlot.save, bind. cbn. by rewrite Hs.
- unfold HistPlot.display, bind. cbn. by rewrite Hh.
- unfold HistPlot.save, bind. cbn. by rewrite Hh.
Qed.

Lemma render_needs_finalize_witness :
LinePlot.save "plot.png" 200 3 2 closed_lineplot =
  (Raise (RuntimeError (Msg "Cannot display a plot that has not been finalized yet" [])),
   closed_lineplot).
Proof.
exact (proj1 (proj2 (render_needs_finalize closed_lineplot.1 (HistPlot.mk 25 false None 0)
                       closed_lineplot.2 "plot.png" 200 3 2 eq_refl eq_refl))).
Defined.

(** X19.  [close] never raises and closes the figure at most once: the first
  call asks matplotlib to close it and forgets it, any later call does
  nothing at all. *)
Theorem close_once (s : LinePlot.t) (h : HistPlot.t) (w : world) :
(∃ s' w', LinePlot.close (s, w) = (Ok tt, (s', w')) ∧
          LinePlot._fig s' = None ∧
          mpl w' = mpl w ++ match LinePlot._fig s with Some fig => [Close fig] | None => [] end ∧
          LinePlot.close (s', w') = (Ok tt, (s', w'))) ∧
(∃ h' w', HistPlot.close (h, w) = (Ok tt, (h', w')) ∧
          HistPlot._fig h' = None ∧
          mpl w' = mpl w ++ match HistPlot._fig h with Some fig => [Close fig] | None => [] end ∧
          HistPlot.close (h', w') = (Ok tt, (h', w'))).
Proof.
split.
- unfold LinePlot.close, bind. cbn. destruct (LinePlot._fig s) as [fig|] eqn:Hfig; cbn.
  + eexists _, _. split; [reflexivity|]. cbn. done.
  + eexists _, _. split; [reflexivity|]. rewrite Hfig, app_nil_r. done.
- unfold HistPlot.close, bind. cbn. destruct (HistPlot._fig h) as [fig|] eqn:Hfig; cbn.
  + eexists _, _. split; [reflexivity|]. cbn. done.
  + eexists _, _. split; [reflexivity|]. rewrite Hfig, app_nil_r. done.
Qed.

(** X20.  After [close], a finalized plot can no longer be rendered:
  [display] and [save] raise an [AttributeError] on the figure that is
  gone, for line plots and histograms alike, and nothing is written. *)
Theorem render_after_close (s : LinePlot.t) (h : HistPlot.t) (w : world)
  (file : string) (dpi xsize ysize : Q) :
LinePlot._fin s = true → HistPlot._fin h = true →
let c := run LinePlot.close (s, w) in
let d := run HistPlot.close (h, w) in
LinePlot.display c = (Raise (no_attribute "NoneType" "show"), c) ∧
LinePlot.save file dpi xsize ysize c =
  (Raise (no_attribute "NoneType" "set_size_inches"), c) ∧
HistPlot.display d = (Raise (no_attribute "NoneType" "show"), d) ∧
HistPlot.save file dpi xsize ysize d =
  (Raise (no_attribute "NoneType" "set_size_inches"), d).
Proof.
intros Hs Hh c d. subst c d. unfold run.
unfold LinePlot.close, HistPlot.close, bind. cbn.
destruct (LinePlot._fig s) as [fig|] eqn:Hfig, (HistPlot._fig h) as [fig'|] eqn:Hfig';
  cbn; repeat split;
  unfold LinePlot.display, LinePlot.save, HistPlot.display, HistPlot.save, bind; cbn;
  rewrite ?Hs, ?Hh; cbn; rewrite ?Hfig, ?Hfig'; reflexivity.
Qed.

Lemma render_after_close_witness :
LinePlot.save "plot.png" 200 3 2 (run LinePlot.close finalized_lineplot) =
  (Raise (no_attribute "NoneType" "set_size_inches"), run LinePlot.close finalized_lineplot).
Proof.
exact (proj1 (proj2 (render_after_close finalized_lineplot.1 finalized_histplot.1
                       finalized_lineplot.2 "plot.png" 200 3 2 eq_refl eq_refl))).
Defined.

Lemma hist_finalize_marks (h : HistPlot.t) (w : world) title xlabel ylabel
  xmin xmax ymin ymax :
HistPlot._fin (run (HistPlot.finalize title xlabel ylabel xmin xmax ymin ymax) (h, w)).1
= true.
Proof.
unfold run, HistPlot.finalize, bind. cbn. by destruct (HistPlot._fin h) eqn:E.
Qed.

(** X21.  [finalize] is done once: after a [finalize] that returned, a second
  one returns at once, drawing nothing, warning of nothing and changing
  nothing, whatever its titles and limits are. *)
Theorem finalize_once (s : LinePlot.t) (h : HistPlot.t) (w : world)
  (once : LinePlot.t * world) (honce : HistPlot.t * world)
  (t x y ht hx hy t' x' y' : string) (z z' : option string)
  (l1 l2 l3 l4 l5 l6 m1 m2 m3 m4 m5 m6 : option Q) (lg lg' : option (list string)) :
LinePlot.finalize t x y z l1 l2 l3 l4 l5 l6 lg (s, w) = (Ok tt, once) →
HistPlot.finalize ht hx hy l1 l2 l3 l4 (h, w) = (Ok tt, honce) →
LinePlot.finalize t' x' y' z' m1 m2 m3 m4 m5 m6 lg' once = (Ok tt, once) ∧
HistPlot.finalize t' x' y' m1 m2 m3 m4 honce = (Ok tt, honce).
Proof.
intros H1 H2. split.
- pose proof (finalize_marks s w once t x y z l1 l2 l3 l4 l5 l6 lg H1) as Hfin.
  destruct once as [s1 w1].
  cbn [fst snd] in Hfin. unfold LinePlot.finalize, bind. cbn. by rewrite Hfin.
- pose proof (hist_finalize_marks h w ht hx hy l1 l2 l3 l4) as Hfin.
  unfold run in Hfin. rewrite H2 in Hfin. destruct honce as [h1 w1].
  cbn [fst snd] in Hfin. unfold HistPlot.finalize, bind. cbn. by rewrite Hfin.
Qed.

Lemma finalize_once_witness :
LinePlot.finalize "Accuracy" "Epoch" "Top-1" (Some "Top-5") None None None None None None None
  finalized_lineplot = (Ok tt, finalized_lineplot) ∧
HistPlot.finalize "Accuracy" "Epoch" "Top-1" None None None None
  (run (HistPlot.finalize "Norms" "Norm" "Count" None None None None)
     (HistPlot.mk 25 false (Some 0%nat) 0%nat, drawn_lineplot.2)) =
  (Ok tt,
   run (HistPlot.finalize "Norms" "Norm" "Count" None None None None)
     (HistPlot.mk 25 false (Some 0%nat) 0%nat, drawn_lineplot.2)).
Proof.
exact (finalize_once drawn_lineplot.1 (HistPlot.mk 25 false (Some 0%nat) 0%nat)
         drawn_lineplot.2 finalized_lineplot
         (run (HistPlot.finalize "Norms" "Norm" "Count" None None None None)
            (HistPlot.mk 25 false (Some 0%nat) 0%nat, drawn_lineplot.2))
         "Loss" "Step" "Loss" "Norms" "Norm" "Count" "Accuracy" "Epoch" "Top-1"
         None (Some "Top-5")
         None None None None None None None None None None None None None None
         eq_refl eq_refl).
Defined.

End PlotsMore.

(** ** The axes of a line plot *)

Section Axes.

Lemma keeps_ret {T A} (I : T → Prop) (a : A) : keeps I (ret a).
Proof. by intros s w HI. Qed.

Lemma keeps_raise {T A} (I : T → Prop) e : keeps I (raise (A := A) e).
Proof. by intros s w HI. Qed.

Lemma keeps_self {T} (I : T → Prop) : keeps I self.
Proof. by intros s w HI. Qed.

Lemma keeps_lift {T A} (I : T → Prop) (m : M A) : keeps I (lift m).
Proof. intros s w HI. unfold lift. cbn. by destruct (m w). Qed.

Lemma keeps_bind {T A B} (I : T → Prop) (m : St (T * world) A) (k : A → St (T * world) B) :
keeps I m → (∀ a, keeps I (k a)) → keeps I (bind m k).
Proof.
intros Hm Hk s w HI. unfold bind. specialize (Hm s w HI).
destruct (m (s, w)) as [[a|e] [s' w']]; cbn in *; [by apply Hk | done].
Qed.

Lemma keeps_for_each {T A} (I : T → Prop) (l : list A) (body : A → St (T * world) unit) :
(∀ x, keeps I (body x)) → keeps I (for_each l body).
Proof.
intros Hb. induction l as [|x l IH]; [apply keeps_ret|].
cbn [for_each]. apply keeps_bind; [apply Hb | intros _; apply IH].
Qed.

Lemma find_key_None (axs : list (string * bool)) name :
list_find (fun e => e.1 = name) axs = None → name ∉ map fst axs.
Proof.
intros Hf Hin. apply list_find_None in Hf. rewrite Forall_forall in Hf.
apply list_elem_of_In, in_map_iff in Hin as ([n ax] & Heq & Hin). simpl in Heq. subst n.
by apply (Hf (name, ax)); [apply list_elem_of_In|].
Qed.

Lemma keeps_get_ax name : keeps axes_ok (LinePlot._get_ax name).
Proof.
intros s w HI. pose proof HI as (Hnd & Hsnd & Hlen & Htax).
unfold LinePlot._get_ax, bind. cbn [self fst snd].
destruct (list_find _ (LinePlot._axs s)) as [[i [n ax]]|] eqn:Hf; [exact HI|].
apply find_key_None in Hf.
destruct (LinePlot._axs s) as [|[n1 a1] [|[n2 a2] rest]] eqn:Haxs; cbn.
- unfold axes_ok. cbn. rewrite ?Haxs. cbn.
  split; [apply NoDup_singleton|]. split; [done|]. split; [lia|].
  split; [|lia]. intros Hx. apply Htax in Hx. cbn in Hx. lia.
- cbn in Hsnd. inversion Hsnd; subst.
  unfold axes_ok. cbn. rewrite ?Haxs. cbn. split; [|split; [done|split; [lia|split; [done|by eexists]]]].
  cbn in Hf. apply not_elem_of_cons in Hf as [Hne _].
  apply NoDup_cons. split; [|apply NoDup_singleton].
  intros H%list_elem_of_singleton. congruence.
- unfold axes_ok. cbn. rewrite Haxs in *. done.
Qed.

Lemma keeps_bump : keeps axes_ok LinePlot.bump.
Proof. by intros s w HI. Qed.

Lemma keeps_frame_and_x data : keeps axes_ok (LinePlot.frame_and_x data).
Proof.
unfold LinePlot.frame_and_x. apply keeps_bind; [apply keeps_self|]. intros s.
apply keeps_bind.
- destruct data; (apply keeps_ret || apply keeps_raise).
- intros o. destruct (LinePlot._idx s), o; try apply keeps_raise.
  + apply keeps_bind; [apply keeps_lift|]. intros df.
    destruct (negb _); [apply keeps_raise|].
    apply keeps_bind; [apply keeps_lift | intros; apply keeps_ret].
  + apply keeps_bind; [apply keeps_lift | intros; apply keeps_ret].
Qed.

Lemma keeps_fill (ax : bool) fig x davg derr color :
keeps axes_ok
  (match array_sub davg derr, array_add davg derr with
   | Some lo, Some hi => lift (call (FillBetween fig ax x lo hi color (2 # 10)))
   | _, _ => raise (TypeError (Msg "unsupported operand type(s) for -" []))
   end).
Proof.
destruct (array_sub davg derr), (array_add davg derr);
  (apply keeps_lift || apply keeps_raise).
Qed.

Lemma keeps_include_column data subd x col scol errs lalp ccnt axis :
keeps axes_ok (LinePlot.include_column data subd x col scol errs lalp ccnt axis).
Proof.
unfold LinePlot.include_column. apply keeps_bind; [apply keeps_self|]. intros s.
destruct (bool_decide _); [apply keeps_ret|].
destruct (match errs with Some e => _ | None => false end); [apply keeps_ret|].
apply keeps_bind.
{ destruct axis; [apply keeps_ret | apply keeps_get_ax]. }
intros ax. apply keeps_bind; [apply keeps_self|]. intros s'.
destruct (LinePlot._get_line_style _) as [linestyle color].
apply keeps_bind; [apply keeps_lift|]. intros davg.
apply keeps_bind.
{ destruct errs as [e|]; [|apply keeps_ret].
  destruct (str_in _ _); [|apply keeps_ret].
  apply keeps_bind; [apply keeps_lift|]. intros derr. apply keeps_fill. }
intros _. apply keeps_bind; [apply keeps_lift|]. intros _.
apply keeps_bind; [apply keeps_bump | intros; apply keeps_ret].
Qed.

Lemma keeps_include_columns data subd x col scols errs lalp ccnt axis :
keeps axes_ok (LinePlot.include_columns data subd x col scols errs lalp ccnt axis).
Proof.
revert axis. induction scols as [|scol scols IH]; intros axis; [apply keeps_ret|].
cbn [LinePlot.include_columns]. apply keeps_bind; [apply keeps_include_column|].
intros axis'. apply IH.
Qed.

Lemma keeps_include data cols errs lalp ccnt :
keeps axes_ok (LinePlot.include data cols errs lalp ccnt).
Proof.
unfold LinePlot.include. apply keeps_bind; [apply keeps_self|]. intros s.
destruct (LinePlot._fin s); [apply keeps_raise|].
apply keeps_bind; [apply keeps_frame_and_x|]. intros [[r df] x].
apply keeps_for_each. intros col.
apply keeps_bind; [apply keeps_lift|]. intros subd.
apply keeps_bind.
{ destruct subd; (apply keeps_lift || apply keeps_raise). }
intros subd'. apply keeps_include_columns.
Qed.

Lemma keeps_include_single data key col err lalp ccnt :
keeps axes_ok (LinePlot.include_single data key col err lalp ccnt).
Proof.
unfold LinePlot.include_single. apply keeps_bind; [apply keeps_self|]. intros s.
destruct (LinePlot._fin s); [apply keeps_raise|].
apply keeps_bind; [apply keeps_frame_and_x|]. intros [[r df] x].
destruct (LinePlot._get_line_style _) as [linestyle color].
apply keeps_bind; [apply keeps_lift|]. intros davg.
apply keeps_bind.
{ destruct err; [|apply keeps_ret].
  apply keeps_bind; [apply keeps_lift | intros; apply keeps_ret]. }
intros derr. apply keeps_bind; [apply keeps_get_ax|]. intros axis.
apply keeps_bind.
{ destruct derr; [apply keeps_fill | apply keeps_ret]. }
intros _. apply keeps_bind; [apply keeps_lift | intros; apply keeps_bump].
Qed.

Lemma keeps_finalize title xlabel ylabel zlabel xmin xmax ymin ymax zmin zmax legend :
keeps axes_ok
  (LinePlot.finalize title xlabel ylabel zlabel xmin xmax ymin ymax zmin zmax legend).
Proof.
intros s w HI. unfold LinePlot.finalize. unfold bind at 1. cbn [self fst snd].
destruct (LinePlot._fin s) eqn:Hfin; [done|].
unfold bind at 1. unfold lift at 1. cbn [fst snd].
destruct (legend_entries_ok (LinePlot._ax s) (map snd (LinePlot._axs s)) w) as [es ->].
unfold axes_ok in HI.
destruct (generator_sum (map fst es)) as [handles|]; [|exact HI].
destruct zlabel as [z|], (LinePlot._tax s) as [tax|]; exact HI.
Qed.

(** X22.  A line plot never has a third y-axis: a new plot has none, and
  every method keeps, whether it returns or raises, that there are at most
  two axes, under distinct selectors, the first being the original axis
  and the second its twin, which exists exactly when there are two. *)
Theorem axes_kept :
(∀ index w, ∃ p w', LinePlot.init index w = (Ok p, w') ∧ axes_ok p) ∧
(∀ data cols errs lalp ccnt, keeps axes_ok (LinePlot.include data cols errs lalp ccnt)) ∧
(∀ data key col err lalp ccnt,
   keeps axes_ok (LinePlot.include_single data key col err lalp ccnt)) ∧
(∀ x color label ls lw, keeps axes_ok (LinePlot.include_vline x color label ls lw)) ∧
(∀ title xlabel ylabel zlabel xmin xmax ymin ymax zmin zmax legend,
   keeps axes_ok
     (LinePlot.finalize title xlabel ylabel zlabel xmin xmax ymin ymax zmin zmax legend)) ∧
keeps axes_ok LinePlot.display ∧
(∀ file dpi xsize ysize, keeps axes_ok (LinePlot.save file dpi xsize ysize)) ∧
keeps axes_ok LinePlot.close.
Proof.
split; [|split; [|split; [|split; [|split; [|split; [|split]]]]]].
- intros index w. eexists _, _. split; [reflexivity|].
  unfold axes_ok. cbn. split; [apply NoDup_nil_2|]. split; [done|]. split; [lia|].
  split; [by intros [? ?] | lia].
- intros. apply keeps_include.
- intros. apply keeps_include_single.
- intros. unfold LinePlot.include_vline.
  apply keeps_bind; [apply keeps_self | intros].
  destruct ls; [apply keeps_lift | apply keeps_raise].
- intros. apply keeps_finalize.
- unfold LinePlot.display. apply keeps_bind; [apply keeps_self|]. intros s.
  destruct (negb _); [apply keeps_raise|].
  destruct (LinePlot._fig s); [apply keeps_lift | apply keeps_raise].
- intros. unfold LinePlot.save. apply keeps_bind; [apply keeps_self|]. intros s.
  destruct (negb _); [apply keeps_raise|].
  destruct (LinePlot._fig s); [|apply keeps_raise].
  apply keeps_bind; [apply keeps_lift|]. intros _.
  apply keeps_bind; [apply keeps_lift | intros; apply keeps_lift].
- intros s w HI. unfold LinePlot.close, bind. cbn.
  destruct (LinePlot._fig s); cbn; done.
Qed.

End Axes.

(** ** Including lines *)

Section Include.

Lemma axes_kept_witness :
axes_ok (LinePlot.include (PyFrame 0%nat) ["loss"] None 1 None (two_axes_plot, lr_world)).2.1.
Proof.
destruct axes_kept as (_ & H & _).
apply (H (PyFrame 0%nat) ["loss"] None 1%Q None two_axes_plot lr_world).
unfold axes_ok. cbn. split; [by_decide|]. split; [reflexivity|]. split; [lia|].
split; [reflexivity | by eexists].
Defined.

Lemma bind_self {T B} (k : T → St (T * world) B) s w :
bind self k (s, w) = k s (s, w).
Proof. done. Qed.

Lemma frame_and_x_frame s w r df :
LinePlot._idx s = None → frames w !! r = Some df →
LinePlot.frame_and_x (PyFrame r) (s, w) = (Ok (r, df, index df), (s, w)).
Proof.
intros Hidx Hr. unfold LinePlot.frame_and_x. rewrite bind_self.
unfold bind at 1. cbn [ret]. rewrite Hidx.
unfold bind, lift, deref. cbn [fst snd]. by rewrite Hr.
Qed.

Lemma find_key_absent (axs : list (string * bool)) name :
name ∉ map fst axs → list_find (fun e => e.1 = name) axs = None.
Proof.
intros Hn. apply list_find_None, Forall_forall. intros [n ax] Hin Heq.
simpl in Heq. subst n. apply Hn.
apply list_elem_of_In, (in_map fst _ (name, ax)). by apply list_elem_of_In.
Qed.

Lemma get_ax_full s w name :
length (LinePlot._axs s) = 2%nat → name ∉ map fst (LinePlot._axs s) →
LinePlot._get_ax name (s, w) =
  (Raise (RuntimeError (Msg "Line plot cannot have a 3rd y-axis" [])), (s, w)).
Proof.
intros Hlen Hname. unfold LinePlot._get_ax. rewrite bind_self.
rewrite find_key_absent by done. by rewrite Hlen.
Qed.

Lemma lift_getitem {T} (s : T) w df c i col :
list_find (fun x : string * Series => x.1 = c) (columns df) = Some (i, (c, col)) →
lift (getitem df c) (s, w) = (Ok col, (s, w)).
Proof. intros H. unfold lift, getitem. cbn [fst snd]. by rewrite H. Qed.

Lemma find_label_some (cols : list (string * Series)) c :
c ∈ map fst cols → ∃ i col, list_find (fun x => x.1 = c) cols = Some (i, (c, col)).
Proof.
intros Hc. apply list_elem_of_In, in_map_iff in Hc as ([c' col] & Heq & Hin).
simpl in Heq. subst c'.
destruct (list_find_elem_of (fun x : string * Series => x.1 = c) cols (c, col))
  as [[i [c' col']] Hf]; [by apply list_elem_of_In | done |].
pose proof Hf as (_ & Hc' & _)%list_find_Some. simpl in Hc'. subst c'. eauto.
Qed.

(** X23.  With both y-axes taken, a line for a third selector is refused:
  [include_single] for a column of the table raises a [RuntimeError] and
  changes nothing; [include] for a fragment that matches some column
  raises it too, having made its selection but drawn nothing. *)
Theorem third_axis_refused (s : LinePlot.t) (w : world) (r : ref) (df : DataFrame)
  (col key : string) (lalp : Q) (ccnt : option Z) :
LinePlot._fin s = false → LinePlot._idx s = None → frames w !! r = Some df →
length (LinePlot._axs s) = 2%nat → col ∉ map fst (LinePlot._axs s) →
let e := RuntimeError (Msg "Line plot cannot have a 3rd y-axis" []) in
(col ∈ labels df →
   LinePlot.include_single (PyFrame r) key col None lalp ccnt (s, w) = (Raise e, (s, w))) ∧
((∃ c, c ∈ labels df ∧ contains (lower col) (lower c) = true) →
   LinePlot.include (PyFrame r) [col] None lalp ccnt (s, w) =
     (Raise e,
      (s, set_frames w (frames w ++ [getitem_list df (select_columns df [col])])))).
Proof.
intros Hfin Hidx Hr Hlen Hcol e. split.
- intros Hin. destruct (find_label_some _ _ Hin) as (i & davg & Hf).
  unfold LinePlot.include_single. rewrite bind_self, Hfin.
  erewrite bind_Ok by (by apply frame_and_x_frame). cbn beta iota.
  destruct (LinePlot._get_line_style _) as [linestyle color].
  erewrite bind_Ok by (by eapply lift_getitem).
  unfold bind at 1. cbn [ret].
  erewrite bind_Raise by (by apply get_ax_full). done.
- intros (c & Hc & Hm).
  unfold LinePlot.include. rewrite bind_self, Hfin.
  erewrite bind_Ok by (by apply frame_and_x_frame). cbn beta iota.
  cbn [length Nat.eqb for_each].
  assert (Hsel : c ∈ select_columns df [col]).
  { apply elem_of_select_columns. split; [done|]. exists col. split; [by left | done]. }
  assert (Hlab : ∃ c0 rest, labels (getitem_list df (select_columns df [col])) = c0 :: rest).
  { apply list_elem_of_In, in_map_iff in Hc as ([c' colv] & Heq & Hin). simpl in Heq. subst c'.
    assert (Hx : (c, colv) ∈ columns (getitem_list df (select_columns df [col])))
      by (apply elem_of_getitem_list; split; [by apply list_elem_of_In | done]).
    apply elem_of_labels in Hx. fold (labels (getitem_list df (select_columns df [col]))) in Hx.
    destruct (labels _) as [|c0 rest]; [by apply elem_of_nil in Hx | eauto]. }
  destruct Hlab as (c0 & rest & Hlab).
  unfold bind at 1. unfold bind at 1. unfold lift at 1. cbn [fst snd].
  unfold select. cbn [length Nat.eqb]. unfold bind at 1. unfold deref at 1. rewrite Hr.
  unfold bind at 1. cbn [alloc ret].
  unfold bind at 1. unfold lift at 1. cbn [fst snd]. unfold deref.
  cbn [frames]. rewrite lookup_app_r by lia. rewrite Nat.sub_diag. cbn [lookup list_lookup].
  rewrite Hlab. cbn [LinePlot.include_columns].
  unfold bind at 1. unfold LinePlot.include_column. rewrite bind_self, Hidx.
  rewrite bool_decide_eq_false_2 by done.
  erewrite bind_Raise by (by apply get_ax_full). done.
Qed.

Lemma third_axis_refused_witness :
LinePlot.include_single (PyFrame 0%nat) "Loss" "Average loss" None 1 None
  (two_axes_plot, lr_world) =
  (Raise (RuntimeError (Msg "Line plot cannot have a 3rd y-axis" [])),
   (two_axes_plot, lr_world)).
Proof.
assert (Hcol : "Average loss" ∉ map fst (LinePlot._axs two_axes_plot)) by by_decide.
assert (Hin : "Average loss" ∈ labels lr_frame) by by_decide.
exact (proj1 (third_axis_refused two_axes_plot lr_world 0%nat lr_frame "Average loss"
                "Loss" 1 None eq_refl eq_refl eq_refl eq_refl Hcol) Hin).
Defined.

(** X24.  When an axis can be had for the column, [include_single] draws
  exactly one line, labelled with the given key, on that axis, in the style
  and colour of the given number or else of the counter as it was, and
  counts one more line: the counter goes up by one also when the number
  was given. *)
Theorem include_single_draws (s s1 : LinePlot.t) (w w1 : world) (r : ref) (df : DataFrame)
  (key col : string) (davg : Series) (lalp : Q) (ccnt : option Z) (ax : bool) :
LinePlot._fin s = false → LinePlot._idx s = None → frames w !! r = Some df →
NoDup (labels df) → (col, davg) ∈ columns df →
LinePlot._get_ax col (s, w) = (Ok ax, (s1, w1)) →
LinePlot.include_single (PyFrame r) key col None lalp ccnt (s, w) =
  (Ok tt,
   (bumped s1,
    add_call w1
      (Plot (LinePlot._ax s) ax (index df) davg key
         (LinePlot._get_line_style (default (LinePlot._cnt s) ccnt)).1
         (LinePlot._get_line_style (default (LinePlot._cnt s) ccnt)).2 lalp))).
Proof.
intros Hfin Hidx Hr Hnd Hin Hax.
destruct (find_label_unique _ _ _ Hnd Hin) as [i Hf].
unfold LinePlot.include_single. rewrite bind_self, Hfin.
erewrite bind_Ok by (by apply frame_and_x_frame). cbn beta iota.
destruct (LinePlot._get_line_style _) as [linestyle color].
erewrite bind_Ok by (by eapply lift_getitem).
unfold bind at 1. cbn [ret].
erewrite bind_Ok by exact Hax. done.
Qed.

Lemma include_single_draws_witness :
LinePlot.include_single (PyFrame 0%nat) "Top-1" "Accuracy" None 1 (Some 7%Z)
  (LinePlot.mk false (Some 0%nat) 0%nat None [] None 0, select_world) =
  (Ok tt,
   (LinePlot.mk false (Some 0%nat) 0%nat None [("Accuracy", false)] None 1,
    mkWorld (frames select_world) []
      [Plot 0 false [VNum 0; VNum 1] [VNum (1 # 2); VNum (3 # 4)] "Top-1" "-." "C7" 1])).
Proof.
assert (Hnd : NoDup ["Average loss"; "Accuracy"; "Loss err"]) by by_decide.
refine (eq_trans
          (include_single_draws (LinePlot.mk false (Some 0%nat) 0%nat None [] None 0)
             (LinePlot.mk false (Some 0%nat) 0%nat None [("Accuracy", false)] None 0)
             select_world select_world 0%nat _ "Top-1" "Accuracy"
             [VNum (1 # 2); VNum (3 # 4)] 1 (Some 7%Z) false
             eq_refl eq_refl eq_refl Hnd
             ltac:(apply list_elem_of_further, list_elem_of_here) eq_refl) _).
by vm_compute.
Defined.

(** X25.  [include] and [include_single] check what they are given before
  drawing anything.  On a plot that is not finalized, an argument that is
  neither a session nor a table, a session without table, and a table
  lacking the column the plot takes its abscissas from, each make them
  raise, and the plot and the world stay as they are. *)
Theorem include_checks (s : LinePlot.t) (w : world) (cols : list string)
  (key col : string) (errs : option string) (lalp : Q) (ccnt : option Z) :
LinePlot._fin s = false →
(∀ ty,
   let e := RuntimeError (Msg "Expected a Session or DataFrame for 'data', got a %r"
                            [ArgStr ty]) in
   LinePlot.include (PyOther ty) cols errs lalp ccnt (s, w) = (Raise e, (s, w)) ∧
   LinePlot.include_single (PyOther ty) key col errs lalp ccnt (s, w) = (Raise e, (s, w))) ∧
(∀ sess, data sess = None → LinePlot._idx s = None →
   LinePlot.include (PySession sess) cols errs lalp ccnt (s, w) =
     (Raise (no_attribute "NoneType" "index"), (s, w)) ∧
   LinePlot.include_single (PySession sess) key col errs lalp ccnt (s, w) =
     (Raise (no_attribute "NoneType" "index"), (s, w))) ∧
(∀ r df idx, frames w !! r = Some df → LinePlot._idx s = Some idx → idx ∉ labels df →
   let e := RuntimeError
              (Msg "No column named %r to use as index in the given session/dataframe"
                 [ArgStr idx]) in
   LinePlot.include (PyFrame r) cols errs lalp ccnt (s, w) = (Raise e, (s, w)) ∧
   LinePlot.include_single (PyFrame r) key col errs lalp ccnt (s, w) = (Raise e, (s, w))).
Proof.
intros Hfin. split; [|split].
- intros ty e. split.
  + unfold LinePlot.include. rewrite bind_self, Hfin. done.
  + unfold LinePlot.include_single. rewrite bind_self, Hfin. done.
- intros sess Hdata Hidx.
  assert (Hx : LinePlot.frame_and_x (PySession sess) (s, w) =
               (Raise (no_attribute "NoneType" "index"), (s, w))).
  { unfold LinePlot.frame_and_x. rewrite bind_self. unfold bind at 1. cbn [ret].
    unfold session_data. by rewrite Hdata, Hidx. }
  split.
  + unfold LinePlot.include. rewrite bind_self, Hfin. by erewrite bind_Raise by exact Hx.
  + unfold LinePlot.include_single. rewrite bind_self, Hfin.
    by erewrite bind_Raise by exact Hx.
- intros r df idx Hr Hidx Hno e.
  assert (Hx : LinePlot.frame_and_x (PyFrame r) (s, w) = (Raise e, (s, w))).
  { unfold LinePlot.frame_and_x. rewrite bind_self. unfold bind at 1. cbn [ret].
    rewrite Hidx. unfold bind, lift, deref. cbn [fst snd]. rewrite Hr.
    by rewrite not_str_in. }
  split.
  + unfold LinePlot.include. rewrite bind_self, Hfin. by erewrite bind_Raise by exact Hx.
  + unfold LinePlot.include_single. rewrite bind_self, Hfin.
    by erewrite bind_Raise by exact Hx.
Qed.

Lemma include_checks_witness :
LinePlot.include (PyOther "list") [] None 1 None closed_lineplot =
  (Raise (RuntimeError (Msg "Expected a Session or DataFrame for 'data', got a %r"
                          [ArgStr "list"])), closed_lineplot).
Proof.
destruct (include_checks closed_lineplot.1 closed_lineplot.2 [] "k" "c" None 1 None
            eq_refl) as [H _].
exact (proj1 (H "list")).
Defined.

(** X26.  [finalize] on a plot that is not finalized yet.  With a line on
  it, it returns and marks the plot finalized; it warns exactly when a
  label for the second y-axis comes without such an axis, or such an axis
  without a label, and in the latter case the second axis is given the
  label of the first.  Without any line and without a legend given, the
  legend is asked for with nothing in place of its handles: a [TypeError]
  comes out, nothing is drawn or warned of, and the plot is not
  finalized. *)
Theorem finalize_labels (s : LinePlot.t) (w : world) (title xlabel ylabel : string)
  (zlabel : option string) (xmin xmax ymin ymax zmin zmax : option Q)
  (legend : option (list string)) :
LinePlot._fin s = false →
(LinePlot._axs s ≠ [] →
 ∃ new,
   LinePlot.finalize title xlabel ylabel zlabel xmin xmax ymin ymax zmin zmax legend (s, w) =
     (Ok tt,
      (LinePlot.mk true (LinePlot._fig s) (LinePlot._ax s) (LinePlot._tax s)
         (LinePlot._axs s) (LinePlot._idx s) (LinePlot._cnt s),
       mkWorld (frames w)
         (warnings w ++ finalize_warnings ylabel zlabel (LinePlot._tax s))
         (mpl w ++ new))) ∧
   (∀ tax, LinePlot._tax s = Some tax →
      SetYlabel tax true (default ylabel zlabel) ∈ new)) ∧
(LinePlot._axs s = [] →
 ∃ m,
   LinePlot.finalize title xlabel ylabel zlabel xmin xmax ymin ymax zmin zmax None (s, w) =
     (Raise (TypeError m), (s, w))).
Proof.
intros Hfin. split.
- intros Haxs. unfold LinePlot.finalize. rewrite bind_self, Hfin.
  unfold bind at 1. unfold lift at 1. cbn [fst snd].
  destruct (legend_entries_length (LinePlot._ax s) (map snd (LinePlot._axs s)) w)
    as (es & -> & Hlen).
  destruct es as [|e es].
  { exfalso. destruct (LinePlot._axs s); [done | discriminate]. }
  cbn [map generator_sum].
  destruct zlabel as [z|], (LinePlot._tax s) as [tax|]; cbn;
    rewrite ?app_nil_r, <- ?app_assoc; cbn [app];
    (eexists; split; [reflexivity|]); intros tax' [= <-] || intros tax' [=];
    cbn; repeat ((by left) || right).
- intros Haxs. unfold LinePlot.finalize. rewrite bind_self, Hfin, Haxs.
  by eexists.
Qed.

Lemma finalize_labels_witness :
LinePlot._fin twin_lineplot.1 = false ∧
∃ new,
  LinePlot.finalize "Loss" "Step" "Loss" None None None None None None None None
    twin_lineplot =
    (Ok tt,
     (LinePlot.mk true (Some 0%nat) 0%nat (Some 0%nat)
        [("loss", false); ("acc", true)] None 3,
      mkWorld (frames twin_lineplot.2)
        [Msg "No label provided for the secondary y-axis; using label %r from the primary"
           [ArgStr "Loss"]]
        (mpl twin_lineplot.2 ++ new))) ∧
  SetYlabel 0 true "Loss" ∈ new.
Proof.
split; [reflexivity|].
destruct (finalize_labels twin_lineplot.1 twin_lineplot.2 "Loss" "Step" "Loss" None
            None None None None None None None eq_refl) as [H _].
destruct (H ltac:(discriminate)) as (new & Heq & Hin).
exists new. split; [exact Heq | exact (Hin 0%nat eq_refl)].
Defined.

End Include.

(** ** The aggregation rule of a session *)

Section Ratio.

Variable bound : Type.
Variable gars : gmap string (rule bound).

(** X27.  [has_known_ratio] never raises and touches no table.  It answers
  yes exactly when the configuration names, under "gar", a rule of the
  registry that has an upper bound; it warns, once, exactly when there is
  no configuration or no "gar" in it. *)
Theorem known_ratio (s : Session) (w : world) :
∃ b ws,
  has_known_ratio bound gars s w =
    (Ok b, mkWorld (frames w) (warnings w ++ ws) (mpl w)) ∧
  (b = true ↔ ∃ cfg name found ub,
      json s = Some cfg ∧ cfg !! "gar" = Some (JStr name) ∧
      gars !! name = Some found ∧ upper_bound bound found = Some ub) ∧
  (ws = [] ↔ ∃ cfg, json s = Some cfg ∧ is_Some (cfg !! "gar")) ∧
  (length ws ≤ 1)%nat.
Proof.
unfold has_known_ratio.
destruct (json s) as [cfg|] eqn:Hjson.
2:{ eexists false, [_]. split; [reflexivity|]. split; [|split; [|done]].
    - split; [done | by intros (? & ? & ? & ? & ? & _)].
    - split; [done | by intros (? & ? & _)]. }
destruct (cfg !! "gar") as [g|] eqn:Hg.
2:{ eexists false, [_]. split; [reflexivity|]. split; [|split; [|done]].
    - split; [done|]. intros (? & ? & ? & ? & [= <-] & ? & _). congruence.
    - split; [done|]. intros (? & [= <-] & [? ?]). congruence. }
assert (Hws : @nil message = [] ↔ ∃ cfg0 : gmap string json_value,
                 Some cfg = Some cfg0 ∧ is_Some (cfg0 !! "gar")).
{ split; [|done]. intros _. exists cfg. split; [done|]. by rewrite Hg. }
destruct (dict_get gars g) as [found|] eqn:Hd.
- destruct (upper_bound bound found) as [ub|] eqn:Hub.
  + exists true, []. cbn. rewrite app_nil_r. split; [by destruct w|].
    split; [|split; [exact Hws | lia]]. split; [|done]. intros _.
    destruct g as [| | |name]; try done. cbn in Hd. by exists cfg, name, found, ub.
  + exists false, []. cbn. rewrite app_nil_r. split; [by destruct w|].
    split; [|split; [exact Hws | lia]]. split; [done|].
    intros (cfg' & name & found' & ub & [= <-] & Hg' & Hf & Hu).
    rewrite Hg in Hg'. inversion Hg'; subst. cbn in Hd. congruence.
- exists false, []. cbn. rewrite app_nil_r. split; [by destruct w|].
  split; [|split; [exact Hws | lia]]. split; [done|].
  intros (cfg' & name & found' & ub & [= <-] & Hg' & Hf & Hu).
  rewrite Hg in Hg'. inversion Hg'; subst. cbn in Hd. congruence.
Qed.

End Ratio.

(** ** What makes the loading of a session fail *)

Section LoadMore.

Variable json_load : string -> option (gmap string json_value).
Variable key_order : list value -> list value -> list value.

(** X28.  [Session.__init__] raises in two cases only: the path does not
    exist, and then the world is left as it was; or both logs could be read
    and have a column of the same name, and then the join raises a
    [ValueError].  An unreadable configuration or log alone never makes it
    raise. *)
Theorem session_init_raises (fs : filesystem) (p : Path) (w w' : world) (e : exn) :
  Session_init json_load key_order fs (PathObj p) w = (Raise e, w') →
  (path_exists fs p = false ∧ w' = w ∧
   e = UserException (Msg "Result directory %r cannot be accessed or does not exist"
                        [ArgStr (path_str p)])) ∨
  (∃ study eval c m,
     read_csv fs (p ++ ["study"]) "009" ["     nan"] = inl study ∧
     read_csv fs (p ++ ["eval"]) "009" [] = inl eval ∧
     c ∈ labels study ∧ c ∈ labels eval ∧ e = ValueError m).
Proof.
  intros H. destruct (path_exists fs p) eqn:Hex.
  - right. rewrite Session_init_logs in H by done. unfold load_logs in H.
    destruct (read_csv fs (p ++ ["study"]) "009" ["     nan"]) as [study|e1] eqn:Hs;
      destruct (read_csv fs (p ++ ["eval"]) "009" []) as [ev|e2] eqn:He;
      [|cbn in H; discriminate..].
    destruct (join_outer key_order (set_index_name "Step number" study)
                (set_index_name "Step number" ev)) as [J|e'] eqn:HJ.
    + cbn -[merge] in H. erewrite bind_Ok in H.
      2:{ apply (merge_both _ _ _ _ (set_index_name "Step number" study)
                   (set_index_name "Step number" ev) J); [| |exact HJ]; cbn [frames].
          - rewrite <- app_assoc. rewrite lookup_app_r by lia.
            by rewrite Nat.sub_diag.
          - rewrite lookup_app_r by done. by rewrite Nat.sub_diag. }
      cbn in H. discriminate.
    + cbn -[merge] in H. erewrite bind_Raise in H.
      2:{ apply (merge_overlap _ _ _ _ (set_index_name "Step number" study)
                   (set_index_name "Step number" ev) e'); [| |exact HJ]; cbn [frames].
          - rewrite <- app_assoc. rewrite lookup_app_r by lia.
            by rewrite Nat.sub_diag.
          - rewrite lookup_app_r by done. by rewrite Nat.sub_diag. }
      inversion H; subst. unfold join_outer in HJ.
      destruct (filter _ _) as [|c rest] eqn:Hf; [done|]. inversion HJ; subst.
      assert (Hc : c ∈ filter (λ c, str_in c (labels (set_index_name "Step number" ev)))
                     (labels (set_index_name "Step number" study)))
        by (rewrite Hf; apply list_elem_of_here).
      apply list_elem_of_filter in Hc as [Hin1 Hin2].
      exists study, ev, c, (Msg "columns overlap but no suffix specified: %s" [ArgStr c]).
      repeat split; try done.
      destruct (str_in_spec c (labels ev)) as [[_ Hc]|[Hc _]]; [exact Hc|].
      change (labels (set_index_name "Step number" ev)) with (labels ev) in Hin1.
      by rewrite Hc in Hin1.
  - left. unfold Session_init in H. rewrite Hex in H. cbn in H. by inversion H.
Qed.

End LoadMore.

Lemma session_init_raises_witness :
  ∃ study eval c m,
    read_csv overlap_fs ["run"; "study"] "009" ["     nan"] = inl study ∧
    read_csv overlap_fs ["run"; "eval"] "009" [] = inl eval ∧
    c ∈ labels study ∧ c ∈ labels eval ∧
    (Session_init (fun _ => None) appearance_order overlap_fs (PathObj ["run"]) empty_world).1 =
      Raise (ValueError m).
Proof.
  destruct (Session_init (fun _ => None) appearance_order overlap_fs (PathObj ["run"]) empty_world)
    as [[s|e] w'] eqn:Heq; [by vm_compute in Heq|].
  destruct (session_init_raises (fun _ => None) appearance_order overlap_fs ["run"] empty_world w' e Heq)
    as [(Hex & _)|(study & ev & c & m & Hs & He & H1 & H2 & ->)];
    [by vm_compute in Hex|].
  by exists study, ev, c, m.
Defined.
